(** * NEXUS-RSI wave orchestration: a shallow embedding and its properties

    The development follows [wave/wave_orchestrator.py] (complexity analysis,
    strategy selection, the phase loop with its checkpoints, adaptive phase
    planning, progressive iteration, the report of a wave and the entry
    point), [wave/wave_integration.py] (the agent bridge, the adaptive wave
    and the enterprise fan-out) and [agents/master_orchestrator.py] (the
    agents, their workflows and the orchestration loop).

    Conventions of the embedding:
    - a Python [float] is a binary64 value, Rocq's primitive [float];
      comparisons, [min] and [max] are written out as CPython evaluates them;
    - a Python [int] is a [Z]; a loop count is a [nat];
    - a Python [str] is a [string] of 8-bit characters, and [str.lower] is
      its action on ASCII text;
    - the sqlite database is a record of its three tables, each a list of
      rows in insertion order (the autoincrement id of a row is its
      position);
    - wall-clock readings ([time.time()], durations, timestamps) and log
      lines are left out;
    - what the outside world decides (the file system under a target, whether
      the body of a phase raises, the score an agent reports) enters as an
      explicit argument. *)

From Stdlib Require Import ZArith List String Ascii Bool Lia Arith.
From Stdlib Require Import Floats Uint63 DecimalString Sorted.
Import ListNotations.

Set Warnings "-inexact-float".
Local Open Scope string_scope.
Local Open Scope list_scope.

(** ** Python floats *)

Module PyFloat.

(** [a > b] on floats. *)
Definition gt (a b : float) : bool := PrimFloat.ltb b a.

(** [a == b] on floats. *)
Definition eq (a b : float) : bool := PrimFloat.eqb a b.

(** [a >= b], used to state bounds. *)
Definition ge (a b : float) : bool := PrimFloat.leb b a.

(** [min(a, b)]: the first argument unless the second is smaller. *)
Definition min (a b : float) : float := if PrimFloat.ltb b a then b else a.

(** [max(a, b)]: the first argument unless the second is greater. *)
Definition max (a b : float) : float := if PrimFloat.ltb a b then b else a.

(** The conversion of an [int] that meets a float in arithmetic; exact
    below 2^53, rounded to nearest below 2^63, which no count of files or
    phases reaches. *)
Definition of_int (n : Z) : float := PrimFloat.of_uint63 (Uint63.of_Z n).

(** [a / b] on two ints (true division), for a non-zero divisor. *)
Definition truediv (a b : Z) : float := PrimFloat.div (of_int a) (of_int b).

End PyFloat.

(** ** Python strings *)

Module PyStr.

Definition lower_char (c : ascii) : ascii :=
  let n := nat_of_ascii c in
  if (65 <=? n)%nat && (n <=? 90)%nat then ascii_of_nat (n + 32) else c.

(** [s.lower()] on ASCII text: the letters A to Z are lowered and nothing
    else changes. *)
Fixpoint lower (s : string) : string :=
  match s with
  | EmptyString => EmptyString
  | String c t => String (lower_char c) (lower t)
  end.

(** [s.isascii()]: every character is below 128. These are the strings on
    which [str.lower()], which follows the Unicode case mapping (the Kelvin
    sign U+212A becomes "k"), is [lower]. *)
Fixpoint isascii (s : string) : bool :=
  match s with
  | EmptyString => true
  | String c t => (nat_of_ascii c <? 128)%nat && isascii t
  end.

(** [needle in hay] on strings: [needle] occurs as a substring. *)
Fixpoint contains (needle hay : string) : bool :=
  String.prefix needle hay
  || match hay with
     | EmptyString => false
     | String _ t => contains needle t
     end.

(** [x in xs] on a list of strings. *)
Definition mem (x : string) (xs : list string) : bool :=
  existsb (String.eqb x) xs.

(** [str(n)] for a non-negative int. *)
Definition of_nat (n : nat) : string := NilZero.string_of_uint (Nat.to_uint n).

End PyStr.

(** ** The enumerations *)

Inductive WaveStrategy := PROGRESSIVE | SYSTEMATIC | ADAPTIVE | ENTERPRISE.

Inductive WavePhase := REVIEW | PLANNING | IMPLEMENTATION | VALIDATION | OPTIMIZATION.

Definition strategy_value (s : WaveStrategy) : string :=
  match s with
  | PROGRESSIVE => "progressive"
  | SYSTEMATIC => "systematic"
  | ADAPTIVE => "adaptive"
  | ENTERPRISE => "enterprise"
  end.

Definition phase_value (p : WavePhase) : string :=
  match p with
  | REVIEW => "review"
  | PLANNING => "planning"
  | IMPLEMENTATION => "implementation"
  | VALIDATION => "validation"
  | OPTIMIZATION => "optimization"
  end.

(** [list(WavePhase)]: the members in definition order. *)
Definition all_phases : list WavePhase :=
  [REVIEW; PLANNING; IMPLEMENTATION; VALIDATION; OPTIMIZATION].

Definition phase_eqb (p q : WavePhase) : bool :=
  match p, q with
  | REVIEW, REVIEW | PLANNING, PLANNING | IMPLEMENTATION, IMPLEMENTATION
  | VALIDATION, VALIDATION | OPTIMIZATION, OPTIMIZATION => true
  | _, _ => false
  end.

(** The rank of a phase in the standard order. *)
Definition phase_rank (p : WavePhase) : nat :=
  match p with
  | REVIEW => 0
  | PLANNING => 1
  | IMPLEMENTATION => 2
  | VALIDATION => 3
  | OPTIMIZATION => 4
  end.

(** ** Python dictionaries with string keys

    Insertion order is kept ([values()] and JSON dumps follow it); setting an
    existing key overwrites its value in place. *)

Module PyDict.

Definition t (V : Type) : Type := list (string * V).

Fixpoint get {V} (k : string) (d : t V) : option V :=
  match d with
  | [] => None
  | (k', v) :: rest => if String.eqb k k' then Some v else get k rest
  end.

Fixpoint set {V} (k : string) (v : V) (d : t V) : t V :=
  match d with
  | [] => [(k, v)]
  | (k', v') :: rest =>
      if String.eqb k k' then (k, v) :: rest else (k', v') :: set k v rest
  end.

Definition keys {V} (d : t V) : list string := map fst d.

Definition values {V} (d : t V) : list V := map snd d.

End PyDict.

(** ** Exceptions that leave a function *)

Inductive PyError := IntegrityError | ZeroDivisionError.

Inductive Result (A : Type) : Type :=
| Ok (a : A)
| Raise (e : PyError).

Arguments Ok {A} a.
Arguments Raise {A} e.

Definition bind {A B} (r : Result A) (k : A -> Result B) : Result B :=
  match r with
  | Ok a => k a
  | Raise e => Raise e
  end.

(** ** Phase results *)

(** The phase-specific entry of a phase's result dictionary; its key is the
    constructor's name. *)
Inductive Payload :=
| findings (issues_found critical high medium : Z)
| plan (steps : Z) (estimated_time risk_level : string)
| changes (files_modified lines_changed tests_added : Z)
| validation (tests_passed tests_failed : Z) (coverage : float)
| optimization (performance_gain memory_saved complexity_reduced : string).

Inductive PhaseStatus := in_progress | completed | failed.

Definition phase_status_eqb (a b : PhaseStatus) : bool :=
  match a, b with
  | in_progress, in_progress | completed, completed | failed, failed => true
  | _, _ => false
  end.

Record PhaseResult := {
  pr_phase : string;
  pr_status : PhaseStatus;
  pr_primary_agent : option string;
  pr_support_agents : list string;
  pr_tools_used : list string;
  pr_metrics : PyDict.t float;
  pr_payload : option Payload;
  pr_error : option string
}.

(** ** Configuration held by the orchestrator *)

Record AgentConfig := {
  primary : string;
  support : list string;
  tools : list string
}.

Inductive Iterations := iterations_int (n : nat) | iterations_auto.

Record StrategyConfig := {
  phases : list WavePhase;
  iterations : Iterations;
  checkpoint_frequency : string;
  rollback_enabled : bool;
  parallel_execution : bool;
  distributed : option bool
}.

Record WaveOrchestrator := {
  agents_config : PyDict.t AgentConfig;
  strategy_configs : WaveStrategy -> StrategyConfig
}.

(** The attributes [WaveOrchestrator.__init__] sets. *)
Definition init_agents_config : PyDict.t AgentConfig :=
  [ ("review",
      {| primary := "analyzer"; support := ["quality"; "security"];
         tools := ["Read"; "Grep"; "Sequential"] |});
    ("planning",
      {| primary := "architect"; support := ["performance"];
         tools := ["Sequential"; "Context7"; "Write"] |});
    ("implementation",
      {| primary := "builder"; support := ["quality"];
         tools := ["Edit"; "MultiEdit"; "Task"] |});
    ("validation",
      {| primary := "qa"; support := ["security"; "performance"];
         tools := ["Sequential"; "Playwright"; "Context7"] |});
    ("optimization",
      {| primary := "performance"; support := ["quality"];
         tools := ["Read"; "Sequential"; "Grep"] |}) ].

Definition init_strategy_configs (s : WaveStrategy) : StrategyConfig :=
  match s with
  | PROGRESSIVE =>
      {| phases := [REVIEW; IMPLEMENTATION; VALIDATION];
         iterations := iterations_int 3;
         checkpoint_frequency := "per_iteration";
         rollback_enabled := true;
         parallel_execution := false;
         distributed := None |}
  | SYSTEMATIC =>
      {| phases := all_phases;
         iterations := iterations_int 1;
         checkpoint_frequency := "per_phase";
         rollback_enabled := true;
         parallel_execution := false;
         distributed := None |}
  | ADAPTIVE =>
      {| phases := [];
         iterations := iterations_auto;
         checkpoint_frequency := "adaptive";
         rollback_enabled := true;
         parallel_execution := true;
         distributed := None |}
  | ENTERPRISE =>
      {| phases := all_phases;
         iterations := iterations_int 1;
         checkpoint_frequency := "continuous";
         rollback_enabled := true;
         parallel_execution := true;
         distributed := Some true |}
  end.

Definition init : WaveOrchestrator :=
  {| agents_config := init_agents_config;
     strategy_configs := init_strategy_configs |}.

(** ** The wave context *)

(** The dataclass without [start_time], which holds the clock reading taken
    when the context is built. *)
Record WaveContext := {
  wave_id : string;
  strategy : WaveStrategy;
  complexity_score : float;
  file_count : Z;
  operation_types : list string;
  domains : list string;
  current_phase : WavePhase;
  phase_results : PyDict.t PhaseResult;
  metrics : PyDict.t float
}.

(** The dataclass constructor with its defaults. *)
Definition new_context (id : string) (s : WaveStrategy) (score : float)
    (files : Z) (ops doms : list string) : WaveContext :=
  {| wave_id := id; strategy := s; complexity_score := score;
     file_count := files; operation_types := ops; domains := doms;
     current_phase := REVIEW; phase_results := []; metrics := [] |}.

Definition set_wave_id (ctx : WaveContext) (id : string) : WaveContext :=
  {| wave_id := id; strategy := strategy ctx;
     complexity_score := complexity_score ctx; file_count := file_count ctx;
     operation_types := operation_types ctx; domains := domains ctx;
     current_phase := current_phase ctx; phase_results := phase_results ctx;
     metrics := metrics ctx |}.

Definition set_current_phase (ctx : WaveContext) (p : WavePhase) : WaveContext :=
  {| wave_id := wave_id ctx; strategy := strategy ctx;
     complexity_score := complexity_score ctx; file_count := file_count ctx;
     operation_types := operation_types ctx; domains := domains ctx;
     current_phase := p; phase_results := phase_results ctx;
     metrics := metrics ctx |}.

Definition set_phase_result (ctx : WaveContext) (k : string) (r : PhaseResult)
    : WaveContext :=
  {| wave_id := wave_id ctx; strategy := strategy ctx;
     complexity_score := complexity_score ctx; file_count := file_count ctx;
     operation_types := operation_types ctx; domains := domains ctx;
     current_phase := current_phase ctx;
     phase_results := PyDict.set k r (phase_results ctx);
     metrics := metrics ctx |}.

(** ** Complexity analysis *)

(** What the file system answers about a target inside the [try] block of
    [analyze_complexity]. *)
Inductive PathState :=
| Missing                       (* [exists()] is false *)
| RegularFile                   (* [is_file()] is true *)
| Directory (py_files : nat)    (* [is_dir()] is true; [rglob("*.py")] yields so many paths *)
| Special                       (* exists, neither a file nor a directory *)
| Inaccessible.                 (* a call of the block raises *)

Definition FileSystem := string -> PathState.

(** [operation_keywords], in insertion order. *)
Definition operation_keywords : list (string * string) :=
  [ ("optimize", "optimization");
    ("refactor", "refactoring");
    ("security", "security_audit");
    ("performance", "performance_tuning");
    ("quality", "quality_improvement");
    ("test", "testing");
    ("document", "documentation") ].

(** [domain_keywords], in insertion order. *)
Definition domain_keywords : list (string * list string) :=
  [ ("frontend", ["ui"; "component"; "react"; "vue"]);
    ("backend", ["api"; "server"; "database"; "endpoint"]);
    ("infrastructure", ["docker"; "kubernetes"; "deploy"]);
    ("security", ["auth"; "vulnerability"; "encrypt"]);
    ("data", ["etl"; "pipeline"; "analytics"]) ].

(** The [try] block: the file count and the base score. A raise leaves both
    at their initial values, the bare [except] swallows it. *)
Definition file_analysis (fs : FileSystem) (target : string) : float * Z :=
  match fs target with
  | RegularFile => (0.3%float, 1%Z)
  | Directory n =>
      let file_count := Z.of_nat n in
      (PyFloat.min (0.3 + PyFloat.of_int file_count * 0.01)%float 1.0%float,
       file_count)
  | Missing | Special | Inaccessible => (0.0%float, 0%Z)
  end.

(** The loop over [operation_keywords.items()]. *)
Fixpoint detect_operations (kws : list (string * string)) (target : string)
    (operation_types : list string) (complexity_score : float)
    : list string * float :=
  match kws with
  | [] => (operation_types, complexity_score)
  | (keyword, op_type) :: rest =>
      if PyStr.contains keyword (PyStr.lower target)
      then detect_operations rest target (operation_types ++ [op_type])
             (complexity_score + 0.1)%float
      else detect_operations rest target operation_types complexity_score
  end.

(** The loop over [domain_keywords.items()]. *)
Fixpoint detect_domains (kws : list (string * list string)) (target : string)
    (domains : list string) (complexity_score : float)
    : list string * float :=
  match kws with
  | [] => (domains, complexity_score)
  | (domain, keywords) :: rest =>
      if existsb (fun kw => PyStr.contains kw (PyStr.lower target)) keywords
      then detect_domains rest target (domains ++ [domain])
             (complexity_score + 0.05)%float
      else detect_domains rest target domains complexity_score
  end.

(** The scale adjustment that ends the analysis. *)
Definition adjust_for_scale (file_count : Z) (complexity_score : float) : float :=
  if (file_count >? 100)%Z then PyFloat.max complexity_score 0.8%float
  else if (file_count >? 50)%Z then PyFloat.max complexity_score 0.7%float
  else complexity_score.

Definition analyze_complexity (fs : FileSystem) (target : string)
    : float * Z * list string * list string :=
  let '(complexity_score, file_count) := file_analysis fs target in
  let '(operation_types, complexity_score) :=
    detect_operations operation_keywords target [] complexity_score in
  let '(domains, complexity_score) :=
    detect_domains domain_keywords target [] complexity_score in
  let complexity_score := PyFloat.min complexity_score 1.0%float in
  let complexity_score := adjust_for_scale file_count complexity_score in
  (complexity_score, file_count, operation_types, domains).

(** ** Strategy selection *)

Definition select_strategy (context : WaveContext) : WaveStrategy :=
  if (file_count context >? 100)%Z
     && PyFloat.gt (complexity_score context) 0.7%float
  then ENTERPRISE
  else if (2 <? List.length (domains context))%nat
          && (3 <? List.length (operation_types context))%nat
  then ADAPTIVE
  else if PyFloat.gt (complexity_score context) 0.8%float
          && PyStr.mem "security_audit" (operation_types context)
  then SYSTEMATIC
  else if PyStr.mem "optimization" (operation_types context)
          || PyStr.mem "refactoring" (operation_types context)
  then PROGRESSIVE
  else SYSTEMATIC.

(** ** Adaptive phase planning *)

Definition select_adaptive_phases (context : WaveContext) : list WavePhase :=
  let phases := [REVIEW] in
  let phases :=
    if PyFloat.gt (complexity_score context) 0.7%float
    then phases ++ [PLANNING] else phases in
  let phases := phases ++ [IMPLEMENTATION] in
  let phases :=
    if PyStr.mem "testing" (operation_types context)
       || PyFloat.gt (complexity_score context) 0.6%float
    then phases ++ [VALIDATION] else phases in
  let phases :=
    if PyStr.mem "optimization" (operation_types context)
       || PyStr.mem "performance_tuning" (operation_types context)
    then phases ++ [OPTIMIZATION] else phases in
  phases.


(** ** The database *)

Inductive WaveStatus := wave_in_progress | wave_completed | wave_partial.

Definition wave_status_value (s : WaveStatus) : string :=
  match s with
  | wave_in_progress => "in_progress"
  | wave_completed => "completed"
  | wave_partial => "partial"
  end.

Record WaveMetrics := {
  phases_completed : nat;
  success_rate : float
}.

Record WaveResults := {
  res_wave_id : string;
  res_strategy : string;
  res_phases : PyDict.t PhaseResult;
  res_metrics : WaveMetrics
}.

Record WaveRow := {
  row_wave_id : string;
  row_strategy : string;
  row_complexity_score : float;
  row_file_count : Z;
  row_status : WaveStatus;
  row_phases_completed : nat;
  row_total_phases : nat;
  row_metrics : option WaveMetrics;
  row_results : option WaveResults
}.

Record PhaseRow := {
  prow_wave_id : string;
  prow_phase : string;
  prow_status : PhaseStatus;
  prow_agent_primary : option string;
  prow_agents_support : list string;
  prow_results : option PhaseResult;
  prow_metrics : option (PyDict.t float)
}.

Record Snapshot := {
  snap_phase : string;
  snap_phase_results : PyDict.t PhaseResult;
  snap_metrics : PyDict.t float
}.

Record CheckpointRow := {
  cp_wave_id : string;
  cp_phase : string;
  cp_state_snapshot : Snapshot;
  cp_can_rollback : bool
}.

Record Database := {
  waves : list WaveRow;
  wave_phases : list PhaseRow;
  wave_checkpoints : list CheckpointRow
}.

Definition empty_database : Database :=
  {| waves := []; wave_phases := []; wave_checkpoints := [] |}.

(** What sqlite3 takes as a parameter and gives back. A Python [int] is
    bound as a signed 64-bit integer: for any other, [execute] raises
    [OverflowError] before the statement runs. A [float] read from a REAL
    column is the one that was bound, except that NaN is stored as NULL and
    that -0.0 comes back as 0.0. The tables hold the values as they were
    bound; what is proved of a pass is proved for a file count that can be
    bound, and what is proved of a score read back, for a score that comes
    back as it was. *)
Definition sqlite_integer (n : Z) : bool :=
  (- 2 ^ 63 <=? n)%Z && (n <? 2 ^ 63)%Z.


(** [wave_id] is the primary key of [waves]. *)
Definition wave_exists (db : Database) (id : string) : bool :=
  existsb (fun r => String.eqb (row_wave_id r) id) (waves db).

Definition insert_wave (db : Database) (r : WaveRow) : Result Database :=
  if wave_exists db (row_wave_id r) then Raise IntegrityError
  else Ok {| waves := waves db ++ [r];
             wave_phases := wave_phases db;
             wave_checkpoints := wave_checkpoints db |}.

(** [UPDATE waves SET ... WHERE wave_id = ?] *)
Definition update_wave (db : Database) (id : string) (status : WaveStatus)
    (completed_count : nat) (m : WaveMetrics) (res : WaveResults) : Database :=
  {| waves :=
       map (fun r =>
              if String.eqb (row_wave_id r) id
              then {| row_wave_id := row_wave_id r;
                      row_strategy := row_strategy r;
                      row_complexity_score := row_complexity_score r;
                      row_file_count := row_file_count r;
                      row_status := status;
                      row_phases_completed := completed_count;
                      row_total_phases := row_total_phases r;
                      row_metrics := Some m;
                      row_results := Some res |}
              else r)
           (waves db);
     wave_phases := wave_phases db;
     wave_checkpoints := wave_checkpoints db |}.

Definition insert_phase (db : Database) (r : PhaseRow) : Database :=
  {| waves := waves db;
     wave_phases := wave_phases db ++ [r];
     wave_checkpoints := wave_checkpoints db |}.

Fixpoint update_nth {A} (i : nat) (f : A -> A) (l : list A) : list A :=
  match l, i with
  | [], _ => []
  | x :: rest, O => f x :: rest
  | x :: rest, S j => x :: update_nth j f rest
  end.

(** [UPDATE wave_phases SET ... WHERE id = ?]; a [None] id (SQL [NULL])
    selects no row. *)
Definition update_phase (db : Database) (phase_id : option nat)
    (f : PhaseRow -> PhaseRow) : Database :=
  match phase_id with
  | None => db
  | Some i =>
      {| waves := waves db;
         wave_phases := update_nth i f (wave_phases db);
         wave_checkpoints := wave_checkpoints db |}
  end.

(** [conn.cursor().lastrowid]: the cursor is created after the insert has
    run on the connection, and a cursor that has executed nothing has no
    last row id. *)
Definition new_cursor_lastrowid : option nat := None.

(** ** Checkpoints *)

Definition create_checkpoint (db : Database) (context : WaveContext)
    (phase : WavePhase) : Database :=
  let state_snapshot :=
    {| snap_phase := phase_value phase;
       snap_phase_results := phase_results context;
       snap_metrics := metrics context |} in
  {| waves := waves db;
     wave_phases := wave_phases db;
     wave_checkpoints :=
       wave_checkpoints db
       ++ [ {| cp_wave_id := wave_id context;
               cp_phase := phase_value phase;
               cp_state_snapshot := state_snapshot;
               cp_can_rollback := true |} ] |}.

(** ** Executing one phase *)

(** How the body of the [try] block of [execute_phase] ends: it runs to its
    end, or an [Exception] leaves it; either way with the phase-specific entry
    and the metrics it had written by then. *)
Inductive BodyOutcome :=
| returns (payload : option Payload) (body_metrics : PyDict.t float)
| raises (error : string) (payload : option Payload) (body_metrics : PyDict.t float).

Definition PhaseBody := WaveContext -> WavePhase -> BodyOutcome.

(** The entries the source writes for each phase. *)
Definition simulated_payload (context : WaveContext) (phase : WavePhase)
    : Payload * PyDict.t float :=
  match phase with
  | REVIEW => (findings 15 2 5 8, [("coverage", 0.85%float)])
  | PLANNING => (plan 10 "2 hours" "medium", [("confidence", 0.92%float)])
  | IMPLEMENTATION =>
      (changes (file_count context) (file_count context * 50) 5,
       [("completion", 0.95%float)])
  | VALIDATION => (validation 45 2 0.88%float, [("success_rate", 0.96%float)])
  | OPTIMIZATION => (optimization "35%" "20%" "15%", [("improvement", 0.35%float)])
  end.

(** The body as the source has it, when nothing raises. *)
Definition simulated_body : PhaseBody :=
  fun context phase =>
    let '(p, m) := simulated_payload context phase in returns (Some p) m.

(** The body as the source has it, where [fault] tells when an exception
    leaves it (after the entries were written) and with which message. *)
Definition faulty_body (fault : WaveContext -> WavePhase -> option string)
    : PhaseBody :=
  fun context phase =>
    let '(p, m) := simulated_payload context phase in
    match fault context phase with
    | Some e => raises e (Some p) m
    | None => returns (Some p) m
    end.

(** The row that records the start of a phase. *)
Definition phase_start_row (self : WaveOrchestrator) (id : string)
    (phase : WavePhase) : PhaseRow :=
  let phase_config := PyDict.get (phase_value phase) (agents_config self) in
  {| prow_wave_id := id;
     prow_phase := phase_value phase;
     prow_status := in_progress;
     prow_agent_primary := option_map primary phase_config;
     prow_agents_support :=
       match phase_config with Some c => support c | None => [] end;
     prow_results := None;
     prow_metrics := None |}.

Definition execute_phase (self : WaveOrchestrator) (body : PhaseBody)
    (db : Database) (context : WaveContext) (phase : WavePhase)
    : PhaseResult * Database :=
  let phase_config := PyDict.get (phase_value phase) (agents_config self) in
  let primary_agent := option_map primary phase_config in
  let support_agents :=
    match phase_config with Some c => support c | None => [] end in
  let tools_used :=
    match phase_config with Some c => tools c | None => [] end in
  let db := insert_phase db (phase_start_row self (wave_id context) phase) in
  let phase_id := new_cursor_lastrowid in
  match body context phase with
  | returns payload body_metrics =>
      let results :=
        {| pr_phase := phase_value phase; pr_status := completed;
           pr_primary_agent := primary_agent;
           pr_support_agents := support_agents;
           pr_tools_used := tools_used; pr_metrics := body_metrics;
           pr_payload := payload; pr_error := None |} in
      (results,
       update_phase db phase_id
         (fun r =>
            {| prow_wave_id := prow_wave_id r; prow_phase := prow_phase r;
               prow_status := completed;
               prow_agent_primary := prow_agent_primary r;
               prow_agents_support := prow_agents_support r;
               prow_results := Some results;
               prow_metrics := Some body_metrics |}))
  | raises error payload body_metrics =>
      let results :=
        {| pr_phase := phase_value phase; pr_status := failed;
           pr_primary_agent := primary_agent;
           pr_support_agents := support_agents;
           pr_tools_used := tools_used; pr_metrics := body_metrics;
           pr_payload := payload; pr_error := Some error |} in
      (results,
       update_phase db phase_id
         (fun r =>
            {| prow_wave_id := prow_wave_id r; prow_phase := prow_phase r;
               prow_status := failed;
               prow_agent_primary := prow_agent_primary r;
               prow_agents_support := prow_agents_support r;
               prow_results := Some results;
               prow_metrics := prow_metrics r |}))
  end.

(** ** Executing a wave *)

(** The phase list of a pass: the configured one, or the planned one for the
    adaptive strategy. *)
Definition wave_phase_list (self : WaveOrchestrator) (context : WaveContext)
    : list WavePhase :=
  match strategy context with
  | ADAPTIVE => select_adaptive_phases context
  | s => phases (strategy_configs self s)
  end.

(** [strategy_config['checkpoint_frequency'] in ['per_phase', 'continuous']] *)
Definition checkpoint_due (cfg : StrategyConfig) : bool :=
  PyStr.mem (checkpoint_frequency cfg) ["per_phase"; "continuous"].

(** The variables the phase loop of [execute_wave] updates. *)
Record LoopState := {
  loop_db : Database;
  loop_context : WaveContext;
  loop_phases : PyDict.t PhaseResult;     (* [wave_results['phases']] *)
  loop_completed : nat                    (* [wave_results['metrics']['phases_completed']] *)
}.

(** [for phase in phases: ...], with its [break]. *)
Fixpoint phase_loop (self : WaveOrchestrator) (body : PhaseBody)
    (strategy_config : StrategyConfig) (todo : list WavePhase)
    (st : LoopState) : LoopState :=
  match todo with
  | [] => st
  | phase :: rest =>
      let context := set_current_phase (loop_context st) phase in
      let db :=
        if checkpoint_due strategy_config
        then create_checkpoint (loop_db st) context phase
        else loop_db st in
      let '(phase_results, db) := execute_phase self body db context phase in
      let st' :=
        {| loop_db := db;
           loop_context :=
             set_phase_result context (phase_value phase) phase_results;
           loop_phases :=
             PyDict.set (phase_value phase) phase_results (loop_phases st);
           loop_completed :=
             if phase_status_eqb (pr_status phase_results) completed
             then S (loop_completed st) else loop_completed st |} in
      if phase_status_eqb (pr_status phase_results) failed
         && rollback_enabled strategy_config
      then st'
      else phase_loop self body strategy_config rest st'
  end.

(** [phases_completed / len(phases) if phases else 0] *)
Definition final_success_rate (completed_count : nat) (phases : list WavePhase)
    : float :=
  match phases with
  | [] => 0%float
  | _ => PyFloat.truediv (Z.of_nat completed_count) (Z.of_nat (List.length phases))
  end.

(** ['completed' if success_rate == 1.0 else 'partial'] *)
Definition final_status (rate : float) : WaveStatus :=
  if PyFloat.eq rate 1.0%float then wave_completed else wave_partial.

Definition execute_wave (self : WaveOrchestrator) (body : PhaseBody)
    (db : Database) (context : WaveContext)
    : Result (WaveResults * WaveContext * Database) :=
  let strategy_config := strategy_configs self (strategy context) in
  let phases := wave_phase_list self context in
  bind
    (insert_wave db
       {| row_wave_id := wave_id context;
          row_strategy := strategy_value (strategy context);
          row_complexity_score := complexity_score context;
          row_file_count := file_count context;
          row_status := wave_in_progress;
          row_phases_completed := 0;
          row_total_phases := List.length phases;
          row_metrics := None;
          row_results := None |})
    (fun db =>
       let st :=
         phase_loop self body strategy_config phases
           {| loop_db := db; loop_context := context;
              loop_phases := []; loop_completed := 0 |} in
       let wave_metrics :=
         {| phases_completed := loop_completed st;
            success_rate := final_success_rate (loop_completed st) phases |} in
       let wave_results :=
         {| res_wave_id := wave_id context;
            res_strategy := strategy_value (strategy context);
            res_phases := loop_phases st;
            res_metrics := wave_metrics |} in
       let db :=
         update_wave (loop_db st) (wave_id context)
           (final_status (success_rate wave_metrics))
           (phases_completed wave_metrics) wave_metrics wave_results in
       Ok (wave_results, loop_context st, db)).

(** ** Progressive iteration *)

(** [results['phases'].get('optimization', {}).get('optimization', {})
      .get('performance_gain', '0%')] *)
Definition improvement (results : WaveResults) : string :=
  match PyDict.get "optimization" (res_phases results) with
  | Some r =>
      match pr_payload r with
      | Some (optimization gain _ _) => gain
      | _ => "0%"
      end
  | None => "0%"
  end.

(** The convergence test that ends the iterations. *)
Definition converged (results : WaveResults) : bool :=
  PyFloat.eq (success_rate (res_metrics results)) 1.0%float
  && String.eqb (improvement results) "0%".

(** [for i in range(iterations): ...] from index [i] on, [remaining] rounds
    to go. *)
Fixpoint progressive_loop (self : WaveOrchestrator) (body : PhaseBody)
    (i remaining : nat) (db : Database) (context : WaveContext)
    (all_results : list WaveResults)
    : Result (list WaveResults * WaveContext * Database) :=
  match remaining with
  | O => Ok (all_results, context, db)
  | S remaining' =>
      let context :=
        set_wave_id context (wave_id context ++ "_iter" ++ PyStr.of_nat (i + 1)) in
      bind (execute_wave self body db context)
        (fun '(results, context, db) =>
           let all_results := all_results ++ [results] in
           if converged results then Ok (all_results, context, db)
           else progressive_loop self body (S i) remaining' db context all_results)
  end.

(** The default of the [iterations] parameter. *)
Definition default_iterations : nat := 3.

Definition run_progressive_waves (self : WaveOrchestrator) (body : PhaseBody)
    (db : Database) (context : WaveContext) (iterations : nat)
    : Result (list WaveResults * WaveContext * Database) :=
  progressive_loop self body 0 iterations db context [].

(** ** The report of a wave *)

(** A duration of the report: the end time is not set yet, or a number of
    seconds (left out, as every wall-clock reading). The end time of a row is
    written by the same [UPDATE] that writes its results, so it is set
    exactly when the results are. *)
Inductive Duration := duration_in_progress | duration_seconds.

Record PhaseSummary := {
  sum_phase : string;
  sum_duration : Duration;
  sum_status : PhaseStatus;
  sum_primary_agent : option string;
  sum_support_agents : list string
}.

Record WaveSummary := {
  rep_wave_id : string;
  rep_strategy : string;
  rep_complexity_score : float;
  rep_file_count : Z;
  rep_duration : Duration;
  rep_status : WaveStatus;
  rep_phases_completed : nat;
  rep_total_phases : nat;
  rep_phases : list PhaseSummary
}.

(** What [generate_wave_report] returns: [{'error': 'Wave not found'}] or
    the report. *)
Inductive Report :=
| wave_not_found
| wave_report (r : WaveSummary).

(** The entry of the report for a row of [wave_phases]. *)
Definition phase_summary (p : PhaseRow) : PhaseSummary :=
  {| sum_phase := prow_phase p;
     sum_duration :=
       match prow_results p with
       | Some _ => duration_seconds
       | None => duration_in_progress
       end;
     sum_status := prow_status p;
     sum_primary_agent := prow_agent_primary p;
     sum_support_agents := prow_agents_support p |}.

(** The rows of a wave are inserted one after the other, each with the
    clock reading of its insertion as start time, so [ORDER BY start_time]
    is the insertion order. *)
Definition generate_wave_report (db : Database) (id : string) : Report :=
  let wave_data := find (fun r => String.eqb (row_wave_id r) id) (waves db) in
  let phases_data :=
    filter (fun r => String.eqb (prow_wave_id r) id) (wave_phases db) in
  match wave_data with
  | None => wave_not_found
  | Some w =>
      wave_report
        {| rep_wave_id := id;
           rep_strategy := row_strategy w;
           rep_complexity_score := row_complexity_score w;
           rep_file_count := row_file_count w;
           rep_duration :=
             match row_results w with
             | Some _ => duration_seconds
             | None => duration_in_progress
             end;
           rep_status := row_status w;
           rep_phases_completed := row_phases_completed w;
           rep_total_phases := row_total_phases w;
           rep_phases := map phase_summary phases_data |}
  end.

(** ** The entry point *)

Definition set_strategy (ctx : WaveContext) (s : WaveStrategy) : WaveContext :=
  {| wave_id := wave_id ctx; strategy := s;
     complexity_score := complexity_score ctx; file_count := file_count ctx;
     operation_types := operation_types ctx; domains := domains ctx;
     current_phase := current_phase ctx; phase_results := phase_results ctx;
     metrics := metrics ctx |}.

(** [main] on a target: the analysis, the context with the generated id
    [id], the selected strategy, the run and the report asked for the id the
    context has after the run. The orchestrator is the one [WaveOrchestrator()]
    builds. *)
Definition main (fs : FileSystem) (id : string) (body : PhaseBody)
    (db : Database) (target : string) : Result (Report * Database) :=
  let '(complexity, files, ops, doms) := analyze_complexity fs target in
  let context := new_context EmptyString PROGRESSIVE complexity files ops doms in
  let context := set_wave_id context id in
  let context := set_strategy context (select_strategy context) in
  bind
    (match strategy context with
     | PROGRESSIVE =>
         bind (run_progressive_waves init body db context 3)
           (fun '(_, context, db) => Ok (context, db))
     | _ =>
         bind (execute_wave init body db context)
           (fun '(_, context, db) => Ok (context, db))
     end)
    (fun '(context, db) => Ok (generate_wave_report db (wave_id context), db)).

(** ** The agent bridge and the enterprise fan-out *)

Module Bridge.

Inductive AgentStatus := inactive | active.

(** [AgentOrchestrator.get_agent_score], on the status the agent has when
    it is asked. *)
Definition get_agent_score (agent_status : AgentStatus) : float :=
  match agent_status with
  | active => 0.85%float
  | inactive => 0.5%float
  end.

(** The status each agent shows when a phase of a wave reads its score. It
    depends on which agent processes could be started and, in a fan-out, on
    how the gathered waves interleave, so it is an argument. *)
Definition Observed := WavePhase -> string -> AgentStatus.

Record PhaseAgents := {
  primary : string;
  secondary : list string;
  parallel : bool
}.

Definition phase_agent_map (phase : WavePhase) : PhaseAgents :=
  match phase with
  | REVIEW =>
      {| primary := "quality"; secondary := ["security"; "performance"];
         parallel := true |}
  | PLANNING =>
      {| primary := "performance"; secondary := ["quality"]; parallel := false |}
  | IMPLEMENTATION =>
      {| primary := "quality"; secondary := ["security"]; parallel := false |}
  | VALIDATION =>
      {| primary := "security"; secondary := ["quality"; "monitor"];
         parallel := true |}
  | OPTIMIZATION =>
      {| primary := "performance"; secondary := ["monitor"]; parallel := true |}
  end.

Record Scores := {
  score_primary : float;
  score_secondary : PyDict.t float;
  average : float
}.

Record PhaseReport := {
  phase : string;
  primary_agent : string;
  secondary_agents : list string;
  execution_mode : string;
  scores : Scores
}.

Record WaveReport := {
  report_wave_id : string;
  report_strategy : string;
  phase_reports : PyDict.t PhaseReport;      (* [results['phase_results']] *)
  overall_score : float;
  status : string
}.

Record Summary := {
  total_targets : nat;
  successful : nat;
  failed : nat;
  average_score : float
}.

Record EnterpriseReport := {
  enterprise_strategy : string;
  targets : PyDict.t WaveReport;
  summary : Summary
}.

Section WithSum.

(** Python's built-in [sum] on a list of floats. Its rounding is not the
    same in every interpreter version (plain left-to-right additions, or
    compensated ones), so it is an argument; [sum_left] below is the
    left-to-right one. *)
Variable sum : list float -> float.

(** The result a phase of [execute_wave_with_agents] records. *)
Definition phase_report (observed : Observed) (p : WavePhase) : PhaseReport :=
  let agent_config := phase_agent_map p in
  let primary_score := get_agent_score (observed p (primary agent_config)) in
  let secondary_scores :=
    fold_left
      (fun d agent => PyDict.set agent (get_agent_score (observed p agent)) d)
      (secondary agent_config) [] in
  {| phase := phase_value p;
     primary_agent := primary agent_config;
     secondary_agents := secondary agent_config;
     execution_mode := if parallel agent_config then "parallel" else "sequential";
     scores :=
       {| score_primary := primary_score;
          score_secondary := secondary_scores;
          average :=
            ((primary_score + sum (PyDict.values secondary_scores))
             / PyFloat.of_int (1 + Z.of_nat (List.length secondary_scores)))%float
       |} |}.

(** What [execute_wave_with_agents] returns. Starting the agent processes
    and writing the checkpoints do not enter the returned value and are
    left out. *)
Definition execute_wave_with_agents (self : WaveOrchestrator)
    (observed : Observed) (context : WaveContext) : Result WaveReport :=
  let phases := wave_phase_list self context in
  let phase_results :=
    fold_left
      (fun d p => PyDict.set (phase_value p) (phase_report observed p) d)
      phases [] in
  match phase_results with
  | [] => Raise ZeroDivisionError
  | _ =>
      let total_score :=
        (sum (map (fun pr => average (scores pr)) (PyDict.values phase_results))
         / PyFloat.of_int (Z.of_nat (List.length phase_results)))%float in
      Ok {| report_wave_id := wave_id context;
            report_strategy := strategy_value (strategy context);
            phase_reports := phase_results;
            overall_score := total_score;
            status :=
              if PyFloat.gt total_score 0.7%float
              then "success" else "needs_improvement" |}
  end.

(** [asyncio.gather] over the waves of the targets: the results in the
    order of the targets, or the first exception. *)
Fixpoint gather (tasks : list (Result WaveReport)) : Result (list WaveReport) :=
  match tasks with
  | [] => Ok []
  | t :: rest =>
      bind t (fun r => bind (gather rest) (fun rs => Ok (r :: rs)))
  end.

(** The loop that compiles the results into the summary counters. *)
Fixpoint compile_results (targets : list string) (results : list WaveReport)
    (acc : PyDict.t WaveReport * nat * nat)
    : PyDict.t WaveReport * nat * nat :=
  match targets, results with
  | target :: targets', r :: results' =>
      let '(by_target, n_successful, n_failed) := acc in
      compile_results targets' results'
        (if String.eqb (status r) "success"
         then (PyDict.set target r by_target, S n_successful, n_failed)
         else (PyDict.set target r by_target, n_successful, S n_failed))
  | _, _ => acc
  end.

(** The wave of the [i]-th target of a fan-out: its analysis, its context
    and its run. [fs] answers the complexity analysis, [generate_id] and
    [observed] give the wave id and the agent statuses of that wave. *)
Definition target_wave (self : WaveOrchestrator) (fs : FileSystem)
    (generate_id : nat -> string) (observed : nat -> Observed)
    (i : nat) (target : string) : Result WaveReport :=
  let '(complexity, files, ops, doms) := analyze_complexity fs target in
  let context :=
    new_context (generate_id i) ENTERPRISE complexity files ops doms in
  execute_wave_with_agents self (observed i) context.

Definition run_enterprise_wave (self : WaveOrchestrator) (fs : FileSystem)
    (generate_id : nat -> string) (observed : nat -> Observed)
    (target_list : list string) : Result EnterpriseReport :=
  let tasks :=
    map (fun it => target_wave self fs generate_id observed (fst it) (snd it))
      (combine (seq 0 (List.length target_list)) target_list) in
  bind (gather tasks)
    (fun results =>
       let '(by_target, n_successful, n_failed) :=
         compile_results target_list results ([], 0, 0) in
       match results with
       | [] => Raise ZeroDivisionError
       | _ =>
           Ok {| enterprise_strategy := "enterprise";
                 targets := by_target;
                 summary :=
                   {| total_targets := List.length target_list;
                      successful := n_successful;
                      failed := n_failed;
                      average_score :=
                        (sum (map overall_score results)
                         / PyFloat.of_int (Z.of_nat (List.length results)))%float
                   |} |}
       end).

(** [run_adaptive_wave]: the analysis of the target, an adaptive context
    under the generated id, and its wave. *)
Definition run_adaptive_wave (self : WaveOrchestrator) (fs : FileSystem)
    (generate_id : string) (observed : Observed) (target : string)
    : Result WaveReport :=
  let '(complexity, files, ops, doms) := analyze_complexity fs target in
  let context :=
    new_context generate_id ADAPTIVE complexity files ops doms in
  execute_wave_with_agents self observed context.

End WithSum.

(** [sum] by additions from left to right, starting from [0]. *)
Definition sum_left (xs : list float) : float :=
  fold_left PrimFloat.add xs 0%float.

(** What [execute_wave_with_agents] does to the database of the wave
    orchestrator: after each phase, a checkpoint of the context when the
    strategy asks for one. The context is the one it was given; the bridge
    stores nothing in it. *)
Definition write_checkpoints (self : WaveOrchestrator) (db : Database)
    (context : WaveContext) : Database :=
  let strategy_config := strategy_configs self (strategy context) in
  fold_left
    (fun db p =>
       if checkpoint_due strategy_config
       then create_checkpoint db context p
       else db)
    (wave_phase_list self context) db.

End Bridge.

(** ** The agent orchestrator

    [agents/master_orchestrator.py], whose [start_agent] and
    [get_agent_score] the bridge calls. Beside the attributes of the
    orchestrator and the two tables of its database the state holds what
    the code leaves in the operating system, the processes it started, and
    the count of the start attempts made so far: whether an attempt gets a
    process started is decided outside and is read from [launch] at that
    count. *)

Module Agents.

Inductive Res (A : Type) : Type :=
| Ret (a : A)
| KeyError (key : string)
| ZeroDivision.

Arguments Ret {A} a.
Arguments KeyError {A} key.
Arguments ZeroDivision {A}.

Definition bind {A B} (r : Res A) (k : A -> Res B) : Res B :=
  match r with
  | Ret a => k a
  | KeyError key => KeyError key
  | ZeroDivision => ZeroDivision
  end.

Record Agent := {
  name : string;
  model : string;
  config : string;
  script : string;
  status : Bridge.AgentStatus;
  last_run : bool;                  (* whether a time was recorded *)
  success_rate : float
}.

Record Workflow := {
  agents : list string;
  mode : string;
  interval : Z
}.

(** A row of [agent_runs] and a row of [orchestrator_metrics], without
    their timestamps and durations. *)
Record RunRow := {
  logged_agent_name : string;
  logged_workflow : string;
  logged_status : string;
  logged_metrics : PyDict.t bool
}.

Record MetricsRow := {
  active_agents : nat;
  workflows_running : nat;
  total_runs : Z;
  metrics_success_rate : float;
  system_score : float
}.

Record AgentOrchestrator := {
  self_agents : PyDict.t Agent;             (* [self.agents] *)
  workflows : PyDict.t Workflow;            (* [self.workflows] *)
  agent_runs : list RunRow;
  orchestrator_metrics : list MetricsRow;
  processes : list string;                  (* the script of each process started *)
  attempts : nat
}.

(** How an attempt to start an agent ends: the process is started; the
    script is not there; or an exception is caught on the way (the
    configuration cannot be read, the process cannot be created). *)
Inductive Launch := launched | script_missing | launch_error.

Definition init_agents : PyDict.t Agent :=
  [ ("performance",
      {| name := "nexus-performance-optimizer"; model := "sonnet";
         config := "agents/performance_optimizer.json";
         script := "agents/performance_optimizer.py";
         status := Bridge.inactive; last_run := false;
         success_rate := 0.0%float |});
    ("security",
      {| name := "nexus-security-analyzer"; model := "opus";
         config := "agents/security_analyzer.json";
         script := "agents/security_analyzer.py";
         status := Bridge.inactive; last_run := false;
         success_rate := 0.0%float |});
    ("monitor",
      {| name := "nexus-system-monitor"; model := "haiku";
         config := "agents/system_monitor.json";
         script := "agents/system_monitor.py";
         status := Bridge.inactive; last_run := false;
         success_rate := 0.0%float |});
    ("quality",
      {| name := "nexus-code-quality"; model := "sonnet";
         config := "agents/code_quality.json";
         script := "agents/code_quality.py";
         status := Bridge.inactive; last_run := false;
         success_rate := 0.0%float |}) ].

Definition init_workflows : PyDict.t Workflow :=
  [ ("continuous_improvement",
      {| agents := ["quality"; "performance"; "security"];
         mode := "sequential"; interval := 300 |});
    ("system_health",
      {| agents := ["monitor"]; mode := "continuous"; interval := 10 |});
    ("security_audit",
      {| agents := ["security"; "quality"]; mode := "parallel";
         interval := 3600 |});
    ("performance_optimization",
      {| agents := ["performance"; "monitor"]; mode := "parallel";
         interval := 600 |}) ].

(** The orchestrator [AgentOrchestrator()] builds, on the tables its
    database file holds. *)
Definition init (runs : list RunRow) (rows : list MetricsRow)
    : AgentOrchestrator :=
  {| self_agents := init_agents; workflows := init_workflows;
     agent_runs := runs; orchestrator_metrics := rows;
     processes := []; attempts := 0 |}.

Definition set_status (agent : Agent) (s : Bridge.AgentStatus) (ran : bool)
    : Agent :=
  {| name := name agent; model := model agent; config := config agent;
     script := script agent; status := s; last_run := ran;
     success_rate := success_rate agent |}.

Definition start_agent (launch : nat -> Launch) (self : AgentOrchestrator)
    (agent_key : string) : Res (bool * AgentOrchestrator) :=
  match PyDict.get agent_key (self_agents self) with
  | None => KeyError agent_key
  | Some agent =>
      match launch (attempts self) with
      | launched =>
          Ret (true,
               {| self_agents :=
                    PyDict.set agent_key (set_status agent Bridge.active true)
                      (self_agents self);
                  workflows := workflows self;
                  agent_runs := agent_runs self;
                  orchestrator_metrics := orchestrator_metrics self;
                  processes := processes self ++ [script agent];
                  attempts := S (attempts self) |})
      | script_missing | launch_error =>
          Ret (false,
               {| self_agents := self_agents self;
                  workflows := workflows self;
                  agent_runs := agent_runs self;
                  orchestrator_metrics := orchestrator_metrics self;
                  processes := processes self;
                  attempts := S (attempts self) |})
      end
  end.

Definition stop_agent (self : AgentOrchestrator) (agent_key : string)
    : Res AgentOrchestrator :=
  match PyDict.get agent_key (self_agents self) with
  | None => KeyError agent_key
  | Some agent =>
      Ret {| self_agents :=
               PyDict.set agent_key
                 (set_status agent Bridge.inactive (last_run agent))
                 (self_agents self);
             workflows := workflows self;
             agent_runs := agent_runs self;
             orchestrator_metrics := orchestrator_metrics self;
             processes := processes self;
             attempts := attempts self |}
  end.

Definition get_agent_score (self : AgentOrchestrator) (agent_key : string)
    : Res float :=
  match PyDict.get agent_key (self_agents self) with
  | None => KeyError agent_key
  | Some agent => Ret (Bridge.get_agent_score (status agent))
  end.

(** The loop of the sequential mode. *)
Fixpoint start_sequential (launch : nat -> Launch) (self : AgentOrchestrator)
    (keys : list string) (results : PyDict.t bool)
    : Res (PyDict.t bool * AgentOrchestrator) :=
  match keys with
  | [] => Ret (results, self)
  | agent_key :: rest =>
      bind (start_agent launch self agent_key)
        (fun '(success, self) =>
           start_sequential launch self rest (PyDict.set agent_key success results))
  end.

(** [asyncio.gather] over the starts of the parallel mode: [start_agent]
    never suspends, so the starts run one after the other in the order of
    the tasks. *)
Fixpoint gather_starts (launch : nat -> Launch) (self : AgentOrchestrator)
    (keys : list string) : Res (list bool * AgentOrchestrator) :=
  match keys with
  | [] => Ret ([], self)
  | agent_key :: rest =>
      bind (start_agent launch self agent_key)
        (fun '(success, self) =>
           bind (gather_starts launch self rest)
             (fun '(results_list, self) => Ret (success :: results_list, self)))
  end.

(** The loop of the continuous mode. *)
Fixpoint start_continuous (launch : nat -> Launch) (self : AgentOrchestrator)
    (keys : list string) (results : PyDict.t bool)
    : Res (PyDict.t bool * AgentOrchestrator) :=
  match keys with
  | [] => Ret (results, self)
  | agent_key :: rest =>
      bind (start_agent launch self agent_key)
        (fun '(_, self) =>
           start_continuous launch self rest (PyDict.set agent_key true results))
  end.

Definition log_run (self : AgentOrchestrator) (workflow_name : string)
    (results : PyDict.t bool) : AgentOrchestrator :=
  {| self_agents := self_agents self;
     workflows := workflows self;
     agent_runs :=
       agent_runs self
       ++ [ {| logged_agent_name := "orchestrator";
               logged_workflow := workflow_name;
               logged_status := "completed";
               logged_metrics := results |} ];
     orchestrator_metrics := orchestrator_metrics self;
     processes := processes self;
     attempts := attempts self |}.

Definition run_workflow (launch : nat -> Launch) (self : AgentOrchestrator)
    (workflow_name : string) : Res (PyDict.t bool * AgentOrchestrator) :=
  match PyDict.get workflow_name (workflows self) with
  | None => KeyError workflow_name
  | Some workflow =>
      bind
        (if String.eqb (mode workflow) "sequential"
         then start_sequential launch self (agents workflow) []
         else if String.eqb (mode workflow) "parallel"
         then
           bind (gather_starts launch self (agents workflow))
             (fun '(results_list, self) =>
                Ret (fold_left
                       (fun results kr => PyDict.set (fst kr) (snd kr) results)
                       (combine (agents workflow) results_list) [],
                     self))
         else if String.eqb (mode workflow) "continuous"
         then start_continuous launch self (agents workflow) []
         else Ret ([], self))
        (fun '(results, self) => Ret (results, log_run self workflow_name results))
  end.

Definition shutdown (self : AgentOrchestrator) : Res AgentOrchestrator :=
  fold_left
    (fun r agent_key => bind r (fun self => stop_agent self agent_key))
    (PyDict.keys (self_agents self)) (Ret self).

Definition is_active (agent : Agent) : bool :=
  match status agent with
  | Bridge.active => true
  | Bridge.inactive => false
  end.

(** [for workflow_name, workflow in self.workflows.items(): ...] of a
    round. *)
Fixpoint run_scheduled (launch : nat -> Launch) (self : AgentOrchestrator)
    (iteration : Z) (items : list (string * Workflow)) : Res AgentOrchestrator :=
  match items with
  | [] => Ret self
  | (workflow_name, workflow) :: rest =>
      let period := (interval workflow / 10)%Z in
      if (period =? 0)%Z then ZeroDivision
      else if (iteration mod period =? 0)%Z
      then bind (run_workflow launch self workflow_name)
             (fun '(_, self) => run_scheduled launch self iteration rest)
      else run_scheduled launch self iteration rest
  end.

Definition log_metrics (self : AgentOrchestrator) (iteration : Z)
    (score : float) : AgentOrchestrator :=
  {| self_agents := self_agents self;
     workflows := workflows self;
     agent_runs := agent_runs self;
     orchestrator_metrics :=
       orchestrator_metrics self
       ++ [ {| active_agents :=
                 List.length (filter is_active (PyDict.values (self_agents self)));
               workflows_running := List.length (workflows self);
               total_runs := iteration;
               metrics_success_rate := 0.95%float;
               system_score := score |} ];
     processes := processes self;
     attempts := attempts self |}.

Section WithSum.

Variable sum : list float -> float.

Definition calculate_system_score (self : AgentOrchestrator) : Res float :=
  bind (get_agent_score self "performance") (fun perf_score =>
  bind (get_agent_score self "security") (fun sec_score =>
  bind (get_agent_score self "quality") (fun qual_score =>
  bind (get_agent_score self "monitor") (fun avail_score =>
  Ret (sum [ (perf_score * 0.25)%float; (sec_score * 0.25)%float;
             (qual_score * 0.25)%float; (avail_score * 0.25)%float ]))))).

(** One round of the [while True] of [orchestration_loop], [iteration]
    being the count after its increment. *)
Definition orchestration_round (launch : nat -> Launch)
    (self : AgentOrchestrator) (iteration : Z) : Res AgentOrchestrator :=
  bind (run_scheduled launch self iteration (workflows self)) (fun self =>
  bind (calculate_system_score self) (fun score =>
  let self := log_metrics self iteration score in
  if PrimFloat.ltb score 0.5%float
  then bind (run_workflow launch self "continuous_improvement")
         (fun '(_, self) => Ret self)
  else if PrimFloat.ltb score 0.7%float
  then bind (run_workflow launch self "performance_optimization")
         (fun '(_, self) => Ret self)
  else Ret self)).

(** The first [rounds] rounds of [orchestration_loop], which has no end of
    its own; [iteration] is the count before the first of them. *)
Fixpoint orchestration_rounds (launch : nat -> Launch)
    (self : AgentOrchestrator) (iteration : Z) (rounds : nat)
    : Res AgentOrchestrator :=
  match rounds with
  | O => Ret self
  | S rounds' =>
      let iteration := (iteration + 1)%Z in
      bind (orchestration_round launch self iteration)
        (fun self => orchestration_rounds launch self iteration rounds')
  end.

End WithSum.

End Agents.

(** ** The bridge on the agent orchestrator

    [execute_wave_with_agents] once more, this time with the calls it makes
    to the agent orchestrator and to [create_checkpoint]: the state of the
    agent orchestrator and the database of the wave orchestrator are
    threaded through the phases. It is the wave alone that runs; in a
    fan-out the waves share the agent orchestrator and interleave. *)

Module WaveAgentBridge.

(** [for agent in secondary_agents: await start_agent(agent)] *)
Fixpoint start_each (launch : nat -> Agents.Launch)
    (ao : Agents.AgentOrchestrator) (keys : list string)
    : Agents.Res Agents.AgentOrchestrator :=
  match keys with
  | [] => Agents.Ret ao
  | agent :: rest =>
      Agents.bind (Agents.start_agent launch ao agent)
        (fun '(_, ao) => start_each launch ao rest)
  end.

(** The starts of a phase: the primary agent, then the secondary ones,
    gathered or one by one. *)
Definition start_phase_agents (launch : nat -> Agents.Launch)
    (ao : Agents.AgentOrchestrator) (p : WavePhase)
    : Agents.Res Agents.AgentOrchestrator :=
  let agent_config := Bridge.phase_agent_map p in
  Agents.bind (Agents.start_agent launch ao (Bridge.primary agent_config))
    (fun '(_, ao) =>
       if Bridge.parallel agent_config
       then Agents.bind
              (Agents.gather_starts launch ao (Bridge.secondary agent_config))
              (fun '(_, ao) => Agents.Ret ao)
       else start_each launch ao (Bridge.secondary agent_config)).

(** [for agent in secondary_agents: secondary_scores[agent] = ...] *)
Fixpoint read_secondary_scores (ao : Agents.AgentOrchestrator)
    (keys : list string) (secondary_scores : PyDict.t float)
    : Agents.Res (PyDict.t float) :=
  match keys with
  | [] => Agents.Ret secondary_scores
  | agent :: rest =>
      Agents.bind (Agents.get_agent_score ao agent)
        (fun score =>
           read_secondary_scores ao rest (PyDict.set agent score secondary_scores))
  end.

Section WithSum.

Variable sum : list float -> float.

Definition read_phase_report (ao : Agents.AgentOrchestrator) (p : WavePhase)
    : Agents.Res Bridge.PhaseReport :=
  let agent_config := Bridge.phase_agent_map p in
  Agents.bind (Agents.get_agent_score ao (Bridge.primary agent_config))
    (fun primary_score =>
       Agents.bind
         (read_secondary_scores ao (Bridge.secondary agent_config) [])
         (fun secondary_scores =>
            Agents.Ret
              {| Bridge.phase := phase_value p;
                 Bridge.primary_agent := Bridge.primary agent_config;
                 Bridge.secondary_agents := Bridge.secondary agent_config;
                 Bridge.execution_mode :=
                   if Bridge.parallel agent_config
                   then "parallel" else "sequential";
                 Bridge.scores :=
                   {| Bridge.score_primary := primary_score;
                      Bridge.score_secondary := secondary_scores;
                      Bridge.average :=
                        ((primary_score + sum (PyDict.values secondary_scores))
                         / PyFloat.of_int
                             (1 + Z.of_nat (List.length secondary_scores)))%float
                   |} |})).

(** [for phase in phases: ...] of [execute_wave_with_agents]. *)
Fixpoint agent_phase_loop (launch : nat -> Agents.Launch)
    (strategy_config : StrategyConfig) (context : WaveContext)
    (todo : list WavePhase) (ao : Agents.AgentOrchestrator) (db : Database)
    (phase_results : PyDict.t Bridge.PhaseReport)
    : Agents.Res (PyDict.t Bridge.PhaseReport * Agents.AgentOrchestrator * Database) :=
  match todo with
  | [] => Agents.Ret (phase_results, ao, db)
  | p :: rest =>
      Agents.bind (start_phase_agents launch ao p) (fun ao =>
      Agents.bind (read_phase_report ao p) (fun report =>
      let phase_results := PyDict.set (phase_value p) report phase_results in
      let db :=
        if checkpoint_due strategy_config
        then create_checkpoint db context p
        else db in
      agent_phase_loop launch strategy_config context rest ao db phase_results))
  end.

Definition execute_wave_with_agents (launch : nat -> Agents.Launch)
    (self : WaveOrchestrator) (ao : Agents.AgentOrchestrator) (db : Database)
    (context : WaveContext)
    : Agents.Res (Bridge.WaveReport * Agents.AgentOrchestrator * Database) :=
  let strategy_config := strategy_configs self (strategy context) in
  let phases := wave_phase_list self context in
  Agents.bind
    (agent_phase_loop launch strategy_config context phases ao db [])
    (fun '(phase_results, ao, db) =>
       match phase_results with
       | [] => Agents.ZeroDivision
       | _ =>
           let total_score :=
             (sum (map (fun pr => Bridge.average (Bridge.scores pr))
                     (PyDict.values phase_results))
              / PyFloat.of_int (Z.of_nat (List.length phase_results)))%float in
           Agents.Ret
             ({| Bridge.report_wave_id := wave_id context;
                 Bridge.report_strategy := strategy_value (strategy context);
                 Bridge.phase_reports := phase_results;
                 Bridge.overall_score := total_score;
                 Bridge.status :=
                   if PyFloat.gt total_score 0.7%float
                   then "success" else "needs_improvement" |},
              ao, db)
       end).

End WithSum.

End WaveAgentBridge.

(** ** Notions used to state the properties *)

(** The dictionary after the results of the executed phases were stored,
    one [d[phase.value] = result] after the other. *)
Definition record_all (d : PyDict.t PhaseResult)
    (steps : list (WavePhase * PhaseResult)) : PyDict.t PhaseResult :=
  fold_left (fun d step => PyDict.set (phase_value (fst step)) (snd step) d) steps d.

(** The dictionary as it is just before each of the steps. *)
Fixpoint snapshots_of (d : PyDict.t PhaseResult)
    (steps : list (WavePhase * PhaseResult)) : list (PyDict.t PhaseResult) :=
  match steps with
  | [] => []
  | step :: rest =>
      d :: snapshots_of (PyDict.set (phase_value (fst step)) (snd step) d) rest
  end.

Definition is_completed (r : PhaseResult) : bool :=
  phase_status_eqb (pr_status r) completed.

(** The wave id after [k] more progressive passes, when the context has the
    id [current] and [i] passes were made before: each pass appends its
    suffix to the id the context has by then. *)
Fixpoint pass_id_from (current : string) (i k : nat) : string :=
  match k with
  | O => current
  | S j => pass_id_from current i j ++ "_iter" ++ PyStr.of_nat (i + k)
  end.

(** The wave id of the [k]-th progressive pass on a context whose id was
    [base] at the call. *)
Definition pass_id (base : string) (k : nat) : string := pass_id_from base 0 k.

(** [results] is what a pass of [self] over the phase list of [context]
    returns: the results of a leading part [done] of the list, stored in
    order, and the metrics computed from them. *)
Definition is_pass_of (self : WaveOrchestrator) (context : WaveContext)
    (results : WaveResults) : Prop :=
  exists done rest outs,
    wave_phase_list self context = done ++ rest
    /\ Forall2
         (fun p r =>
            pr_phase r = phase_value p
            /\ (pr_status r = completed \/ pr_status r = failed))
         done outs
    /\ res_phases results = record_all [] (combine done outs)
    /\ phases_completed (res_metrics results)
       = List.length (filter is_completed outs)
    /\ success_rate (res_metrics results)
       = final_success_rate (phases_completed (res_metrics results))
           (wave_phase_list self context).

(** The non-negative binary64 values: zeros, positive finite numbers and
    +infinity; NaN is not among them. *)
Definition sf_nonneg (s : spec_float) : Prop :=
  match s with
  | S754_zero _ => True
  | S754_infinity sg | S754_finite sg _ _ => sg = false
  | S754_nan => False
  end.

Definition nonneg (x : float) : Prop := sf_nonneg (Prim2SF x).

(** Two contexts with the same profile: all but the current phase and the
    stored phase results. *)
Definition same_profile (c c' : WaveContext) : Prop :=
  wave_id c' = wave_id c
  /\ strategy c' = strategy c
  /\ complexity_score c' = complexity_score c
  /\ file_count c' = file_count c
  /\ operation_types c' = operation_types c
  /\ domains c' = domains c
  /\ metrics c' = metrics c.

(** What a run of the phase loop from [st] to [st'] over [todo] did: it
    executed the phases [done], in order, with the results [outs], and left
    out [rest]. *)
Record LoopTrace (self : WaveOrchestrator) (cfg : StrategyConfig)
    (st st' : LoopState) (todo done rest : list WavePhase)
    (outs : list PhaseResult) : Prop := {
  trace_split : todo = done ++ rest;
  trace_outs :
    Forall2
      (fun p r =>
         pr_phase r = phase_value p
         /\ (pr_status r = completed \/ pr_status r = failed))
      done outs;
  trace_waves : waves (loop_db st') = waves (loop_db st);
  trace_rows :
    wave_phases (loop_db st')
    = wave_phases (loop_db st)
      ++ map (phase_start_row self (wave_id (loop_context st))) done;
  trace_checkpoints :
    exists cps,
      wave_checkpoints (loop_db st') = wave_checkpoints (loop_db st) ++ cps
      /\ if checkpoint_due cfg
         then map cp_phase cps = map phase_value done
              /\ Forall (fun c => cp_wave_id c = wave_id (loop_context st)
                                  /\ cp_can_rollback c = true) cps
              /\ map (fun c => snap_phase_results (cp_state_snapshot c)) cps
                 = snapshots_of (phase_results (loop_context st)) (combine done outs)
         else cps = [];
  trace_phases : loop_phases st' = record_all (loop_phases st) (combine done outs);
  trace_profile : same_profile (loop_context st) (loop_context st');
  trace_context :
    phase_results (loop_context st')
    = record_all (phase_results (loop_context st)) (combine done outs);
  trace_completed :
    loop_completed st'
    = (loop_completed st + List.length (filter is_completed outs))%nat;
  trace_rollback :
    rollback_enabled cfg = true ->
    Forall (fun r => pr_status r = completed) (removelast outs);
  trace_stop :
    rest <> [] ->
    rollback_enabled cfg = true
    /\ exists before r, outs = before ++ [r] /\ pr_status r = failed
}.

(** The constraints the schema declares: [wave_id] is the primary key of
    [waves], and the [wave_id] of a phase row or of a checkpoint refers to a
    row of [waves]. *)
Definition well_formed (db : Database) : Prop :=
  NoDup (map row_wave_id (waves db))
  /\ Forall (fun r => wave_exists db (prow_wave_id r) = true) (wave_phases db)
  /\ Forall (fun c => wave_exists db (cp_wave_id c) = true) (wave_checkpoints db).


(** The overall score of a wave of the bridge, from its phase list and the
    statuses it observes. *)
Definition wave_score (sum : list float -> float) (observed : Bridge.Observed)
    (l : list WavePhase) : float :=
  let d :=
    fold_left
      (fun d p => PyDict.set (phase_value p) (Bridge.phase_report sum observed p) d)
      l [] in
  (sum (map (fun pr => Bridge.average (Bridge.scores pr)) (PyDict.values d))
   / PyFloat.of_int (Z.of_nat (List.length d)))%float.

(** The statuses a wave of the bridge can read: for each phase, those of
    its primary and of its secondary agents. A function on these points is
    a table of their values. *)
Definition read_points : list (WavePhase * string) :=
  flat_map
    (fun p =>
       (p, Bridge.primary (Bridge.phase_agent_map p))
       :: map (pair p) (Bridge.secondary (Bridge.phase_agent_map p)))
    all_phases.

Definition table_of (observed : Bridge.Observed) : list Bridge.AgentStatus :=
  map (fun pa => observed (fst pa) (snd pa)) read_points.

Definition of_table (t : list Bridge.AgentStatus) : Bridge.Observed :=
  fun p a =>
    match
      find (fun x => phase_eqb (fst (fst x)) p && String.eqb (snd (fst x)) a)
        (combine read_points t)
    with
    | Some x => snd x
    | None => Bridge.inactive
    end.

Fixpoint all_tables (n : nat) : list (list Bridge.AgentStatus) :=
  match n with
  | O => [[]]
  | S m =>
      map (cons Bridge.inactive) (all_tables m)
      ++ map (cons Bridge.active) (all_tables m)
  end.

(** The phase lists of the built-in strategies: the progressive one, the
    full one, and the eight adaptive plans. *)
Definition init_phase_lists : list (list WavePhase) :=
  [REVIEW; IMPLEMENTATION; VALIDATION]
  :: all_phases
  :: flat_map
       (fun planning : bool =>
          flat_map
            (fun validating : bool =>
               map
                 (fun optimizing : bool =>
                    [REVIEW]
                    ++ (if planning then [PLANNING] else [])
                    ++ [IMPLEMENTATION]
                    ++ (if validating then [VALIDATION] else [])
                    ++ (if optimizing then [OPTIMIZATION] else []))
                 [true; false])
            [true; false])
       [true; false].

(** Whether a start attempt got a process started, as a boolean. *)
Definition is_launched (l : Agents.Launch) : bool :=
  match l with
  | Agents.launched => true
  | Agents.script_missing | Agents.launch_error => false
  end.

(** Every key of the list is an agent of the orchestrator. *)
Definition agents_known (self : Agents.AgentOrchestrator) (keys : list string)
    : Prop :=
  forall k, In k keys -> exists a, PyDict.get k (Agents.self_agents self) = Some a.

(** The agents of the orchestrator are the four [AgentOrchestrator()]
    registers, in their order. *)
Definition four_agents (self : Agents.AgentOrchestrator) : Prop :=
  PyDict.keys (Agents.self_agents self)
  = ["performance"; "security"; "monitor"; "quality"].

(** The agents of an orchestrator in which only the performance and the
    monitor agent were ever started: these two with the given status and
    record of a last run, the other two as at construction. *)
Definition early_agents (perf : Bridge.AgentStatus) (perf_ran : bool)
    (mon : Bridge.AgentStatus) (mon_ran : bool) : PyDict.t Agents.Agent :=
  map
    (fun ka =>
       if String.eqb (fst ka) "performance"
       then (fst ka, Agents.set_status (snd ka) perf perf_ran)
       else if String.eqb (fst ka) "monitor"
       then (fst ka, Agents.set_status (snd ka) mon mon_ran)
       else ka)
    Agents.init_agents.

Definition early (perf : Bridge.AgentStatus) (perf_ran : bool)
    (mon : Bridge.AgentStatus) (mon_ran : bool)
    (runs : list Agents.RunRow) (rows : list Agents.MetricsRow)
    (procs : list string) (att : nat) : Agents.AgentOrchestrator :=
  {| Agents.self_agents := early_agents perf perf_ran mon mon_ran;
     Agents.workflows := Agents.init_workflows;
     Agents.agent_runs := runs;
     Agents.orchestrator_metrics := rows;
     Agents.processes := procs;
     Agents.attempts := att |}.

(** The system score when the security and the quality agent are
    inactive, [sum] adding from left to right. *)
Definition early_score (perf mon : Bridge.AgentStatus) : float :=
  Bridge.sum_left
    [ (Bridge.get_agent_score perf * 0.25)%float; (0.5 * 0.25)%float;
      (0.5 * 0.25)%float; (Bridge.get_agent_score mon * 0.25)%float ].

Definition activated (b : bool) (s : Bridge.AgentStatus) : Bridge.AgentStatus :=
  if b then Bridge.active else s.

Definition spawned (b : bool) (script : string) : list string :=
  if b then [script] else [].

Definition logged (workflow_name : string) (results : PyDict.t bool)
    : Agents.RunRow :=
  {| Agents.logged_agent_name := "orchestrator";
     Agents.logged_workflow := workflow_name;
     Agents.logged_status := "completed";
     Agents.logged_metrics := results |}.

(** The status an agent has in the agent orchestrator. *)
Definition status_of (ao : Agents.AgentOrchestrator) (agent_key : string)
    : Bridge.AgentStatus :=
  match PyDict.get agent_key (Agents.self_agents ao) with
  | Some agent => Agents.status agent
  | None => Bridge.inactive
  end.

(** From [ao] to [ao'] the only changes to the agents are activations by
    start attempts made in between: the agents are the same, an active one
    stays active, and one that became active was started by a successful
    attempt. *)
Definition started_between (launch : nat -> Agents.Launch)
    (ao ao' : Agents.AgentOrchestrator) : Prop :=
  (Agents.attempts ao <= Agents.attempts ao')%nat
  /\ PyDict.keys (Agents.self_agents ao') = PyDict.keys (Agents.self_agents ao)
  /\ (forall k, status_of ao k = Bridge.active -> status_of ao' k = Bridge.active)
  /\ (forall k,
        status_of ao' k = Bridge.active ->
        status_of ao k = Bridge.active
        \/ exists i,
             (Agents.attempts ao <= i < Agents.attempts ao')%nat
             /\ launch i = Agents.launched).

(** ** Inputs of the worked scenarios *)

(** The body of the source, except that an exception leaves it in phase
    [p]. *)
Definition fails_at (p : WavePhase) : PhaseBody :=
  faulty_body
    (fun _ phase => if phase_eqb phase p then Some "provider error" else None).

(** The orchestrator after [rollback_enabled] was switched off in every
    strategy configuration. *)
Definition without_rollback : WaveOrchestrator :=
  {| agents_config := init_agents_config;
     strategy_configs :=
       fun s =>
         let c := init_strategy_configs s in
         {| phases := phases c; iterations := iterations c;
            checkpoint_frequency := checkpoint_frequency c;
            rollback_enabled := false;
            parallel_execution := parallel_execution c;
            distributed := distributed c |} |}.

Definition systematic_context : WaveContext :=
  new_context "wave-s" SYSTEMATIC 0.5%float 10 ["testing"] ["backend"].

Definition adaptive_context : WaveContext :=
  new_context "wave-a" ADAPTIVE 0.5%float 10 [] [].

Definition progressive_context : WaveContext :=
  new_context "wave-p" PROGRESSIVE 0.75%float 50
    ["optimization"; "refactoring"] ["backend"].

(** The body of the source, except that from the second pass on (any wave
    id but [first_id]) the optimization phase reports no gain. *)
Definition no_gain_after (first_id : string) : PhaseBody :=
  fun context phase =>
    match phase with
    | OPTIMIZATION =>
        if String.eqb (wave_id context) first_id
        then simulated_body context phase
        else returns (Some (optimization "0%" "0%" "0%"))
               [("improvement", 0.0%float)]
    | _ => simulated_body context phase
    end.

(** Every agent is running and is seen so by every wave but the second,
    which sees them all stopped. *)
Definition second_wave_sees_no_agent : nat -> Bridge.Observed :=
  fun i _ _ => if Nat.eqb i 1 then Bridge.inactive else Bridge.active.

(** * Properties *)

(** ** Membership and small facts about the enumerations *)

Lemma mem_In (x : string) (xs : list string) :
  PyStr.mem x xs = true <-> In x xs.
Proof.
  unfold PyStr.mem. rewrite existsb_exists. split.
  - intros [y [Hy Heq]]. apply String.eqb_eq in Heq. now subst.
  - intros H. exists x. split; [assumption | apply String.eqb_refl].
Qed.

Lemma mem_false_not_In (x : string) (xs : list string) :
  PyStr.mem x xs = false <-> ~ In x xs.
Proof.
  rewrite <- mem_In. destruct (PyStr.mem x xs); split; congruence.
Qed.

Lemma phase_eqb_eq (p q : WavePhase) : phase_eqb p q = true <-> p = q.
Proof. destruct p, q; simpl; split; congruence. Qed.

Lemma phase_value_inj (p q : WavePhase) : phase_value p = phase_value q -> p = q.
Proof. destruct p, q; simpl; intros H; try reflexivity; discriminate H. Qed.

(** ** Strategy selection *)

(** C1. [select_strategy] depends on the profile only and applies its rules
    in order, the first that matches deciding: (1) more than 100 files and a
    score above 0.7 give ENTERPRISE; (2) otherwise more than 2 domains and
    more than 3 operation types give ADAPTIVE; (3) otherwise a score above
    0.8 with "security_audit" among the operation types gives SYSTEMATIC;
    (4) otherwise "optimization" or "refactoring" among the operation types
    gives PROGRESSIVE; (5) otherwise SYSTEMATIC. The first conjunct is the
    enterprise property: more than 100 files and a score above 0.7 always
    select ENTERPRISE. *)
Theorem select_strategy_first_match (context : WaveContext) :
  let files := file_count context in
  let score := complexity_score context in
  let ops := operation_types context in
  let enterprise := (files > 100)%Z /\ PyFloat.gt score 0.7%float = true in
  let adaptive :=
    (List.length (domains context) > 2)%nat /\ (List.length ops > 3)%nat in
  let systematic := PyFloat.gt score 0.8%float = true /\ In "security_audit" ops in
  let progressive := In "optimization" ops \/ In "refactoring" ops in
  (enterprise -> select_strategy context = ENTERPRISE)
  /\ (~ enterprise -> adaptive -> select_strategy context = ADAPTIVE)
  /\ (~ enterprise -> ~ adaptive -> systematic ->
      select_strategy context = SYSTEMATIC)
  /\ (~ enterprise -> ~ adaptive -> ~ systematic -> progressive ->
      select_strategy context = PROGRESSIVE)
  /\ (~ enterprise -> ~ adaptive -> ~ systematic -> ~ progressive ->
      select_strategy context = SYSTEMATIC).
Proof.
  intros files score ops enterprise adaptive systematic progressive.
  assert (He : (files >? 100)%Z && PyFloat.gt score 0.7%float = true <-> enterprise).
  { unfold enterprise. rewrite andb_true_iff, Z.gtb_gt. reflexivity. }
  assert (Ha : (2 <? List.length (domains context))%nat
               && (3 <? List.length ops)%nat = true <-> adaptive).
  { unfold adaptive. rewrite andb_true_iff, !Nat.ltb_lt. reflexivity. }
  assert (Hs : PyFloat.gt score 0.8%float && PyStr.mem "security_audit" ops = true
               <-> systematic).
  { unfold systematic. rewrite andb_true_iff, mem_In. reflexivity. }
  assert (Hp : PyStr.mem "optimization" ops || PyStr.mem "refactoring" ops = true
               <-> progressive).
  { unfold progressive. rewrite orb_true_iff, !mem_In. reflexivity. }
  unfold select_strategy. fold files score ops.
  destruct ((files >? 100)%Z && PyFloat.gt score 0.7%float);
    [ | destruct ((2 <? List.length (domains context))%nat
                  && (3 <? List.length ops)%nat);
        [ | destruct (PyFloat.gt score 0.8%float && PyStr.mem "security_audit" ops);
            [ | destruct (PyStr.mem "optimization" ops
                          || PyStr.mem "refactoring" ops) ] ] ];
    repeat split; intros;
    repeat match goal with
           | H : ~ ?P, I : _ <-> ?P |- _ =>
               first [ exfalso; apply H, I; reflexivity | clear H ]
           | H : ?P, I : false = true <-> ?P |- _ =>
               apply I in H; discriminate H
           end;
    try reflexivity.
Qed.

(** The enterprise property of C1 at a context of 150 files with score 0.9. *)
Lemma select_strategy_first_match_witness :
  select_strategy (new_context "w" PROGRESSIVE 0.9%float 150 ["testing"] [])
  = ENTERPRISE.
Proof.
  apply (select_strategy_first_match
           (new_context "w" PROGRESSIVE 0.9%float 150 ["testing"] [])).
  split; reflexivity.
Defined.

(** ** Adaptive phase planning *)

(** C4. For every context the planned list starts with REVIEW and contains
    IMPLEMENTATION; it contains PLANNING exactly when the score is above 0.7,
    VALIDATION exactly when "testing" is an operation type or the score is
    above 0.6, OPTIMIZATION exactly when "optimization" or
    "performance_tuning" is an operation type; and its phases are in strictly
    increasing standard order (REVIEW, PLANNING, IMPLEMENTATION, VALIDATION,
    OPTIMIZATION), so none is repeated and the absent ones are just left
    out. *)
Theorem select_adaptive_phases_spec (context : WaveContext) :
  let planned := select_adaptive_phases context in
  let score := complexity_score context in
  let ops := operation_types context in
  hd_error planned = Some REVIEW
  /\ In IMPLEMENTATION planned
  /\ (In PLANNING planned <-> PyFloat.gt score 0.7%float = true)
  /\ (In VALIDATION planned <->
      In "testing" ops \/ PyFloat.gt score 0.6%float = true)
  /\ (In OPTIMIZATION planned <->
      In "optimization" ops \/ In "performance_tuning" ops)
  /\ StronglySorted (fun p q => (phase_rank p < phase_rank q)%nat) planned.
Proof.
  intros planned score ops. subst planned. unfold select_adaptive_phases.
  fold score ops.
  rewrite <- !mem_In.
  destruct (PyFloat.gt score 0.7%float) eqn:E7;
    destruct (PyStr.mem "testing" ops) eqn:Et;
    destruct (PyFloat.gt score 0.6%float) eqn:E6;
    destruct (PyStr.mem "optimization" ops) eqn:Eo;
    destruct (PyStr.mem "performance_tuning" ops) eqn:Ep;
    cbn [orb app hd_error];
    (repeat split; cbn;
     try solve [ tauto | intuition congruence | intuition discriminate
               | repeat (constructor; cbn; try lia) ]).
Qed.

(** Scenario D: score 0.75 and the single operation type "optimization"; all
    five phases are planned, VALIDATION because 0.75 is above 0.6. *)
Example adaptive_plan_scenario_d :
  select_adaptive_phases (new_context "wave-d" ADAPTIVE 0.75%float 20 ["optimization"] [])
  = [REVIEW; PLANNING; IMPLEMENTATION; VALIDATION; OPTIMIZATION].
Proof. reflexivity. Qed.

(** ** Order and sign of binary64 values *)

Module FloatFacts.

Lemma nonneg_iff_leb (x : float) : nonneg x <-> PrimFloat.leb 0 x = true.
Proof.
  unfold nonneg. rewrite FloatAxioms.leb_spec.
  change (Prim2SF 0) with (S754_zero false).
  destruct (Prim2SF x) as [s | s | | s m e]; try destruct s; cbn; intuition congruence.
Qed.

Lemma iter_shr_1_nonneg (p : positive) :
  forall mrs, (0 <= shr_m mrs)%Z -> (0 <= shr_m (iter_pos shr_1 p mrs))%Z.
Proof.
  assert (H1 : forall mrs, (0 <= shr_m mrs)%Z -> (0 <= shr_m (shr_1 mrs))%Z).
  { intros [m r s] H. cbn in *. destruct m as [ | [q | q | ] | q]; cbn; lia. }
  induction p as [p IH | p IH | ]; intros mrs H; cbn; auto.
Qed.

Lemma shr_fexp_nonneg (prec emax m e : Z) (l : location) :
  (0 <= m)%Z -> (0 <= shr_m (fst (shr_fexp prec emax m e l)))%Z.
Proof.
  intros H. unfold shr_fexp, shr.
  assert (H0 : (0 <= shr_m (shr_record_of_loc m l))%Z).
  { destruct l as [ | []]; cbn; assumption. }
  destruct (fexp prec emax (Zdigits2 m + e) - e)%Z; cbn; auto.
  now apply iter_shr_1_nonneg.
Qed.

(** Rounding a non-negative mantissa keeps the sign it is given. *)
Lemma binary_round_aux_sign (prec emax : Z) (sx : bool) (mx ex : Z) (lx : location) :
  (0 <= mx)%Z ->
  match binary_round_aux prec emax sx mx ex lx with
  | S754_zero s | S754_infinity s | S754_finite s _ _ => s = sx
  | S754_nan => False
  end.
Proof.
  intros H. unfold binary_round_aux.
  pose proof (shr_fexp_nonneg prec emax mx ex lx H) as H1.
  destruct (shr_fexp prec emax mx ex lx) as [mrs' e']. cbn [fst] in H1.
  set (m1 := round_nearest_even (shr_m mrs') (loc_of_shr_record mrs')).
  assert (Hm1 : (0 <= m1)%Z).
  { subst m1. unfold round_nearest_even.
    destruct (loc_of_shr_record mrs') as [ | []]; try assumption;
      [ destruct (Z.even (shr_m mrs')); lia | lia ]. }
  pose proof (shr_fexp_nonneg prec emax m1 e' loc_Exact Hm1) as H2.
  destruct (shr_fexp prec emax m1 e' loc_Exact) as [mrs'' e'']. cbn [fst] in H2.
  destruct (shr_m mrs'') as [ | q | q ]; [ reflexivity | | lia ].
  destruct (e'' <=? emax - prec)%Z; reflexivity.
Qed.

Lemma binary_round_nonneg (prec emax : Z) (m : positive) (e : Z) :
  sf_nonneg (binary_round prec emax false m e).
Proof.
  unfold binary_round.
  destruct (shl_align m e (fexp prec emax (Z.pos (digits2_pos m) + e))) as [mz ez].
  pose proof (binary_round_aux_sign prec emax false (Z.pos mz) ez loc_Exact
                ltac:(lia)) as H.
  destruct (binary_round_aux prec emax false (Z.pos mz) ez loc_Exact);
    cbn; auto.
Qed.

Lemma SFadd_nonneg (prec emax : Z) (x y : spec_float) :
  sf_nonneg x -> sf_nonneg y -> sf_nonneg (SFadd prec emax x y).
Proof.
  destruct x as [sx | sx | | sx mx ex], y as [sy | sy | | sy my ey];
    cbn [sf_nonneg]; intros Hx Hy; subst; try contradiction;
    try (cbn; auto; fail).
  - destruct sx, sy; cbn; auto.
  - cbn [SFadd cond_Zopp].
    destruct (shl_align mx ex (Z.min ex ey)) as [a ea],
             (shl_align my ey (Z.min ex ey)) as [b eb]. cbn [fst].
    change (Z.pos a + Z.pos b)%Z with (Z.pos (a + b)).
    cbn [binary_normalize]. apply binary_round_nonneg.
Qed.

Lemma SFmul_nonneg_finite (prec emax : Z) (x : spec_float) (m : positive) (e : Z) :
  sf_nonneg x -> sf_nonneg (SFmul prec emax x (S754_finite false m e)).
Proof.
  destruct x as [sx | sx | | sx mx ex]; cbn [sf_nonneg]; intros Hx;
    subst; try contradiction; cbn [SFmul xorb].
  - exact I.
  - reflexivity.
  - pose proof (binary_round_aux_sign prec emax false (Z.pos (mx * m)) (ex + e)
                  loc_Exact ltac:(lia)) as H.
    destruct (binary_round_aux prec emax false (Z.pos (mx * m)) (ex + e) loc_Exact);
      cbn; auto.
Qed.

Lemma nonneg_add (x y : float) : nonneg x -> nonneg y -> nonneg (x + y).
Proof. unfold nonneg. rewrite FloatAxioms.add_spec. apply SFadd_nonneg. Qed.

Lemma nonneg_mul_finite (x c : float) (m : positive) (e : Z) :
  Prim2SF c = S754_finite false m e -> nonneg x -> nonneg (x * c).
Proof.
  unfold nonneg. intros Hc Hx. rewrite FloatAxioms.mul_spec, Hc.
  now apply SFmul_nonneg_finite.
Qed.

Lemma nonneg_of_int (n : Z) : nonneg (PyFloat.of_int n).
Proof.
  unfold nonneg, PyFloat.of_int. rewrite FloatAxioms.of_uint63_spec.
  pose proof (Uint63.to_Z_bounded (Uint63.of_Z n)) as [H _].
  destruct (Uint63.to_Z (Uint63.of_Z n)) as [ | p | p ]; cbn [binary_normalize].
  - exact I.
  - apply binary_round_nonneg.
  - lia.
Qed.

(** The order on values that are not NaN is total: [a < b] or [b <= a]. *)
Lemma SFcompare_antisym (x y : spec_float) :
  SFcompare y x = option_map CompOpp (SFcompare x y).
Proof.
  destruct x as [sx | sx | | sx mx ex], y as [sy | sy | | sy my ey];
    try reflexivity;
    try (destruct sx; reflexivity); try (destruct sy; reflexivity);
    try (destruct sx, sy; reflexivity).
  cbn. destruct sx, sy; try reflexivity;
    rewrite (Z.compare_antisym ex ey);
    change (Pos.compare_cont Eq my mx) with (Pos.compare my mx);
    change (Pos.compare_cont Eq mx my) with (Pos.compare mx my);
    rewrite (Pos.compare_antisym mx my);
    destruct (ex ?= ey)%Z; cbn; try reflexivity;
    destruct (mx ?= my)%positive; reflexivity.
Qed.

Lemma sf_nonneg_comparable (x y : spec_float) :
  sf_nonneg x -> sf_nonneg y -> SFcompare x y <> None.
Proof.
  destruct x as [sx | sx | | sx mx ex], y as [sy | sy | | sy my ey];
    cbn [sf_nonneg]; intros Hx Hy; try contradiction; cbn; discriminate.
Qed.

Lemma not_ltb_leb (a b : float) :
  nonneg a -> nonneg b -> PrimFloat.ltb a b = false -> PrimFloat.leb b a = true.
Proof.
  unfold nonneg. rewrite FloatAxioms.ltb_spec, FloatAxioms.leb_spec. unfold SFltb, SFleb.
  intros Ha Hb. rewrite (SFcompare_antisym (Prim2SF a) (Prim2SF b)).
  pose proof (sf_nonneg_comparable _ _ Ha Hb) as Hc.
  destruct (SFcompare (Prim2SF a) (Prim2SF b)) as [[ | | ] | ]; cbn;
    congruence.
Qed.

Lemma ltb_leb (a b : float) : PrimFloat.ltb a b = true -> PrimFloat.leb a b = true.
Proof.
  rewrite FloatAxioms.ltb_spec, FloatAxioms.leb_spec. unfold SFltb, SFleb.
  destruct (SFcompare (Prim2SF a) (Prim2SF b)) as [[ | | ] | ]; congruence.
Qed.

Lemma leb_refl (a : float) : nonneg a -> PrimFloat.leb a a = true.
Proof.
  unfold nonneg. rewrite FloatAxioms.leb_spec. unfold SFleb.
  destruct (Prim2SF a) as [s | s | | s m e]; cbn; intros H; try contradiction;
    subst; try reflexivity.
  rewrite Z.compare_refl.
  change (Pos.compare_cont Eq m m) with (Pos.compare m m).
  now rewrite Pos.compare_refl.
Qed.

Lemma sf_leb_trans (x y z : spec_float) :
  sf_nonneg x -> sf_nonneg y -> sf_nonneg z ->
  SFleb x y = true -> SFleb y z = true -> SFleb x z = true.
Proof.
  unfold SFleb.
  destruct x as [sx | sx | | sx mx ex], y as [sy | sy | | sy my ey],
           z as [sz | sz | | sz mz ez];
    cbn [sf_nonneg]; intros Hx Hy Hz; subst; try contradiction; cbn;
    try congruence.
  change (Pos.compare_cont Eq mx my) with (Pos.compare mx my);
  change (Pos.compare_cont Eq my mz) with (Pos.compare my mz);
  change (Pos.compare_cont Eq mx mz) with (Pos.compare mx mz).
  destruct (Z.compare_spec ex ey), (Z.compare_spec ey ez); try congruence;
    destruct (Z.compare_spec ex ez); try lia; try congruence;
    destruct (Pos.compare_spec mx my), (Pos.compare_spec my mz); try congruence;
    destruct (Pos.compare_spec mx mz); try lia; congruence.
Qed.

Lemma leb_trans (a b c : float) :
  nonneg a -> nonneg b -> nonneg c ->
  PrimFloat.leb a b = true -> PrimFloat.leb b c = true -> PrimFloat.leb a c = true.
Proof. unfold nonneg. rewrite !FloatAxioms.leb_spec. apply sf_leb_trans. Qed.

End FloatFacts.

(** ** Complexity analysis *)

Import FloatFacts.

Lemma nonneg_const_0_3 : nonneg 0.3%float. Proof. reflexivity. Qed.
Lemma nonneg_const_0_1 : nonneg 0.1%float. Proof. reflexivity. Qed.
Lemma nonneg_const_0_05 : nonneg 0.05%float. Proof. reflexivity. Qed.
Lemma nonneg_const_0_7 : nonneg 0.7%float. Proof. reflexivity. Qed.
Lemma nonneg_const_0_8 : nonneg 0.8%float. Proof. reflexivity. Qed.
Lemma nonneg_const_1 : nonneg 1.0%float. Proof. reflexivity. Qed.
Lemma nonneg_const_0 : nonneg 0.0%float. Proof. exact I. Qed.

Lemma nonneg_iter_add (c : float) (k : nat) (x : float) :
  nonneg c -> nonneg x -> nonneg (Nat.iter k (fun s => (s + c)%float) x).
Proof.
  intros Hc Hx. induction k as [ | k IH]; cbn; [assumption | ].
  now apply nonneg_add.
Qed.

(** [min(x, c)] of non-negative values is non-negative and at most [c]. *)
Lemma min_bounds (x c : float) :
  nonneg x -> nonneg c ->
  nonneg (PyFloat.min x c) /\ PrimFloat.leb (PyFloat.min x c) c = true.
Proof.
  intros Hx Hc. unfold PyFloat.min.
  destruct (PrimFloat.ltb c x) eqn:E.
  - split; [assumption | now apply leb_refl].
  - split; [assumption | now apply not_ltb_leb].
Qed.

(** [max(x, c)] of non-negative values is an upper bound of both, and the
    least one. *)
Lemma max_bounds (x c : float) :
  nonneg x -> nonneg c ->
  nonneg (PyFloat.max x c)
  /\ PrimFloat.leb x (PyFloat.max x c) = true
  /\ PrimFloat.leb c (PyFloat.max x c) = true
  /\ (forall u, PrimFloat.leb x u = true -> PrimFloat.leb c u = true ->
                PrimFloat.leb (PyFloat.max x c) u = true).
Proof.
  intros Hx Hc. unfold PyFloat.max.
  destruct (PrimFloat.ltb x c) eqn:E.
  - repeat split; auto using leb_refl, ltb_leb.
  - repeat split; auto using leb_refl, not_ltb_leb.
Qed.

Lemma detect_operations_spec (target : string) (kws : list (string * string)) :
  forall ops score,
    let hits :=
      map snd (filter (fun kw => PyStr.contains (fst kw) (PyStr.lower target)) kws) in
    detect_operations kws target ops score
    = (ops ++ hits, Nat.iter (List.length hits) (fun s => (s + 0.1)%float) score).
Proof.
  induction kws as [ | [keyword op_type] rest IH]; intros ops score;
    cbn [detect_operations filter fst].
  - cbn. now rewrite app_nil_r.
  - destruct (PyStr.contains keyword (PyStr.lower target));
      cbn [map snd List.length].
    + rewrite IH, <- app_assoc, Nat.iter_succ_r. reflexivity.
    + apply IH.
Qed.

Lemma detect_domains_spec (target : string) (kws : list (string * list string)) :
  forall doms score,
    let hits :=
      map fst
        (filter
           (fun kw =>
              existsb (fun k => PyStr.contains k (PyStr.lower target)) (snd kw))
           kws) in
    detect_domains kws target doms score
    = (doms ++ hits, Nat.iter (List.length hits) (fun s => (s + 0.05)%float) score).
Proof.
  induction kws as [ | [domain keywords] rest IH]; intros doms score;
    cbn [detect_domains filter snd].
  - cbn. now rewrite app_nil_r.
  - destruct (existsb (fun k => PyStr.contains k (PyStr.lower target)) keywords);
      cbn [map fst List.length].
    + rewrite IH, <- app_assoc, Nat.iter_succ_r. reflexivity.
    + apply IH.
Qed.

(** The analysis is its three steps in a row: the base score of the file
    system, one addition per recognized keyword, the clamp and the scale
    floor. *)
Lemma analyze_complexity_unfold (fs : FileSystem) (target : string) :
  let ops :=
    map snd (filter (fun kw => PyStr.contains (fst kw) (PyStr.lower target))
               operation_keywords) in
  let doms :=
    map fst
      (filter
         (fun kw => existsb (fun k => PyStr.contains k (PyStr.lower target)) (snd kw))
         domain_keywords) in
  let raw :=
    Nat.iter (List.length doms) (fun s => (s + 0.05)%float)
      (Nat.iter (List.length ops) (fun s => (s + 0.1)%float)
         (fst (file_analysis fs target))) in
  analyze_complexity fs target
  = (adjust_for_scale (snd (file_analysis fs target)) (PyFloat.min raw 1.0%float),
     snd (file_analysis fs target), ops, doms).
Proof.
  intros ops doms raw. unfold analyze_complexity.
  destruct (file_analysis fs target) as [base files]. cbn [fst snd] in *.
  rewrite detect_operations_spec. cbn [app].
  rewrite detect_domains_spec. cbn [app]. reflexivity.
Qed.

Lemma adjust_for_scale_bounds (files : Z) (x : float) :
  nonneg x -> PrimFloat.leb x 1.0%float = true ->
  let y := adjust_for_scale files x in
  nonneg y
  /\ PrimFloat.leb y 1.0%float = true
  /\ PrimFloat.leb x y = true
  /\ ((files > 100)%Z -> PrimFloat.leb 0.8%float y = true)
  /\ ((files > 50)%Z -> PrimFloat.leb 0.7%float y = true).
Proof.
  intros Hx H1 y. subst y. unfold adjust_for_scale.
  destruct (Z.gtb_spec files 100) as [Hbig | Hbig].
  - destruct (max_bounds x 0.8%float Hx nonneg_const_0_8) as (Hn & Hxm & Hcm & Hlub).
    repeat split; auto.
    intros _. apply (leb_trans 0.7%float 0.8%float); auto using nonneg_const_0_7, nonneg_const_0_8.
  - destruct (Z.gtb_spec files 50) as [Hmid | Hmid].
    + destruct (max_bounds x 0.7%float Hx nonneg_const_0_7) as (Hn & Hxm & Hcm & Hlub).
      repeat split; auto; lia.
    + repeat split; auto using leb_refl; lia.
Qed.

(** C5. For an ASCII target that is a readable directory holding [n] Python
    files:
    [file_count] is [n]; the base score is [min(0.3 + n * 0.01, 1.0)]; every
    recognized operation keyword adds 0.1 to it and its operation type to the
    list, every recognized domain group adds 0.05 and its domain; the sum is
    clamped by [min(., 1.0)] and then raised to 0.8 when [n > 100], to 0.7
    when [n > 50], never lowered. The final score lies in [0, 1], is at least
    0.8 when [n > 100] and at least 0.7 when [n > 50]; with 150 files and
    "optimize" in the target it is at least 0.8 and "optimization" is among
    the operation types. *)
Theorem analyze_complexity_directory (fs : FileSystem) (target : string) (n : nat) :
  PyStr.isascii target = true ->
  fs target = Directory n ->
  let '(score, files, ops, doms) := analyze_complexity fs target in
  let base := PyFloat.min (0.3 + PyFloat.of_int (Z.of_nat n) * 0.01)%float 1.0%float in
  let raw :=
    Nat.iter (List.length doms) (fun s => (s + 0.05)%float)
      (Nat.iter (List.length ops) (fun s => (s + 0.1)%float) base) in
  let clamped := PyFloat.min raw 1.0%float in
  files = Z.of_nat n
  /\ ops = map snd (filter (fun kw => PyStr.contains (fst kw) (PyStr.lower target))
                      operation_keywords)
  /\ doms = map fst
              (filter
                 (fun kw =>
                    existsb (fun k => PyStr.contains k (PyStr.lower target)) (snd kw))
                 domain_keywords)
  /\ score = (if (files >? 100)%Z then PyFloat.max clamped 0.8%float
              else if (files >? 50)%Z then PyFloat.max clamped 0.7%float
              else clamped)
  /\ PyFloat.ge score 0.0%float = true
  /\ PyFloat.ge 1.0%float score = true
  /\ PyFloat.ge score clamped = true
  /\ ((n > 100)%nat -> PyFloat.ge score 0.8%float = true)
  /\ ((n > 50)%nat -> PyFloat.ge score 0.7%float = true)
  /\ (n = 150%nat -> PyStr.contains "optimize" (PyStr.lower target) = true ->
      PyFloat.ge score 0.8%float = true /\ In "optimization" ops).
Proof.
  intros _ Hfs. rewrite analyze_complexity_unfold.
  unfold file_analysis. rewrite Hfs. cbn [fst snd].
  set (ops := map snd (filter _ operation_keywords)).
  set (doms := map fst (filter _ domain_keywords)).
  cbv beta iota zeta.
  set (base := PyFloat.min (0.3 + PyFloat.of_int (Z.of_nat n) * 0.01)%float 1.0%float).
  set (raw := Nat.iter (List.length doms) _ (Nat.iter (List.length ops) _ base)).
  set (clamped := PyFloat.min raw 1.0%float).
  assert (Hbase : nonneg base).
  { apply min_bounds; [ | exact nonneg_const_1].
    apply nonneg_add; [exact nonneg_const_0_3 | ].
    eapply nonneg_mul_finite; [reflexivity | apply nonneg_of_int]. }
  assert (Hraw : nonneg raw).
  { apply nonneg_iter_add; [exact nonneg_const_0_05 | ].
    apply nonneg_iter_add; [exact nonneg_const_0_1 | exact Hbase]. }
  destruct (min_bounds raw 1.0%float Hraw nonneg_const_1) as [Hc0 Hc1].
  fold clamped in Hc0, Hc1.
  destruct (adjust_for_scale_bounds (Z.of_nat n) clamped Hc0 Hc1)
    as (Hy0 & Hy1 & Hyc & H100 & H50).
  unfold PyFloat.ge.
  repeat split; try reflexivity; auto.
  - now apply nonneg_iff_leb.
  - intros H. apply H100. lia.
  - intros H. apply H50. lia.
  - apply H100. lia.
  - subst ops. apply in_map_iff. exists ("optimize", "optimization").
    split; [reflexivity | ]. apply filter_In. split; [ | assumption].
    cbn. auto.
Qed.

(** C5 at a directory of 150 Python files whose name holds "optimize". *)
Lemma analyze_complexity_directory_witness :
  analyze_complexity (fun _ => Directory 150) "src/Optimize_Core"
  = (1.0%float, 150%Z, ["optimization"], [])
  /\ PyFloat.ge 1.0%float 0.8%float = true.
Proof.
  pose proof (analyze_complexity_directory (fun _ => Directory 150)
                "src/Optimize_Core" 150 eq_refl eq_refl) as H.
  split; [reflexivity | ].
  change (analyze_complexity (fun _ => Directory 150) "src/Optimize_Core")
    with (1.0%float, 150%Z, ["optimization"], @nil string) in H.
  cbv beta iota zeta in H.
  destruct H as (_ & _ & _ & _ & _ & _ & _ & H100 & _).
  apply H100. lia.
Defined.

(** Scenario A in general: the profile of a readable directory of more than
    100 Python files always selects the enterprise strategy. *)
Lemma large_directory_selects_enterprise (fs : FileSystem) (target id : string)
    (n : nat) (s : WaveStrategy) :
  fs target = Directory n -> (n > 100)%nat ->
  let '(score, files, ops, doms) := analyze_complexity fs target in
  select_strategy (new_context id s score files ops doms) = ENTERPRISE.
Proof.
  intros Hfs Hn.
  pose proof (analyze_complexity_unfold fs target) as Hun. cbv zeta in Hun.
  rewrite Hun. clear Hun. unfold file_analysis. rewrite Hfs. cbn [fst snd].
  set (raw := Nat.iter _ _ (Nat.iter _ _ _)).
  assert (Hraw : nonneg raw).
  { apply nonneg_iter_add; [exact nonneg_const_0_05 | ].
    apply nonneg_iter_add; [exact nonneg_const_0_1 | ].
    apply min_bounds; [ | exact nonneg_const_1].
    apply nonneg_add; [exact nonneg_const_0_3 | ].
    eapply nonneg_mul_finite; [reflexivity | apply nonneg_of_int]. }
  destruct (min_bounds raw 1.0%float Hraw nonneg_const_1) as [Hc0 Hc1].
  destruct (adjust_for_scale_bounds (Z.of_nat n) _ Hc0 Hc1)
    as (Hy0 & _ & _ & H100 & _).
  set (score := adjust_for_scale (Z.of_nat n) (PyFloat.min raw 1.0%float)) in *.
  specialize (H100 ltac:(lia)).
  unfold select_strategy. cbn [file_count complexity_score new_context].
  destruct (Z.gtb_spec (Z.of_nat n) 100) as [_ | Hle]; [ | lia].
  unfold PyFloat.gt. destruct (PrimFloat.ltb 0.7%float score) eqn:Hlt;
    [reflexivity | exfalso].
  apply (not_ltb_leb _ _ nonneg_const_0_7 Hy0) in Hlt.
  pose proof (leb_trans _ _ _ nonneg_const_0_8 Hy0 nonneg_const_0_7 H100 Hlt) as H.
  discriminate H.
Qed.

Lemma filter_length_bound {A} (p : A -> bool) (l : list A) :
  (List.length (filter p l) <= List.length l)%nat.
Proof.
  induction l as [ | x l IH]; cbn; [lia | ].
  destruct (p x); cbn; lia.
Qed.

(** The score of a target without file contribution, by the numbers of
    recognized operation keywords and domain groups: it is zero only when
    both are. *)
Lemma keyword_score_zero (a b : nat) :
  (a <= 7)%nat -> (b <= 5)%nat ->
  PyFloat.eq
    (PyFloat.min
       (Nat.iter b (fun s => (s + 0.05)%float)
          (Nat.iter a (fun s => (s + 0.1)%float) 0.0%float))
       1.0%float)
    0.0%float
  = (a =? 0)%nat && (b =? 0)%nat.
Proof.
  intros Ha Hb.
  assert (H : forallb
                (fun a =>
                   forallb
                     (fun b =>
                        Bool.eqb
                          (PyFloat.eq
                             (PyFloat.min
                                (Nat.iter b (fun s => (s + 0.05)%float)
                                   (Nat.iter a (fun s => (s + 0.1)%float) 0.0%float))
                                1.0%float)
                             0.0%float)
                          ((a =? 0)%nat && (b =? 0)%nat))
                     (seq 0 6))
                (seq 0 8) = true) by (vm_compute; reflexivity).
  rewrite forallb_forall in H.
  specialize (H a ltac:(apply in_seq; lia)).
  rewrite forallb_forall in H.
  specialize (H b ltac:(apply in_seq; lia)).
  now apply Bool.eqb_prop in H.
Qed.

(** C9, as the code has it. For an ASCII target that does not exist, or
    whose inspection raises, the analysis still returns: the file count is 0
    and the file system contributes 0 to the score. The keywords of the target
    string are counted all the same, 0.1 for each recognized operation
    keyword and 0.05 for each recognized domain group, so the score is 0
    exactly when the string holds no recognized keyword. *)
Theorem analyze_complexity_unreachable (fs : FileSystem) (target : string) :
  PyStr.isascii target = true ->
  fs target = Missing \/ fs target = Inaccessible ->
  let '(score, files, ops, doms) := analyze_complexity fs target in
  files = 0%Z
  /\ ops = map snd (filter (fun kw => PyStr.contains (fst kw) (PyStr.lower target))
                      operation_keywords)
  /\ doms = map fst
              (filter
                 (fun kw =>
                    existsb (fun k => PyStr.contains k (PyStr.lower target)) (snd kw))
                 domain_keywords)
  /\ score = PyFloat.min
               (Nat.iter (List.length doms) (fun s => (s + 0.05)%float)
                  (Nat.iter (List.length ops) (fun s => (s + 0.1)%float) 0.0%float))
               1.0%float
  /\ (PyFloat.eq score 0.0%float = true <-> ops = [] /\ doms = []).
Proof.
  intros _ Hfs. rewrite analyze_complexity_unfold.
  assert (Hfa : file_analysis fs target = (0.0%float, 0%Z)).
  { unfold file_analysis. destruct Hfs as [-> | ->]; reflexivity. }
  rewrite Hfa. cbn [fst snd].
  set (ops := map snd (filter _ operation_keywords)).
  set (doms := map fst (filter _ domain_keywords)).
  cbv beta iota zeta.
  change (adjust_for_scale 0 ?x) with x.
  assert (Hzero :
            PyFloat.eq
              (PyFloat.min
                 (Nat.iter (List.length doms) (fun s => (s + 0.05)%float)
                    (Nat.iter (List.length ops) (fun s => (s + 0.1)%float) 0.0%float))
                 1.0%float)
              0.0%float = true -> ops = [] /\ doms = []).
  { rewrite keyword_score_zero.
    - rewrite andb_true_iff, !Nat.eqb_eq. intros [Ha Hb].
      split; now apply length_zero_iff_nil.
    - subst ops. rewrite length_map.
      apply (filter_length_bound _ operation_keywords).
    - subst doms. rewrite length_map.
      apply (filter_length_bound _ domain_keywords). }
  repeat (split; [reflexivity | ]).
  split; [exact Hzero | ].
  intros [Ho Hd]. rewrite Ho, Hd. reflexivity.
Qed.

(** C9 at a path that does not exist and names no keyword. *)
Lemma analyze_complexity_unreachable_witness :
  analyze_complexity (fun _ => Missing) "/srv/legacy/billing"
  = (0.0%float, 0%Z, [], []).
Proof.
  pose proof (analyze_complexity_unreachable (fun _ => Missing)
                "/srv/legacy/billing" eq_refl (or_introl eq_refl)) as H.
  destruct (analyze_complexity (fun _ => Missing) "/srv/legacy/billing")
    as [[[score files] ops] doms].
  destruct H as (-> & -> & -> & -> & _). reflexivity.
Defined.

(** C9 as stated fails: the path "optimize" does not exist, yet its score is
    the float 0.1, not 0, because the keyword is counted. *)
Lemma analyze_complexity_missing_scores_keywords :
  analyze_complexity (fun _ => Missing) "optimize"
  = (0.1%float, 0%Z, ["optimization"], [])
  /\ PyFloat.eq 0.1%float 0.0%float = false.
Proof. split; reflexivity. Qed.

(** ** The phase loop *)

Arguments checkpoint_due : simpl never.

Lemma same_profile_refl (c : WaveContext) : same_profile c c.
Proof. repeat split. Qed.

Lemma same_profile_trans (a b c : WaveContext) :
  same_profile a b -> same_profile b c -> same_profile a c.
Proof.
  unfold same_profile. intros (?&?&?&?&?&?&?) (?&?&?&?&?&?&?).
  repeat split; congruence.
Qed.

Lemma execute_phase_db (self : WaveOrchestrator) (body : PhaseBody)
    (db : Database) (context : WaveContext) (p : WavePhase) :
  snd (execute_phase self body db context p)
  = insert_phase db (phase_start_row self (wave_id context) p).
Proof.
  unfold execute_phase. destruct (body context p); reflexivity.
Qed.

Lemma execute_phase_result (self : WaveOrchestrator) (body : PhaseBody)
    (db : Database) (context : WaveContext) (p : WavePhase) :
  let r := fst (execute_phase self body db context p) in
  pr_phase r = phase_value p
  /\ (pr_status r = completed \/ pr_status r = failed).
Proof.
  unfold execute_phase. destruct (body context p); cbn; auto.
Qed.

(** A phase fails exactly when an exception leaves its body. *)
Lemma execute_phase_failed (self : WaveOrchestrator) (body : PhaseBody)
    (db : Database) (context : WaveContext) (p : WavePhase) :
  pr_status (fst (execute_phase self body db context p)) = failed
  <-> exists e payload m, body context p = raises e payload m.
Proof.
  unfold execute_phase. destruct (body context p) as [pl m | e pl m]; cbn; split.
  - discriminate.
  - intros (e & pl' & m' & H). discriminate H.
  - intros _. now exists e, pl, m.
  - reflexivity.
Qed.

Lemma phase_loop_trace (self : WaveOrchestrator) (body : PhaseBody)
    (cfg : StrategyConfig) (todo : list WavePhase) :
  forall st,
  exists done rest outs,
    LoopTrace self cfg st (phase_loop self body cfg todo st) todo done rest outs.
Proof.
  induction todo as [ | p todo IH]; intros st.
  - exists [], [], [].
    split; cbn [combine record_all fold_left snapshots_of map filter
                List.length removelast app phase_loop];
      auto using same_profile_refl.
    + now rewrite app_nil_r.
    + exists []. rewrite app_nil_r. split; [reflexivity | ].
      destruct (checkpoint_due cfg); cbn; auto.
    + congruence.
  - cbn [phase_loop].
    set (context := set_current_phase (loop_context st) p).
    remember (if checkpoint_due cfg
              then create_checkpoint (loop_db st) context p else loop_db st)
      as db1 eqn:Edb1.
    pose proof (execute_phase_db self body db1 context p) as Hdb.
    pose proof (execute_phase_result self body db1 context p) as [Hph Hst].
    destruct (execute_phase self body db1 context p) as [r db2].
    cbn [fst snd] in Hdb, Hph, Hst. subst db2.
    set (st1 := {| loop_db := insert_phase db1 _; loop_context := _;
                   loop_phases := _; loop_completed := _ |}).
    assert (Hcp : exists cps,
               wave_checkpoints db1 = wave_checkpoints (loop_db st) ++ cps
               /\ if checkpoint_due cfg
                  then cps = [ {| cp_wave_id := wave_id (loop_context st);
                                  cp_phase := phase_value p;
                                  cp_state_snapshot :=
                                    {| snap_phase := phase_value p;
                                       snap_phase_results :=
                                         phase_results (loop_context st);
                                       snap_metrics := metrics (loop_context st) |};
                                  cp_can_rollback := true |} ]
                  else cps = []).
    { subst db1. destruct (checkpoint_due cfg).
      - eexists. split; reflexivity.
      - exists []. now rewrite app_nil_r. }
    assert (Hw1 : waves db1 = waves (loop_db st)
                  /\ wave_phases db1 = wave_phases (loop_db st)).
    { subst db1. destruct (checkpoint_due cfg); split; reflexivity. }
    destruct Hw1 as [Hw1 Hp1]. destruct Hcp as (cps0 & Hcps0 & Hshape0).
    clear Edb1.
    destruct (phase_status_eqb (pr_status r) failed && rollback_enabled cfg) eqn:Hbrk.
    + (* the loop breaks after this phase *)
      apply andb_true_iff in Hbrk. destruct Hbrk as [Hf Hrb].
      assert (Hfailed : pr_status r = failed)
        by (destruct (pr_status r); cbn in Hf; congruence).
      exists [p], todo, [r]. split; cbn [loop_db loop_context loop_phases loop_completed st1].
      * reflexivity.
      * constructor; [split; assumption | constructor].
      * cbn. assumption.
      * cbn. rewrite Hp1. reflexivity.
      * exists cps0. cbn. split; [assumption | ].
        destruct (checkpoint_due cfg); [ | assumption].
        subst cps0. cbn. repeat split; auto.
      * reflexivity.
      * repeat split.
      * reflexivity.
      * cbn. unfold is_completed. rewrite Hfailed. cbn. lia.
      * intros _. constructor.
      * intros _. split; [assumption | ]. exists [], r. split; [reflexivity | assumption].
    + (* the loop goes on *)
      destruct (IH st1) as (done & rest & outs & T).
      destruct T as [Tsplit Touts Twaves Trows Tcps Tphases Tprofile Tctx Tcompl Trb Tstop].
      destruct Tcps as (cps & Hcps & Hshape).
      exists (p :: done), rest, (r :: outs).
      split; cbn [loop_db loop_context loop_phases loop_completed st1] in *.
      * cbn. now rewrite Tsplit.
      * constructor; [split; assumption | assumption].
      * rewrite Twaves. cbn. assumption.
      * rewrite Trows. cbn. rewrite Hp1, <- app_assoc. reflexivity.
      * exists (cps0 ++ cps). rewrite Hcps. cbn. rewrite Hcps0, <- app_assoc.
        split; [reflexivity | ].
        destruct (checkpoint_due cfg).
        -- subst cps0. destruct Hshape as (Hm & Hid & Hsn). cbn.
           repeat split; [now rewrite Hm | | now rewrite Hsn].
           constructor; [split; reflexivity | assumption].
        -- subst cps0 cps. reflexivity.
      * rewrite Tphases. reflexivity.
      * eapply same_profile_trans; [ | exact Tprofile]. repeat split.
      * rewrite Tctx. reflexivity.
      * rewrite Tcompl. cbn [filter]. unfold is_completed at 2.
        destruct (phase_status_eqb (pr_status r) completed); cbn; lia.
      * intros Hrb. specialize (Trb Hrb).
        assert (Hr : pr_status r = completed).
        { rewrite Hrb, andb_true_r in Hbrk.
          destruct Hst as [Hc | Hf]; [assumption | ].
          rewrite Hf in Hbrk. discriminate Hbrk. }
        destruct outs as [ | r' outs']; [constructor | ].
        change (removelast (r :: r' :: outs')) with (r :: removelast (r' :: outs')).
        constructor; assumption.
      * intros Hrest. destruct (Tstop Hrest) as (Hrb & before & r' & Hout & Hf).
        split; [assumption | ]. exists (r :: before), r'. rewrite Hout.
        split; [reflexivity | assumption].
Qed.

(** ** One wave pass *)

Lemma update_other_rows (id : string) (f : WaveRow -> WaveRow) (rows : list WaveRow) :
  existsb (fun r => String.eqb (row_wave_id r) id) rows = false ->
  map (fun r => if String.eqb (row_wave_id r) id then f r else r) rows = rows.
Proof.
  induction rows as [ | r rows IH]; cbn; [reflexivity | ].
  intros H. apply orb_false_iff in H. destruct H as [Hr Hrows].
  rewrite Hr, IH by assumption. reflexivity.
Qed.

(** A pass on a fresh wave id returns, and this is what it returns and
    leaves in the database: [done] are the phases it executed, [outs] their
    results, [rest] the phases it did not reach, [cps] the checkpoints. *)
Lemma execute_wave_run (self : WaveOrchestrator) (body : PhaseBody)
    (db : Database) (context : WaveContext) :
  wave_exists db (wave_id context) = false ->
  let cfg := strategy_configs self (strategy context) in
  let phases := wave_phase_list self context in
  exists done rest outs cps context',
    let m :=
      {| phases_completed := List.length (filter is_completed outs);
         success_rate :=
           final_success_rate (List.length (filter is_completed outs)) phases |} in
    let results :=
      {| res_wave_id := wave_id context;
         res_strategy := strategy_value (strategy context);
         res_phases := record_all [] (combine done outs);
         res_metrics := m |} in
    let row :=
      {| row_wave_id := wave_id context;
         row_strategy := strategy_value (strategy context);
         row_complexity_score := complexity_score context;
         row_file_count := file_count context;
         row_status := final_status (success_rate m);
         row_phases_completed := phases_completed m;
         row_total_phases := List.length phases;
         row_metrics := Some m;
         row_results := Some results |} in
    execute_wave self body db context
    = Ok (results, context',
          {| waves := waves db ++ [row];
             wave_phases :=
               wave_phases db ++ map (phase_start_row self (wave_id context)) done;
             wave_checkpoints := wave_checkpoints db ++ cps |})
    /\ phases = done ++ rest
    /\ Forall2
         (fun p r =>
            pr_phase r = phase_value p
            /\ (pr_status r = completed \/ pr_status r = failed))
         done outs
    /\ (if checkpoint_due cfg
        then map cp_phase cps = map phase_value done
             /\ Forall (fun c => cp_wave_id c = wave_id context
                                 /\ cp_can_rollback c = true) cps
             /\ map (fun c => snap_phase_results (cp_state_snapshot c)) cps
                = snapshots_of (phase_results context) (combine done outs)
        else cps = [])
    /\ same_profile context context'
    /\ phase_results context'
       = record_all (phase_results context) (combine done outs)
    /\ (rollback_enabled cfg = true ->
        Forall (fun r => pr_status r = completed) (removelast outs))
    /\ (rest <> [] ->
        rollback_enabled cfg = true
        /\ exists before r, outs = before ++ [r] /\ pr_status r = failed).
Proof.
  intros Hfresh cfg phases.
  unfold execute_wave, insert_wave. cbn [row_wave_id]. rewrite Hfresh.
  cbn [bind]. fold cfg phases.
  set (st0 := {| loop_db := _; loop_context := context;
                 loop_phases := []; loop_completed := 0 |}).
  destruct (phase_loop_trace self body cfg phases st0) as (done & rest & outs & T).
  destruct T as [Tsplit Touts Twaves Trows Tcps Tphases Tprofile Tctx Tcompl Trb Tstop].
  destruct Tcps as (cps & Hcps & Hshape).
  cbn [loop_db loop_context loop_phases loop_completed st0
       waves wave_phases wave_checkpoints] in *.
  exists done, rest, outs, cps, (loop_context (phase_loop self body cfg phases st0)).
  cbv zeta. repeat split; try assumption.
  - unfold update_wave. rewrite Twaves, Trows, Hcps, Tphases, Tcompl.
    rewrite map_app. cbn [map row_wave_id]. rewrite String.eqb_refl.
    rewrite (update_other_rows _ _ _ Hfresh). cbn [Nat.add]. reflexivity.
  - apply Tprofile.
  - apply Tprofile.
  - apply Tprofile.
  - apply Tprofile.
  - apply Tprofile.
  - apply Tprofile.
  - apply Tprofile.
  - apply (Tstop H).
  - apply (Tstop H).
Qed.

(** *** Dictionaries *)

Lemma dict_keys_set_new {V} (k : string) (v : V) (d : PyDict.t V) :
  ~ In k (PyDict.keys d) -> PyDict.keys (PyDict.set k v d) = PyDict.keys d ++ [k].
Proof.
  induction d as [ | [k' v'] d IH]; cbn; intros H; [reflexivity | ].
  destruct (String.eqb_spec k k') as [-> | Hne].
  - exfalso. apply H. now left.
  - cbn. f_equal. apply IH. intros Hin. apply H. now right.
Qed.

Lemma dict_get_set_same {V} (k : string) (v : V) (d : PyDict.t V) :
  PyDict.get k (PyDict.set k v d) = Some v.
Proof.
  induction d as [ | [k' v'] d IH]; cbn.
  - now rewrite String.eqb_refl.
  - destruct (String.eqb_spec k k') as [-> | Hne]; cbn.
    + now rewrite String.eqb_refl.
    + destruct (String.eqb_spec k k'); [contradiction | assumption].
Qed.

Lemma dict_get_set_other {V} (k k' : string) (v : V) (d : PyDict.t V) :
  k <> k' -> PyDict.get k' (PyDict.set k v d) = PyDict.get k' d.
Proof.
  intros Hne. induction d as [ | [k0 v0] d IH]; cbn.
  - destruct (String.eqb_spec k' k); [congruence | reflexivity].
  - destruct (String.eqb_spec k k0) as [-> | Hk]; cbn.
    + destruct (String.eqb_spec k' k0); [congruence | reflexivity].
    + destruct (String.eqb_spec k' k0); [reflexivity | assumption].
Qed.

Lemma dict_get_notin {V} (k : string) (d : PyDict.t V) :
  ~ In k (PyDict.keys d) -> PyDict.get k d = None.
Proof.
  induction d as [ | [k' v'] d IH]; cbn; intros H; [reflexivity | ].
  destruct (String.eqb_spec k k') as [-> | Hne].
  - exfalso. apply H. now left.
  - apply IH. intros Hin. apply H. now right.
Qed.

Lemma record_all_cons (d : PyDict.t PhaseResult) (p : WavePhase)
    (r : PhaseResult) (steps : list (WavePhase * PhaseResult)) :
  record_all d ((p, r) :: steps) = record_all (PyDict.set (phase_value p) r d) steps.
Proof. reflexivity. Qed.

Lemma keys_record_all (steps : list (WavePhase * PhaseResult)) :
  forall d,
    NoDup (PyDict.keys d ++ map (fun s => phase_value (fst s)) steps) ->
    PyDict.keys (record_all d steps)
    = PyDict.keys d ++ map (fun s => phase_value (fst s)) steps.
Proof.
  induction steps as [ | [p r] steps IH]; intros d Hnd.
  - cbn. now rewrite app_nil_r.
  - cbn [map fst] in *.
    pose proof (NoDup_remove_2 _ _ _ Hnd) as Hnotin.
    assert (Hk : ~ In (phase_value p) (PyDict.keys d)).
    { intros Hin. apply Hnotin. apply in_or_app. now left. }
    rewrite record_all_cons.
    rewrite IH; rewrite (dict_keys_set_new _ _ _ Hk), <- app_assoc.
    + reflexivity.
    + exact Hnd.
Qed.

(** Keys that are all new to the dictionary are absent from it until their
    step is recorded. *)
Lemma keys_record_all_subset (steps : list (WavePhase * PhaseResult)) :
  forall d k,
    In k (PyDict.keys (record_all d steps)) ->
    In k (PyDict.keys d) \/ In k (map (fun s => phase_value (fst s)) steps).
Proof.
  induction steps as [ | [p r] steps IH]; intros d k Hin.
  - now left.
  - rewrite record_all_cons in Hin. cbn [map fst].
    apply IH in Hin. destruct Hin as [Hin | Hin]; [ | right; now right].
    destruct (in_dec string_dec (phase_value p) (PyDict.keys d)) as [Hp | Hp].
    + assert (Hsame : forall (d0 : PyDict.t PhaseResult),
                 In (phase_value p) (PyDict.keys d0) ->
                 PyDict.keys (PyDict.set (phase_value p) r d0) = PyDict.keys d0).
      { clear. induction d0 as [ | [k' v'] d0 IHd]; cbn; intros H; [contradiction | ].
        destruct (String.eqb_spec (phase_value p) k') as [-> | Hne]; cbn.
        - reflexivity.
        - f_equal. apply IHd. destruct H as [H | H]; [congruence | assumption]. }
      rewrite Hsame in Hin by assumption. now left.
    + rewrite dict_keys_set_new in Hin by assumption.
      apply in_app_or in Hin. destruct Hin as [Hin | [Hin | []]]; [now left | ].
      right. left. assumption.
Qed.

Lemma combine_fst_Forall2 {A B} (R : A -> B -> Prop) (xs : list A) (ys : list B) :
  Forall2 R xs ys -> map fst (combine xs ys) = xs /\ map snd (combine xs ys) = ys.
Proof.
  induction 1 as [ | x y xs ys _ _ [IH1 IH2]]; cbn; [auto | ].
  now rewrite IH1, IH2.
Qed.

Lemma NoDup_phase_values (l : list WavePhase) :
  NoDup l -> NoDup (map phase_value l).
Proof.
  induction 1 as [ | p l Hp _ IH]; cbn; constructor; [ | assumption].
  intros Hin. apply in_map_iff in Hin. destruct Hin as (q & Hq & Hin).
  apply phase_value_inj in Hq. now subst.
Qed.

Lemma NoDup_phases_length (l : list WavePhase) : NoDup l -> (List.length l <= 5)%nat.
Proof.
  intros H. change 5%nat with (List.length all_phases).
  apply NoDup_incl_length; [assumption | ].
  intros p _. destruct p; cbn; auto 6.
Qed.

(** *** Counting the completed phases *)

Lemma count_completed_lt (outs : list PhaseResult) (r : PhaseResult) :
  In r outs -> pr_status r = failed ->
  (List.length (filter is_completed outs) < List.length outs)%nat.
Proof.
  induction outs as [ | r' outs IH]; cbn; [contradiction | ].
  intros [-> | Hin] Hf.
  - unfold is_completed at 1. rewrite Hf. cbn.
    pose proof (filter_length_bound is_completed outs). lia.
  - specialize (IH Hin Hf). destruct (is_completed r'); cbn; lia.
Qed.

Lemma count_all_completed (outs : list PhaseResult) :
  Forall (fun r => pr_status r = completed) outs ->
  List.length (filter is_completed outs) = List.length outs.
Proof.
  induction 1 as [ | r outs Hr _ IH]; cbn; [reflexivity | ].
  unfold is_completed at 1. rewrite Hr. cbn. now rewrite IH.
Qed.

(** When every result but the last is completed, a failed result is the
    last one and the completed ones are those before it. *)
Lemma failed_is_last (outs : list PhaseResult) (k : nat) (r : PhaseResult) :
  Forall (fun r => pr_status r = completed) (removelast outs) ->
  nth_error outs k = Some r -> pr_status r = failed ->
  List.length outs = S k /\ List.length (filter is_completed outs) = k.
Proof.
  intros Hall Hk Hf.
  destruct (exists_last (l := outs)) as (before & lst & ->).
  { intros ->. destruct k; discriminate Hk. }
  rewrite removelast_last in Hall.
  assert (Hlen : k = List.length before).
  { destruct (Nat.lt_trichotomy k (List.length before)) as [Hlt | [Heq | Hgt]].
    - rewrite nth_error_app1 in Hk by assumption.
      apply nth_error_In in Hk. rewrite Forall_forall in Hall.
      specialize (Hall r Hk). congruence.
    - assumption.
    - assert (Hnone : nth_error (before ++ [lst]) k = None).
      { apply nth_error_None. rewrite length_app. cbn. lia. }
      congruence. }
  subst k. rewrite nth_error_app2, Nat.sub_diag in Hk by lia.
  cbn in Hk. injection Hk as ->.
  rewrite length_app, filter_app, length_app, (count_all_completed _ Hall).
  cbn [filter]. unfold is_completed at 1. rewrite Hf. cbn. lia.
Qed.

(** *** The success rate of short phase lists *)

Lemma truediv_is_one_small (a b : nat) :
  (a <= b)%nat -> (1 <= b <= 5)%nat ->
  PyFloat.eq (PyFloat.truediv (Z.of_nat a) (Z.of_nat b)) 1.0%float = (a =? b)%nat.
Proof.
  intros Hab Hb.
  assert (H : forallb
                (fun b =>
                   forallb
                     (fun a =>
                        Bool.eqb
                          (PyFloat.eq
                             (PyFloat.truediv (Z.of_nat a) (Z.of_nat b)) 1.0%float)
                          (a =? b)%nat)
                     (seq 0 (S b)))
                (seq 1 5) = true) by (vm_compute; reflexivity).
  rewrite forallb_forall in H.
  specialize (H b ltac:(apply in_seq; lia)). cbv beta in H.
  rewrite forallb_forall in H.
  specialize (H a ltac:(apply in_seq; lia)).
  now apply Bool.eqb_prop in H.
Qed.

Lemma final_status_small (done_count : nat) (phases : list WavePhase) :
  (done_count <= List.length phases)%nat -> (List.length phases <= 5)%nat ->
  final_status (final_success_rate done_count phases) = wave_completed
  <-> phases <> [] /\ done_count = List.length phases.
Proof.
  intros Hle H5. unfold final_status, final_success_rate.
  destruct phases as [ | p phases].
  - cbn. split; [discriminate | intros [H _]; congruence].
  - rewrite truediv_is_one_small by (cbn in *; lia).
    destruct (Nat.eqb_spec done_count (List.length (p :: phases))) as [-> | Hne];
      split; try discriminate; auto.
    + intros _. split; [discriminate | reflexivity].
    + intros [_ H]. contradiction.
Qed.

(** *** The built-in strategies *)

Lemma init_phase_list (context : WaveContext) :
  let l := wave_phase_list init context in
  NoDup l /\ (2 <= List.length l <= 5)%nat.
Proof.
  unfold wave_phase_list. destruct (strategy context); cbn.
  - split; [ | lia]. repeat constructor; cbn; intuition discriminate.
  - split; [ | lia]. repeat constructor; cbn; intuition discriminate.
  - unfold select_adaptive_phases.
    destruct (PyFloat.gt (complexity_score context) 0.7%float);
      destruct (PyStr.mem "testing" (operation_types context)
                || PyFloat.gt (complexity_score context) 0.6%float);
      destruct (PyStr.mem "optimization" (operation_types context)
                || PyStr.mem "performance_tuning" (operation_types context));
      cbn; (split; [ | lia]); repeat constructor; cbn; intuition discriminate.
  - split; [ | lia]. repeat constructor; cbn; intuition discriminate.
Qed.

(** *** The outcome of a pass *)

(** C3. At the end of every pass (on a wave id new to the database, with a
    file count that sqlite3 can store) the success rate is the quotient of
    the number of completed phases by the
    number of phases of the pass, computed once from the two counts (and 0
    for an empty phase list, where there is no quotient); the row of the wave
    holds these counts and its status is "completed" exactly when the success
    rate equals 1.0, "partial" otherwise. For a phase list without
    repetition that is exactly when every phase of the list completed. *)
Theorem wave_outcome_recomputed (self : WaveOrchestrator) (body : PhaseBody)
    (db : Database) (context : WaveContext) :
  sqlite_integer (file_count context) = true ->
  wave_exists db (wave_id context) = false ->
  exists results context' db' row,
    execute_wave self body db context = Ok (results, context', db')
    /\ waves db' = waves db ++ [row]
    /\ row_wave_id row = wave_id context
    /\ let m := res_metrics results in
       let total := List.length (wave_phase_list self context) in
       row_total_phases row = total
       /\ row_phases_completed row = phases_completed m
       /\ row_metrics row = Some m
       /\ (phases_completed m <= total)%nat
       /\ (total <> 0%nat ->
           success_rate m
           = PyFloat.truediv (Z.of_nat (phases_completed m)) (Z.of_nat total))
       /\ (total = 0%nat -> success_rate m = 0.0%float)
       /\ (row_status row = wave_completed <->
           PyFloat.eq (success_rate m) 1.0%float = true)
       /\ (row_status row = wave_partial <->
           PyFloat.eq (success_rate m) 1.0%float = false)
       /\ (NoDup (wave_phase_list self context) ->
           (row_status row = wave_completed <->
            total <> 0%nat /\ phases_completed m = total)).
Proof.
  intros _ Hfresh.
  destruct (execute_wave_run self body db context Hfresh)
    as (done & rest & outs & cps & context' & Hrun & Hsplit & Houts & _).
  cbv zeta in Hrun.
  eexists _, context', _, _. split; [exact Hrun | ].
  cbn [waves res_metrics phases_completed success_rate row_wave_id
       row_total_phases row_phases_completed row_metrics row_status].
  set (total := List.length (wave_phase_list self context)).
  set (n := List.length (filter is_completed outs)).
  assert (Hn : (n <= total)%nat).
  { subst n total. rewrite Hsplit, length_app.
    pose proof (filter_length_bound is_completed outs).
    pose proof (Forall2_length Houts). lia. }
  assert (Hstatus : forall x,
             (final_status x = wave_completed <-> PyFloat.eq x 1.0%float = true)
             /\ (final_status x = wave_partial <-> PyFloat.eq x 1.0%float = false)).
  { intros x. unfold final_status.
    destruct (PyFloat.eq x 1.0%float); split; split; congruence. }
  split; [reflexivity | ]. split; [reflexivity | ].
  split; [reflexivity | ]. split; [reflexivity | ]. split; [reflexivity | ].
  split; [exact Hn | ].
  split.
  { intros Hne. unfold final_success_rate. fold total.
    destruct (wave_phase_list self context); [cbn in *; congruence | reflexivity]. }
  split.
  { subst total. intros H0. apply length_zero_iff_nil in H0. now rewrite H0. }
  split; [apply Hstatus | ]. split; [apply Hstatus | ].
  intros Hnd.
  pose proof (final_status_small n (wave_phase_list self context) Hn
                (NoDup_phases_length _ Hnd)) as Hsmall.
  fold total in Hsmall.
  assert (Hnil : wave_phase_list self context <> [] <-> total <> 0%nat).
  { subst total. now rewrite length_zero_iff_nil. }
  rewrite <- Hnil. exact Hsmall.
Qed.

(** C3 at a systematic wave on the empty database. *)
Lemma wave_outcome_recomputed_witness :
  exists results context' db',
    execute_wave init simulated_body empty_database systematic_context
    = Ok (results, context', db').
Proof.
  destruct (wave_outcome_recomputed init simulated_body empty_database
              systematic_context eq_refl eq_refl)
    as (results & context' & db' & row & Hrun & _).
  exists results, context', db'. exact Hrun.
Defined.

(** *** Failure of a phase *)

(** C2, as the code has it. Let a phase of a pass fail (an exception leaves
    its body). The wave is marked "partial" in every case. When the
    strategy's [rollback_enabled] flag is true, as in the four built-in
    configurations, the loop stops at once: the failed phase is the last one
    executed, the phases after it in the configured order are neither
    executed nor recorded (no row in [wave_phases], no entry in the results),
    and [phases_completed] is the number of phases before it. When the flag
    is false the loop does not stop: every phase of the list is executed.
    The pass is one on a wave id new to the database, with a file count that
    sqlite3 can store, over a phase list without repetition. *)
Theorem phase_failure_halts (self : WaveOrchestrator) (body : PhaseBody)
    (db : Database) (context : WaveContext) :
  sqlite_integer (file_count context) = true ->
  wave_exists db (wave_id context) = false ->
  NoDup (wave_phase_list self context) ->
  let cfg := strategy_configs self (strategy context) in
  exists results context' db' row done rest outs,
    execute_wave self body db context = Ok (results, context', db')
    /\ wave_phase_list self context = done ++ rest
    /\ List.length outs = List.length done
    /\ res_phases results = record_all [] (combine done outs)
    /\ PyDict.keys (res_phases results) = map phase_value done
    /\ wave_phases db'
       = wave_phases db ++ map (phase_start_row self (wave_id context)) done
    /\ waves db' = waves db ++ [row]
    /\ row_phases_completed row = phases_completed (res_metrics results)
    /\ (forall k r,
          nth_error outs k = Some r -> pr_status r = failed ->
          row_status row = wave_partial
          /\ (rollback_enabled cfg = true ->
              done = firstn (S k) (wave_phase_list self context)
              /\ phases_completed (res_metrics results) = k))
    /\ (rollback_enabled cfg = false -> rest = []).
Proof.
  intros _ Hfresh Hnd cfg.
  destruct (execute_wave_run self body db context Hfresh)
    as (done & rest & outs & cps & context' & Hrun & Hsplit & Houts & _ & _ & _
        & Hrb & Hstop).
  cbv zeta in Hrun. fold cfg in Hrb, Hstop.
  pose proof (Forall2_length Houts) as Hlen.
  eexists _, context', _, _, done, rest, outs. split; [exact Hrun | ].
  cbn [waves wave_phases res_phases res_metrics phases_completed
       row_phases_completed row_status success_rate].
  split; [exact Hsplit | ]. split; [now symmetry | ]. split; [reflexivity | ].
  split.
  { rewrite keys_record_all.
    - cbn. rewrite <- map_map.
      now rewrite (proj1 (combine_fst_Forall2 _ _ _ Houts)).
    - cbn. rewrite <- map_map.
      rewrite (proj1 (combine_fst_Forall2 _ _ _ Houts)).
      apply NoDup_phase_values. rewrite Hsplit in Hnd.
      now apply NoDup_app_remove_r in Hnd. }
  split; [reflexivity | ]. split; [reflexivity | ]. split; [reflexivity | ].
  split.
  - intros k r Hk Hf. split.
    + assert (Hlt : (List.length (filter is_completed outs)
                     < List.length (wave_phase_list self context))%nat).
      { pose proof (count_completed_lt outs r (nth_error_In _ _ Hk) Hf).
        rewrite Hsplit, length_app. lia. }
      pose proof (final_status_small (List.length (filter is_completed outs))
                    (wave_phase_list self context) ltac:(lia)
                    (NoDup_phases_length _ Hnd)) as Hsmall.
      unfold final_status in *.
      destruct (PyFloat.eq _ 1.0%float); [ | reflexivity].
      destruct (proj1 Hsmall eq_refl) as [_ Heq]. lia.
    + intros Hr. destruct (failed_is_last outs k r (Hrb Hr) Hk Hf) as [Hl Hc].
      split; [ | exact Hc].
      rewrite Hsplit, <- Hl, <- Hlen, firstn_app, Nat.sub_diag, firstn_all.
      cbn. now rewrite app_nil_r.
  - intros Hr. destruct rest as [ | p rest]; [reflexivity | ].
    destruct (Hstop ltac:(discriminate)) as [Hr' _]. congruence.
Qed.

(** C2 on the built-in systematic strategy when "implementation" fails: the
    wave is partial, two phases completed, and nothing after
    "implementation" is recorded. *)
Lemma phase_failure_halts_witness :
  exists results context' db',
    execute_wave init (fails_at IMPLEMENTATION) empty_database systematic_context
    = Ok (results, context', db')
    /\ map row_status (waves db') = [wave_partial]
    /\ phases_completed (res_metrics results) = 2%nat
    /\ map prow_phase (wave_phases db') = ["review"; "planning"; "implementation"]
    /\ PyDict.keys (res_phases results) = ["review"; "planning"; "implementation"].
Proof.
  destruct (phase_failure_halts init (fails_at IMPLEMENTATION) empty_database
              systematic_context eq_refl eq_refl
              (proj1 (init_phase_list systematic_context)))
    as (results & context' & db' & row & done & rest & outs & Hrun & _).
  exists results, context', db'. split; [exact Hrun | ].
  vm_compute in Hrun. injection Hrun as <- _ <-.
  repeat split.
Defined.

(** C2 as stated fails where the rollback flag is off: "implementation"
    fails, and "validation" and "optimization" are executed and recorded all
    the same. *)
Lemma failure_without_rollback_goes_on :
  match execute_wave without_rollback (fails_at IMPLEMENTATION) empty_database
          systematic_context with
  | Ok (results, _, db') =>
      map prow_phase (wave_phases db')
      = ["review"; "planning"; "implementation"; "validation"; "optimization"]
      /\ map (fun kv => (fst kv, pr_status (snd kv))) (res_phases results)
         = [("review", completed); ("planning", completed);
            ("implementation", failed); ("validation", completed);
            ("optimization", completed)]
      /\ phases_completed (res_metrics results) = 4%nat
      /\ map row_status (waves db') = [wave_partial]
  | Raise _ => False
  end.
Proof. vm_compute. repeat split. Qed.

(** *** Checkpoints *)

Lemma checkpoint_due_iff (cfg : StrategyConfig) :
  checkpoint_due cfg = true
  <-> checkpoint_frequency cfg = "per_phase"
      \/ checkpoint_frequency cfg = "continuous".
Proof.
  unfold checkpoint_due. rewrite mem_In. cbn. intuition.
Qed.

(** C6, as the code has it, for a pass on a wave id new to the database with
    a file count that sqlite3 can store. In a pass whose strategy has
    checkpoint frequency "per_phase" or "continuous", exactly one checkpoint
    is written for each executed phase, in the order of execution and under
    the wave's id. Under any other frequency, "adaptive" and "per_iteration"
    among them, the pass writes no checkpoint. In every pass a checkpoint
    belongs to a phase that the pass executes: none is written for a phase
    that is not reached. *)
Theorem checkpoints_of_a_pass (self : WaveOrchestrator) (body : PhaseBody)
    (db : Database) (context : WaveContext) :
  sqlite_integer (file_count context) = true ->
  wave_exists db (wave_id context) = false ->
  let cfg := strategy_configs self (strategy context) in
  exists results context' db' done rest outs cps,
    execute_wave self body db context = Ok (results, context', db')
    /\ wave_phase_list self context = done ++ rest
    /\ List.length outs = List.length done
    /\ res_phases results = record_all [] (combine done outs)
    /\ wave_phases db'
       = wave_phases db ++ map (phase_start_row self (wave_id context)) done
    /\ wave_checkpoints db' = wave_checkpoints db ++ cps
    /\ Forall (fun c => cp_wave_id c = wave_id context
                        /\ In (cp_phase c) (map phase_value done)) cps
    /\ (checkpoint_frequency cfg = "per_phase"
        \/ checkpoint_frequency cfg = "continuous" ->
        map cp_phase cps = map phase_value done)
    /\ (checkpoint_frequency cfg <> "per_phase" ->
        checkpoint_frequency cfg <> "continuous" -> cps = [])
    /\ (checkpoint_frequency cfg = "adaptive"
        \/ checkpoint_frequency cfg = "per_iteration" -> cps = []).
Proof.
  intros _ Hfresh cfg.
  destruct (execute_wave_run self body db context Hfresh)
    as (done & rest & outs & cps & context' & Hrun & Hsplit & Houts & Hcps & _).
  cbv zeta in Hrun. fold cfg in Hcps.
  pose proof (Forall2_length Houts) as Hlen.
  pose proof (checkpoint_due_iff cfg) as Hdue.
  eexists _, context', _, done, rest, outs, cps. split; [exact Hrun | ].
  cbn [wave_phases wave_checkpoints res_phases].
  split; [exact Hsplit | ]. split; [now symmetry | ].
  split; [reflexivity | ]. split; [reflexivity | ]. split; [reflexivity | ].
  destruct (checkpoint_due cfg).
  - destruct Hcps as (Hmap & Hids & Hsnap).
    split.
    { rewrite Forall_forall in *. intros c Hc. split; [now apply Hids | ].
      rewrite <- Hmap. now apply in_map. }
    split; [auto | ].
    split.
    + intros H1 H2. destruct (proj1 Hdue eq_refl); contradiction.
    + intros [H | H]; destruct (proj1 Hdue eq_refl) as [H' | H'];
        rewrite H in H'; discriminate H'.
  - subst cps. split; [constructor | ].
    split; [ | auto].
    intros H. apply Hdue in H. discriminate H.
Qed.

(** C6 on the built-in systematic strategy ("per_phase"): five phases, five
    checkpoints. *)
Lemma checkpoints_of_a_pass_witness :
  exists results context' db',
    execute_wave init simulated_body empty_database systematic_context
    = Ok (results, context', db')
    /\ map cp_phase (wave_checkpoints db') = map prow_phase (wave_phases db').
Proof.
  destruct (checkpoints_of_a_pass init simulated_body empty_database
              systematic_context eq_refl eq_refl)
    as (results & context' & db' & done & rest & outs & cps & Hrun & _ & _ & _
        & Hrows & Hcps & _ & Hdue & _).
  exists results, context', db'. split; [exact Hrun | ].
  rewrite Hrows, Hcps. cbn [wave_phases wave_checkpoints empty_database app].
  rewrite (Hdue (or_introl eq_refl)), map_map. reflexivity.
Defined.

(** C6 as stated fails for the adaptive frequency: an adaptive wave executes
    its phases and no checkpoint is written. *)
Lemma adaptive_pass_writes_no_checkpoint :
  match execute_wave init simulated_body empty_database adaptive_context with
  | Ok (_, _, db') =>
      checkpoint_frequency (strategy_configs init ADAPTIVE) = "adaptive"
      /\ map prow_phase (wave_phases db') = ["review"; "implementation"]
      /\ wave_checkpoints db' = []
  | Raise _ => False
  end.
Proof. vm_compute. repeat split. Qed.

(** Where a pass writes checkpoints, the snapshot of each holds the phase
    results the context had when the phase was about to run. *)
Lemma checkpoint_snapshots (self : WaveOrchestrator) (body : PhaseBody)
    (db : Database) (context : WaveContext) :
  wave_exists db (wave_id context) = false ->
  checkpoint_due (strategy_configs self (strategy context)) = true ->
  exists results context' db' done rest outs cps,
    execute_wave self body db context = Ok (results, context', db')
    /\ wave_phase_list self context = done ++ rest
    /\ res_phases results = record_all [] (combine done outs)
    /\ wave_checkpoints db' = wave_checkpoints db ++ cps
    /\ map (fun c => snap_phase_results (cp_state_snapshot c)) cps
       = snapshots_of (phase_results context) (combine done outs).
Proof.
  intros Hfresh Hdue.
  destruct (execute_wave_run self body db context Hfresh)
    as (done & rest & outs & cps & context' & Hrun & Hsplit & _ & Hcps & _).
  cbv zeta in Hrun. rewrite Hdue in Hcps.
  eexists _, context', _, done, rest, outs, cps. split; [exact Hrun | ].
  cbn [wave_checkpoints res_phases].
  split; [exact Hsplit | ]. split; [reflexivity | ]. split; [reflexivity | ].
  apply Hcps.
Qed.

(** On the built-in systematic strategy: the snapshot of the checkpoint of a
    phase lists the phases before it. *)
Example systematic_checkpoint_snapshots :
  match execute_wave init simulated_body empty_database systematic_context with
  | Ok (_, _, db') =>
      map (fun c => (cp_phase c,
                     PyDict.keys (snap_phase_results (cp_state_snapshot c))))
        (wave_checkpoints db')
      = [ ("review", []);
          ("planning", ["review"]);
          ("implementation", ["review"; "planning"]);
          ("validation", ["review"; "planning"; "implementation"]);
          ("optimization",
            ["review"; "planning"; "implementation"; "validation"]) ]
  | Raise _ => False
  end.
Proof. vm_compute. reflexivity. Qed.

(** ** Progressive iteration *)

Lemma string_length_append (s t : string) :
  String.length (s ++ t) = (String.length s + String.length t)%nat.
Proof. induction s as [ | c s IH]; cbn; [reflexivity | now rewrite IH]. Qed.

Lemma pass_id_from_grows (current : string) (i j k : nat) :
  (j < k)%nat ->
  (String.length (pass_id_from current i j)
   < String.length (pass_id_from current i k))%nat.
Proof.
  intros Hlt. induction Hlt as [ | m Hm IH]; cbn [pass_id_from];
    rewrite !string_length_append; cbn; lia.
Qed.

Lemma pass_id_from_distinct (current : string) (i j k : nat) :
  (j < k)%nat -> pass_id_from current i j <> pass_id_from current i k.
Proof.
  intros Hlt Heq. pose proof (pass_id_from_grows current i j k Hlt) as H.
  rewrite Heq in H. lia.
Qed.

Lemma pass_id_from_shift (current : string) (i j : nat) :
  pass_id_from (pass_id_from current i 1) (S i) j = pass_id_from current i (S j).
Proof.
  induction j as [ | j IH]; [reflexivity | ].
  cbn [pass_id_from] in *. rewrite IH.
  replace (S i + S j)%nat with (i + S (S j))%nat by lia. reflexivity.
Qed.

Lemma string_append_assoc (s t u : string) :
  ((s ++ t) ++ u)%string = (s ++ t ++ u)%string.
Proof. induction s as [ | c s IH]; cbn; [reflexivity | now rewrite IH]. Qed.

Lemma string_append_nil_r (s : string) : (s ++ EmptyString)%string = s.
Proof. induction s as [ | c s IH]; cbn; [reflexivity | now rewrite IH]. Qed.

(** Every pass id is the base id followed by the suffixes of the passes so
    far, the last of which is the pass's own. *)
Lemma pass_id_shape (base : string) (k : nat) :
  exists middle,
    pass_id base (S k) = (base ++ middle ++ "_iter" ++ PyStr.of_nat (S k))%string.
Proof.
  assert (Hprefix : forall j, exists m, pass_id_from base 0 j = (base ++ m)%string).
  { induction j as [ | j [m IH]].
    - exists EmptyString. cbn. now rewrite string_append_nil_r.
    - eexists. cbn [pass_id_from]. rewrite IH, string_append_assoc. reflexivity. }
  destruct (Hprefix k) as [m Hm]. exists m.
  unfold pass_id. cbn [pass_id_from Nat.add]. rewrite Hm.
  apply string_append_assoc.
Qed.

Lemma wave_phase_list_profile (self : WaveOrchestrator) (c c' : WaveContext) :
  same_profile c c' -> wave_phase_list self c' = wave_phase_list self c.
Proof.
  intros (_ & Hs & Hc & _ & Ho & _).
  unfold wave_phase_list, select_adaptive_phases. now rewrite Hs, Hc, Ho.
Qed.

Lemma is_pass_of_profile (self : WaveOrchestrator) (c c' : WaveContext)
    (r : WaveResults) :
  wave_phase_list self c' = wave_phase_list self c ->
  is_pass_of self c' r -> is_pass_of self c r.
Proof. unfold is_pass_of. intros ->. auto. Qed.

Lemma wave_exists_app (db : Database) (rows : list WaveRow) (id : string)
    (phases_rows : list PhaseRow) (cps : list CheckpointRow) :
  wave_exists {| waves := waves db ++ rows; wave_phases := phases_rows;
                 wave_checkpoints := cps |} id
  = wave_exists db id || existsb (fun r => String.eqb (row_wave_id r) id) rows.
Proof. unfold wave_exists. cbn. apply existsb_app. Qed.

(** The progressive loop from pass index [i] on, for [remaining] rounds, on
    wave ids new to the database: it returns, [new] being the results of the
    passes it made. *)
Lemma progressive_loop_spec (self : WaveOrchestrator) (body : PhaseBody) :
  forall remaining i db context acc,
    (forall k, (1 <= k <= remaining)%nat ->
               wave_exists db (pass_id_from (wave_id context) i k) = false) ->
    exists new context' db',
      progressive_loop self body i remaining db context acc
      = Ok (acc ++ new, context', db')
      /\ (List.length new <= remaining)%nat
      /\ ((1 <= remaining)%nat -> (1 <= List.length new)%nat)
      /\ (forall j r,
            nth_error new j = Some r ->
            res_wave_id r = pass_id_from (wave_id context) i (S j)
            /\ is_pass_of self context r)
      /\ (forall j r,
            nth_error new j = Some r -> (S j < List.length new)%nat ->
            converged r = false)
      /\ ((List.length new < remaining)%nat ->
          exists r, nth_error new (List.length new - 1) = Some r
                    /\ converged r = true)
      /\ (exists rows,
            waves db' = waves db ++ rows
            /\ map row_wave_id rows = map res_wave_id new)
      /\ wave_id context' = pass_id_from (wave_id context) i (List.length new).
Proof.
  induction remaining as [ | remaining IH]; intros i db context acc Hfresh.
  - exists [], context, db. cbn [progressive_loop List.length pass_id_from].
    rewrite app_nil_r.
    split; [reflexivity | ]. split; [lia | ]. split; [lia | ].
    split; [intros [ | j] r H; discriminate H | ].
    split; [intros [ | j] r H; discriminate H | ].
    split; [lia | ].
    split; [exists []; now rewrite app_nil_r | reflexivity].
  - cbn [progressive_loop].
    set (id1 := (wave_id context ++ "_iter" ++ PyStr.of_nat (i + 1))%string).
    assert (Hid1 : id1 = pass_id_from (wave_id context) i 1) by reflexivity.
    set (context1 := set_wave_id context id1).
    assert (Hfresh1 : wave_exists db (wave_id context1) = false).
    { cbn [context1 set_wave_id wave_id]. rewrite Hid1. apply Hfresh. lia. }
    destruct (execute_wave_run self body db context1 Hfresh1)
      as (done & rest & outs & cps & context2 & Hrun & Hsplit & Houts & _
          & Hprofile & _).
    cbv zeta in Hrun. rewrite Hrun. cbn [bind].
    match type of Hrun with
    | _ = Ok (?res, _, _) => set (results := res) in *
    end.
    match type of Hrun with
    | _ = Ok (_, _, ?d) => set (db1 := d) in *
    end.
    assert (Hpass : is_pass_of self context results).
    { apply (is_pass_of_profile self context context1); [reflexivity | ].
      exists done, rest, outs. repeat split; assumption || reflexivity. }
    assert (Hwid : wave_id context2 = id1) by apply Hprofile.
    destruct (converged results) eqn:Hconv.
    + exists [results], context2, db1. cbn [List.length].
      split; [reflexivity | ]. split; [lia | ]. split; [lia | ].
      split.
      { intros j r H. destruct j as [ | [ | j]]; try discriminate H.
        injection H as <-. split; [reflexivity | exact Hpass]. }
      split; [intros j r H Hlt; lia | ].
      split.
      { intros _. exists results. split; [reflexivity | assumption]. }
      split; [eexists [_]; split; reflexivity | ].
      rewrite Hwid. exact Hid1.
    + assert (Hfresh2 : forall k, (1 <= k <= remaining)%nat ->
                 wave_exists db1 (pass_id_from (wave_id context2) (S i) k) = false).
      { intros k Hk. rewrite Hwid, Hid1, pass_id_from_shift.
        subst db1. rewrite wave_exists_app. cbn [existsb row_wave_id context1
                                                  set_wave_id wave_id].
        rewrite Hfresh by lia. cbn [orb]. rewrite orb_false_r.
        apply String.eqb_neq. rewrite Hid1.
        apply pass_id_from_distinct. lia. }
      destruct (IH (S i) db1 context2 (acc ++ [results]) Hfresh2)
        as (new & context' & db' & Hloop & Hlen & Hpos & Hids & Hnot & Hearly
            & (rows & Hrows & Hrowids) & Hfinal).
      exists (results :: new), context', db'. cbn [List.length].
      rewrite Hloop, <- app_assoc. cbn [app].
      split; [reflexivity | ]. split; [lia | ]. split; [lia | ].
      split.
      { intros j r H. destruct j as [ | j]; cbn in H.
        - injection H as <-. split; [reflexivity | exact Hpass].
        - destruct (Hids j r H) as [Hj Hp]. split.
          + rewrite Hj, Hwid, Hid1. apply pass_id_from_shift.
          + apply (is_pass_of_profile self context context2); [ | exact Hp].
            rewrite (wave_phase_list_profile self context1 context2 Hprofile).
            reflexivity. }
      split.
      { intros j r H Hlt. destruct j as [ | j]; cbn in H.
        - injection H as <-. assumption.
        - apply (Hnot j r H). lia. }
      split.
      { intros Hlt. destruct (Hearly ltac:(lia)) as (r & Hr & Hc).
        exists r. split; [ | assumption].
        destruct new as [ | r0 new0]; [cbn in Hpos; lia | ].
        cbn [List.length] in *.
        replace (S (S (List.length new0)) - 1)%nat
          with (S (S (List.length new0) - 1)) by lia.
        exact Hr. }
      split.
      { eexists (_ :: rows). subst db1. cbn [waves] in Hrows.
        rewrite Hrows, <- app_assoc. split; [reflexivity | ].
        cbn. now rewrite Hrowids. }
      rewrite Hfinal, Hwid, Hid1. apply pass_id_from_shift.
Qed.

(** What [run_progressive_waves] does on wave ids new to the database. *)
Lemma progressive_run (self : WaveOrchestrator) (body : PhaseBody)
    (db : Database) (context : WaveContext) (iterations : nat) :
  (forall k, (1 <= k <= iterations)%nat ->
             wave_exists db (pass_id (wave_id context) k) = false) ->
  exists all_results context' db',
    run_progressive_waves self body db context iterations
    = Ok (all_results, context', db')
    /\ (List.length all_results <= iterations)%nat
    /\ ((1 <= iterations)%nat -> (1 <= List.length all_results)%nat)
    /\ (forall k r,
          nth_error all_results k = Some r ->
          res_wave_id r = pass_id (wave_id context) (S k)
          /\ is_pass_of self context r)
    /\ (forall k r,
          nth_error all_results k = Some r ->
          (converged r = true -> List.length all_results = S k)
          /\ (converged r = false -> (S k < iterations)%nat ->
              (S k < List.length all_results)%nat)).
Proof.
  intros Hfresh.
  destruct (progressive_loop_spec self body iterations 0 db context [] Hfresh)
    as (new & context' & db' & Hloop & Hlen & Hpos & Hids & Hnot & Hearly & _).
  exists new, context', db'.
  split; [exact Hloop | ]. split; [exact Hlen | ]. split; [exact Hpos | ].
  split; [exact Hids | ].
  intros k r Hk.
  assert (Hklt : (k < List.length new)%nat).
  { apply nth_error_Some. congruence. }
  split.
  - intros Hc.
    destruct (Nat.eq_dec (List.length new) (S k)) as [ | Hne]; [assumption | ].
    rewrite (Hnot k r Hk ltac:(lia)) in Hc. discriminate Hc.
  - intros Hc Hit.
    destruct (Nat.eq_dec (List.length new) (S k)) as [Heq | Hne]; [ | lia].
    destruct (Hearly ltac:(lia)) as (r' & Hr' & Hc').
    rewrite Heq in Hr'. cbn in Hr'. rewrite Nat.sub_0_r in Hr'. congruence.
Qed.

Lemma converged_iff (r : WaveResults) :
  converged r = true
  <-> PyFloat.eq (success_rate (res_metrics r)) 1.0%float = true
      /\ improvement r = "0%".
Proof. unfold converged. now rewrite andb_true_iff, String.eqb_eq. Qed.

Lemma improvement_cases (r : WaveResults) :
  (PyDict.get "optimization" (res_phases r) = None -> improvement r = "0%")
  /\ (forall pr,
        PyDict.get "optimization" (res_phases r) = Some pr ->
        improvement r
        = match pr_payload pr with
          | Some (optimization gain _ _) => gain
          | _ => "0%"
          end).
Proof.
  unfold improvement. split.
  - intros ->. reflexivity.
  - intros pr ->. reflexivity.
Qed.

(** C7, as the code has it. On wave ids new to the database, with a file
    count that sqlite3 can store, the controller
    runs at least one (when [iterations >= 1]) and at most [iterations] full
    passes and returns their results in order. The passes run under pairwise
    distinct wave ids derived from the id the context has at the call: the
    first pass under "{base_id}_iter1", the [N]-th under an id that starts
    with the base id and ends with "_iter{N}". After a pass the loop stops
    exactly when the pass converged, that is when its success rate equals 1.0
    and the performance gain looked up in its results is "0%", the look-up
    giving "0%" also when the pass has no optimization result or that result
    has no optimization entry; a pass that did not converge is followed by
    the next one until [iterations] passes were made. *)
Theorem progressive_passes (self : WaveOrchestrator) (body : PhaseBody)
    (db : Database) (context : WaveContext) (iterations : nat) :
  sqlite_integer (file_count context) = true ->
  (forall k, (1 <= k <= iterations)%nat ->
             wave_exists db (pass_id (wave_id context) k) = false) ->
  exists all_results context' db',
    run_progressive_waves self body db context iterations
    = Ok (all_results, context', db')
    /\ (List.length all_results <= iterations)%nat
    /\ ((1 <= iterations)%nat -> (1 <= List.length all_results)%nat)
    /\ (forall k r,
          nth_error all_results k = Some r ->
          is_pass_of self context r
          /\ exists middle,
               res_wave_id r
               = (wave_id context ++ middle ++ "_iter" ++ PyStr.of_nat (S k))%string)
    /\ (forall r,
          nth_error all_results 0 = Some r ->
          res_wave_id r = (wave_id context ++ "_iter1")%string)
    /\ NoDup (map res_wave_id all_results)
    /\ (forall k r,
          nth_error all_results k = Some r ->
          (converged r = true -> List.length all_results = S k)
          /\ (converged r = false -> (S k < iterations)%nat ->
              (S k < List.length all_results)%nat))
    /\ (forall r,
          converged r = true
          <-> PyFloat.eq (success_rate (res_metrics r)) 1.0%float = true
              /\ improvement r = "0%")
    /\ (forall r,
          (PyDict.get "optimization" (res_phases r) = None ->
           improvement r = "0%")
          /\ (forall pr,
                PyDict.get "optimization" (res_phases r) = Some pr ->
                improvement r
                = match pr_payload pr with
                  | Some (optimization gain _ _) => gain
                  | _ => "0%"
                  end)).
Proof.
  intros _ Hfresh.
  destruct (progressive_run self body db context iterations Hfresh)
    as (all_results & context' & db' & Hrun & Hlen & Hpos & Hids & Hstop).
  exists all_results, context', db'.
  split; [exact Hrun | ]. split; [exact Hlen | ]. split; [exact Hpos | ].
  split.
  { intros k r Hk. destruct (Hids k r Hk) as [Hid Hpass].
    split; [exact Hpass | ]. rewrite Hid. apply pass_id_shape. }
  split.
  { intros r Hr. now rewrite (proj1 (Hids 0%nat r Hr)). }
  split.
  { apply NoDup_nth_error. intros i j Hi Heq.
    rewrite length_map in Hi. rewrite !nth_error_map in Heq.
    destruct (nth_error all_results i) as [ri | ] eqn:Ei;
      [ | apply nth_error_None in Ei; lia].
    destruct (nth_error all_results j) as [rj | ] eqn:Ej; [ | discriminate Heq].
    cbn in Heq. injection Heq as Heq.
    rewrite (proj1 (Hids i ri Ei)), (proj1 (Hids j rj Ej)) in Heq.
    destruct (Nat.lt_trichotomy i j) as [Hlt | [ | Hgt]]; [ | assumption | ].
    - exfalso. apply (pass_id_from_distinct (wave_id context) 0 (S i) (S j));
        [lia | exact Heq].
    - exfalso. apply (pass_id_from_distinct (wave_id context) 0 (S j) (S i));
        [lia | now symmetry]. }
  split; [exact Hstop | ].
  split; [exact converged_iff | exact improvement_cases].
Qed.

(** C7 in Scenario B: three iterations configured, every phase completes,
    the optimization phase reports a gain on the first pass and "0%" on the
    second; exactly two pass results are returned. *)
Lemma progressive_passes_witness :
  exists all_results context' db',
    run_progressive_waves init (no_gain_after "wave-s_iter1") empty_database
      systematic_context default_iterations
    = Ok (all_results, context', db')
    /\ map res_wave_id all_results = ["wave-s_iter1"; "wave-s_iter1_iter2"]
    /\ map improvement all_results = ["35%"; "0%"].
Proof.
  destruct (progressive_passes init (no_gain_after "wave-s_iter1") empty_database
              systematic_context default_iterations eq_refl
              (fun k _ => eq_refl))
    as (all_results & context' & db' & Hrun & _).
  exists all_results, context', db'. split; [exact Hrun | ].
  vm_compute in Hrun. injection Hrun as <- _ _.
  split; reflexivity.
Defined.

(** C7 as stated fails twice. The second and third passes do not run under
    "{base_id}_iter2" and "{base_id}_iter3": the suffixes pile up. And with
    the built-in progressive strategy, which has no optimization phase, the
    controller stops after the first pass although no optimization phase
    reported anything. *)
Lemma progressive_ids_pile_up :
  match run_progressive_waves init simulated_body empty_database
          systematic_context 3 with
  | Ok (all_results, _, _) =>
      map res_wave_id all_results
      = ["wave-s_iter1"; "wave-s_iter1_iter2"; "wave-s_iter1_iter2_iter3"]
  | Raise _ => False
  end
  /\ match run_progressive_waves init simulated_body empty_database
             progressive_context 3 with
     | Ok (all_results, _, _) =>
         map (fun r => (res_wave_id r, PyDict.keys (res_phases r))) all_results
         = [("wave-p_iter1", ["review"; "implementation"; "validation"])]
     | Raise _ => False
     end.
Proof. vm_compute. split; reflexivity. Qed.

(** C10. When the phase list of the passes has no OPTIMIZATION phase, as
    with the built-in progressive strategy (REVIEW, IMPLEMENTATION,
    VALIDATION), no pass has an optimization result and the convergence check
    reads the gain as "0%". So the controller, whatever [iterations] is,
    stops right after the first pass whose success rate equals 1.0, and goes
    on to the next pass (while some are left) after any other. The passes
    are on wave ids new to the database, with a file count that sqlite3 can
    store. *)
Theorem missing_gain_reads_as_no_gain (self : WaveOrchestrator) (body : PhaseBody)
    (db : Database) (context : WaveContext) (iterations : nat) :
  sqlite_integer (file_count context) = true ->
  ~ In OPTIMIZATION (wave_phase_list self context) ->
  (forall k, (1 <= k <= iterations)%nat ->
             wave_exists db (pass_id (wave_id context) k) = false) ->
  exists all_results context' db',
    run_progressive_waves self body db context iterations
    = Ok (all_results, context', db')
    /\ (List.length all_results <= iterations)%nat
    /\ ((1 <= iterations)%nat -> (1 <= List.length all_results)%nat)
    /\ (forall r,
          In r all_results ->
          PyDict.get "optimization" (res_phases r) = None
          /\ improvement r = "0%")
    /\ (forall k r,
          nth_error all_results k = Some r ->
          (PyFloat.eq (success_rate (res_metrics r)) 1.0%float = true ->
           List.length all_results = S k)
          /\ (PyFloat.eq (success_rate (res_metrics r)) 1.0%float = false ->
              (S k < iterations)%nat -> (S k < List.length all_results)%nat)).
Proof.
  intros _ Hnone Hfresh.
  destruct (progressive_run self body db context iterations Hfresh)
    as (all_results & context' & db' & Hrun & Hlen & Hpos & Hids & Hstop).
  exists all_results, context', db'.
  split; [exact Hrun | ]. split; [exact Hlen | ]. split; [exact Hpos | ].
  assert (Hgain : forall r, In r all_results ->
                    PyDict.get "optimization" (res_phases r) = None
                    /\ improvement r = "0%").
  { intros r Hin. apply In_nth_error in Hin. destruct Hin as [k Hk].
    destruct (Hids k r Hk) as [_ (done & rest & outs & Hsplit & Houts & Hres & _)].
    assert (Hget : PyDict.get "optimization" (res_phases r) = None).
    { apply dict_get_notin. rewrite Hres. intros Hin.
      apply keys_record_all_subset in Hin. destruct Hin as [[] | Hin].
      rewrite <- map_map, (proj1 (combine_fst_Forall2 _ _ _ Houts)) in Hin.
      apply in_map_iff in Hin. destruct Hin as (p & Hp & Hin).
      apply (phase_value_inj p OPTIMIZATION) in Hp. subst p.
      apply Hnone. rewrite Hsplit. apply in_or_app. now left. }
    split; [exact Hget | ].
    now apply improvement_cases. }
  split; [exact Hgain | ].
  intros k r Hk. pose proof (Hgain r (nth_error_In _ _ Hk)) as [_ Himp].
  destruct (Hstop k r Hk) as [Hyes Hno].
  unfold converged in Hyes, Hno. rewrite Himp in Hyes, Hno.
  cbn [String.eqb] in Hyes, Hno.
  change (("0%" =? "0%")%string) with true in *.
  rewrite andb_true_r in Hyes, Hno. split; assumption.
Qed.

(** C10 on the built-in progressive strategy with ten iterations configured:
    one pass is made. *)
Lemma missing_gain_reads_as_no_gain_witness :
  exists all_results context' db',
    run_progressive_waves init simulated_body empty_database
      progressive_context 10
    = Ok (all_results, context', db')
    /\ List.length all_results = 1%nat.
Proof.
  destruct (missing_gain_reads_as_no_gain init simulated_body empty_database
              progressive_context 10 eq_refl
              ltac:(cbn; intuition discriminate)
              (fun k _ => eq_refl))
    as (all_results & context' & db' & Hrun & _).
  exists all_results, context', db'. split; [exact Hrun | ].
  vm_compute in Hrun. injection Hrun as <- _ _. reflexivity.
Defined.

(** ** The enterprise fan-out *)

Section Fanout.

Import Bridge.

Variable sum : list float -> float.

Lemma dict_set_not_nil {V} (k : string) (v : V) (d : PyDict.t V) :
  PyDict.set k v d <> [].
Proof.
  destruct d as [ | [k' v'] d]; cbn; [discriminate | ].
  destruct (String.eqb k k'); discriminate.
Qed.

Lemma phase_reports_not_nil (observed : Observed) (l : list WavePhase) :
  forall d,
    l <> [] \/ d <> [] ->
    fold_left (fun d p => PyDict.set (phase_value p) (phase_report sum observed p) d)
      l d <> [].
Proof.
  induction l as [ | p l IH]; intros d H; cbn.
  - destruct H as [H | H]; [congruence | assumption].
  - apply IH. right. apply dict_set_not_nil.
Qed.

(** A wave over a non-empty phase list returns, and its status says
    whether its overall score is above 0.7. *)
Lemma execute_wave_with_agents_returns (self : WaveOrchestrator)
    (observed : Observed) (context : WaveContext) :
  wave_phase_list self context <> [] ->
  exists r,
    execute_wave_with_agents sum self observed context = Ok r
    /\ status r = (if PyFloat.gt (overall_score r) 0.7%float
                   then "success" else "needs_improvement").
Proof.
  intros Hne. unfold execute_wave_with_agents.
  pose proof (phase_reports_not_nil observed (wave_phase_list self context) []
                (or_introl Hne)) as Hd.
  match type of Hd with
  | ?x <> [] => destruct x as [ | kv d]; [congruence | ]
  end.
  eexists. split; reflexivity.
Qed.

Lemma gather_all (tasks : list (Result WaveReport)) (P : WaveReport -> Prop) :
  Forall (fun t => exists r, t = Ok r /\ P r) tasks ->
  exists results,
    gather tasks = Ok results
    /\ Forall2 (fun t r => t = Ok r) tasks results
    /\ Forall P results.
Proof.
  induction 1 as [ | t tasks (r & -> & Hr) _ (results & Hg & Hall & HP)].
  - exists []. repeat split; constructor.
  - exists (r :: results). cbn. rewrite Hg. cbn.
    repeat split; constructor; auto.
Qed.

Lemma compile_results_counts (target_list : list string) :
  forall results by_target a b,
    List.length results = List.length target_list ->
    exists by_target',
      compile_results target_list results (by_target, a, b)
      = (by_target',
         (a + List.length
                (filter (fun r => String.eqb (status r) "success") results))%nat,
         (b + List.length
                (filter (fun r => negb (String.eqb (status r) "success"))
                   results))%nat).
Proof.
  induction target_list as [ | target target_list IH];
    intros [ | r results] by_target a b Hlen; try discriminate Hlen.
  - exists by_target. cbn. now rewrite !Nat.add_0_r.
  - cbn [compile_results filter]. injection Hlen as Hlen.
    destruct (String.eqb (status r) "success"); cbn [negb List.length].
    + destruct (IH results (PyDict.set target r by_target) (S a) b Hlen)
        as (d & Hd).
      exists d. rewrite Hd. f_equal. f_equal. lia.
    + destruct (IH results (PyDict.set target r by_target) a (S b) Hlen)
        as (d & Hd).
      exists d. rewrite Hd. f_equal. lia.
Qed.

Lemma filter_partition_length {A} (p : A -> bool) (l : list A) :
  (List.length (filter p l) + List.length (filter (fun x => negb (p x)) l)
   = List.length l)%nat.
Proof.
  induction l as [ | x l IH]; cbn; [reflexivity | ].
  destruct (p x); cbn; lia.
Qed.

Lemma Forall2_map_left {A B C} (R : B -> C -> Prop) (f : A -> B)
    (l : list A) (l' : list C) :
  Forall2 R (map f l) l' -> Forall2 (fun x y => R (f x) y) l l'.
Proof.
  revert l'. induction l as [ | x l IH]; intros l' H; inversion H; subst;
    constructor; auto.
Qed.

(** C8, as the code has it. Over a non-empty list of targets (and a
    non-empty enterprise phase list) the fan-out returns a summary in which
    [total_targets] is the number of targets, [successful] counts the waves
    whose status is "success", which is the status of the waves whose
    overall score is above 0.7, [failed] counts all the others, the two
    add up to [total_targets], and [average_score] is the sum of the overall
    scores of all the waves, the failed ones included, divided by their
    number. No wave of the bridge has the status "completed". *)
Theorem enterprise_summary (self : WaveOrchestrator) (fs : FileSystem)
    (generate_id : nat -> string) (observed : nat -> Observed)
    (target_list : list string) :
  target_list <> [] ->
  phases (strategy_configs self ENTERPRISE) <> [] ->
  exists report results,
    run_enterprise_wave sum self fs generate_id observed target_list = Ok report
    /\ Forall2
         (fun it r =>
            target_wave sum self fs generate_id observed (fst it) (snd it) = Ok r)
         (combine (seq 0 (List.length target_list)) target_list) results
    /\ List.length results = List.length target_list
    /\ Forall
         (fun r =>
            status r = (if PyFloat.gt (overall_score r) 0.7%float
                        then "success" else "needs_improvement")
            /\ status r <> "completed")
         results
    /\ total_targets (summary report) = List.length target_list
    /\ successful (summary report)
       = List.length (filter (fun r => String.eqb (status r) "success") results)
    /\ successful (summary report)
       = List.length
           (filter (fun r => PyFloat.gt (overall_score r) 0.7%float) results)
    /\ failed (summary report)
       = List.length
           (filter (fun r => negb (String.eqb (status r) "success")) results)
    /\ (successful (summary report) + failed (summary report)
        = total_targets (summary report))%nat
    /\ average_score (summary report)
       = (sum (map overall_score results)
          / PyFloat.of_int (Z.of_nat (List.length results)))%float.
Proof.
  intros Htargets Hphases.
  set (its := combine (seq 0 (List.length target_list)) target_list).
  set (P := fun r : WaveReport =>
              status r = (if PyFloat.gt (overall_score r) 0.7%float
                          then "success" else "needs_improvement")).
  assert (Htasks :
            Forall (fun t => exists r, t = Ok r /\ P r)
              (map (fun it => target_wave sum self fs generate_id observed
                                (fst it) (snd it)) its)).
  { apply Forall_map, Forall_forall. intros [i target] _.
    cbn [fst snd]. unfold target_wave.
    destruct (analyze_complexity fs target) as [[[c f] o] d].
    apply execute_wave_with_agents_returns. exact Hphases. }
  destruct (gather_all _ P Htasks) as (results & Hgather & Hall & HP).
  apply Forall2_map_left in Hall.
  assert (Hlen : List.length results = List.length target_list).
  { rewrite <- (Forall2_length Hall). subst its.
    rewrite length_combine, length_seq. lia. }
  destruct (compile_results_counts target_list results [] 0 0 Hlen)
    as (by_target & Hcompile).
  assert (Hcount :
            filter (fun r => String.eqb (status r) "success") results
            = filter (fun r => PyFloat.gt (overall_score r) 0.7%float) results).
  { apply filter_ext_in. intros r Hr. rewrite Forall_forall in HP.
    rewrite (HP r Hr). destruct (PyFloat.gt (overall_score r) 0.7%float);
      reflexivity. }
  unfold run_enterprise_wave. fold its. rewrite Hgather. cbn [bind].
  match goal with
  | |- context [compile_results ?a ?b ?c] =>
      destruct (compile_results a b c) as [[bt ns] nf] eqn:Ecr
  end.
  pose proof (eq_trans (eq_sym Ecr) Hcompile) as Hc.
  injection Hc as -> -> ->. cbn [Nat.add]. clear Ecr Hcompile.
  destruct results as [ | r0 results0] eqn:Eres.
  { destruct target_list; [congruence | discriminate Hlen]. }
  rewrite <- Eres in *. clear Eres r0 results0.
  eexists _, results. split; [reflexivity | ].
  cbn [summary total_targets successful failed average_score].
  split; [exact Hall | ]. split; [exact Hlen | ].
  split.
  { rewrite Forall_forall in *. intros r Hr. split; [now apply HP | ].
    rewrite (HP r Hr). destruct (PyFloat.gt (overall_score r) 0.7%float);
      discriminate. }
  split; [reflexivity | ]. split; [reflexivity | ].
  split; [now rewrite Hcount | ]. split; [reflexivity | ].
  split; [ | reflexivity].
  rewrite filter_partition_length. exact Hlen.
Qed.

End Fanout.

(** C8 in Scenario E: four targets, the wave of the second one sees every
    agent stopped and fails, the other three succeed. *)
Lemma enterprise_summary_witness :
  exists report,
    Bridge.run_enterprise_wave Bridge.sum_left init (fun _ => Missing)
      PyStr.of_nat second_wave_sees_no_agent ["api"; "web"; "jobs"; "docs"]
    = Ok report
    /\ map (fun kv => (fst kv, Bridge.status (snd kv), Bridge.overall_score (snd kv)))
         (Bridge.targets report)
       = [ ("api", "success", 0.85%float);
           ("web", "needs_improvement", 0.5%float);
           ("jobs", "success", 0.85%float);
           ("docs", "success", 0.85%float) ]
    /\ Bridge.successful (Bridge.summary report) = 3%nat
    /\ Bridge.failed (Bridge.summary report) = 1%nat
    /\ Bridge.average_score (Bridge.summary report)
       = ((0.85 + 0.5 + 0.85 + 0.85) / 4)%float.
Proof.
  destruct (enterprise_summary Bridge.sum_left init (fun _ => Missing)
              PyStr.of_nat second_wave_sees_no_agent ["api"; "web"; "jobs"; "docs"]
              ltac:(discriminate) ltac:(discriminate))
    as (report & results & Hrun & _).
  exists report. split; [exact Hrun | ].
  vm_compute in Hrun. injection Hrun as <-.
  vm_compute. repeat split.
Defined.

(** C8 as stated fails: of two waves one succeeds, and [successful] is 1,
    yet no wave has the status "completed"; the statuses of the bridge are
    "success" and "needs_improvement". *)
Lemma enterprise_success_is_not_completed :
  match Bridge.run_enterprise_wave Bridge.sum_left init (fun _ => Missing)
          PyStr.of_nat second_wave_sees_no_agent ["api"; "web"] with
  | Ok report =>
      Bridge.successful (Bridge.summary report) = 1%nat
      /\ Bridge.failed (Bridge.summary report) = 1%nat
      /\ map (fun kv => Bridge.status (snd kv)) (Bridge.targets report)
         = ["success"; "needs_improvement"]
      /\ List.length
           (filter (fun kv => String.eqb (Bridge.status (snd kv)) "completed")
              (Bridge.targets report))
         = 0%nat
  | Raise _ => False
  end.
Proof. vm_compute. repeat split. Qed.

(** ** A pass whose phases all return *)

Lemma phase_loop_all_completed (self : WaveOrchestrator) (body : PhaseBody)
    (cfg : StrategyConfig) :
  (forall c p, exists payload m, body c p = returns payload m) ->
  forall todo st,
    loop_completed (phase_loop self body cfg todo st)
    = (loop_completed st + List.length todo)%nat.
Proof.
  intros Hb. induction todo as [ | p todo IH]; intros st;
    cbn [phase_loop List.length]; [lia | ].
  set (ctx := set_current_phase (loop_context st) p).
  set (db0 := if checkpoint_due cfg then _ else _).
  destruct (execute_phase self body db0 ctx p) as [r db1] eqn:E.
  assert (Hr : pr_status r = completed).
  { unfold execute_phase in E. destruct (Hb ctx p) as (pl & m & Hbody).
    rewrite Hbody in E. injection E as <- _. reflexivity. }
  rewrite Hr. cbn [phase_status_eqb andb]. rewrite IH. cbn [loop_completed]. lia.
Qed.

Lemma filter_length_all {A} (p : A -> bool) (l : list A) :
  List.length (filter p l) = List.length l -> Forall (fun x => p x = true) l.
Proof.
  induction l as [ | x l IH]; cbn; [constructor | ].
  pose proof (filter_length_bound p l) as Hb.
  destruct (p x) eqn:E; cbn; intros H; [ | lia].
  constructor; [assumption | apply IH; lia].
Qed.

(** A pass on a fresh wave id whose phase bodies all return executes the
    whole phase list and completes every phase. *)
Lemma execute_wave_all_completed (self : WaveOrchestrator) (body : PhaseBody)
    (db : Database) (context : WaveContext) :
  (forall c p, exists payload m, body c p = returns payload m) ->
  wave_exists db (wave_id context) = false ->
  let cfg := strategy_configs self (strategy context) in
  let phases := wave_phase_list self context in
  exists outs cps context',
    let m :=
      {| phases_completed := List.length phases;
         success_rate := final_success_rate (List.length phases) phases |} in
    let results :=
      {| res_wave_id := wave_id context;
         res_strategy := strategy_value (strategy context);
         res_phases := record_all [] (combine phases outs);
         res_metrics := m |} in
    let row :=
      {| row_wave_id := wave_id context;
         row_strategy := strategy_value (strategy context);
         row_complexity_score := complexity_score context;
         row_file_count := file_count context;
         row_status := final_status (success_rate m);
         row_phases_completed := phases_completed m;
         row_total_phases := List.length phases;
         row_metrics := Some m;
         row_results := Some results |} in
    execute_wave self body db context
    = Ok (results, context',
          {| waves := waves db ++ [row];
             wave_phases :=
               wave_phases db ++ map (phase_start_row self (wave_id context)) phases;
             wave_checkpoints := wave_checkpoints db ++ cps |})
    /\ Forall2
         (fun p r => pr_phase r = phase_value p /\ pr_status r = completed)
         phases outs
    /\ Forall (fun c => cp_wave_id c = wave_id context) cps
    /\ same_profile context context'.
Proof.
  intros Hb Hfresh cfg phases.
  destruct (execute_wave_run self body db context Hfresh)
    as (done & rest & outs & cps & context' & Hrun & Hsplit & Houts & Hcps
        & Hprof & _).
  fold phases cfg in Hrun, Hsplit, Hcps.
  assert (Hcount : exists r c d,
             execute_wave self body db context = Ok (r, c, d)
             /\ phases_completed (res_metrics r) = List.length phases).
  { unfold execute_wave, insert_wave. cbn [row_wave_id]. rewrite Hfresh.
    cbn [bind]. eexists _, _, _. split; [reflexivity | ].
    cbn [res_metrics phases_completed].
    rewrite (phase_loop_all_completed self body _ Hb). reflexivity. }
  destruct Hcount as (r & c & d & Hrun' & Hn).
  rewrite Hrun in Hrun'. injection Hrun' as Hr _ _. subst r.
  cbn [res_metrics phases_completed] in Hn.
  pose proof (Forall2_length Houts) as Hlen.
  pose proof (filter_length_bound is_completed outs) as Hbound.
  assert (Hrest : rest = []).
  { destruct rest as [ | x rest]; [reflexivity | exfalso].
    rewrite Hsplit, length_app in Hn. cbn in Hn. lia. }
  subst rest. rewrite app_nil_r in Hsplit. subst done.
  assert (Hall : Forall (fun x => is_completed x = true) outs).
  { apply filter_length_all. lia. }
  exists outs, cps, context'. cbv zeta.
  rewrite Hn in Hrun.
  split; [exact Hrun | ]. split.
  { clear - Houts Hall. induction Houts as [ | p x ps xs [Hp _] _ IH];
      constructor.
    - split; [exact Hp | ]. apply Forall_inv in Hall.
      unfold is_completed in Hall. destruct (pr_status x); try discriminate Hall.
      reflexivity.
    - apply IH. now apply Forall_inv_tail in Hall. }
  split; [ | exact Hprof].
  destruct (checkpoint_due cfg).
  - destruct Hcps as (_ & Hf & _). eapply Forall_impl; [ | exact Hf].
    cbv beta. intros a [H _]. exact H.
  - subst cps. constructor.
Qed.

(** ** What a pass leaves in the database *)

Lemma values_record_all (steps : list (WavePhase * PhaseResult)) :
  forall d kv,
    In kv (record_all d steps) -> In kv d \/ In (snd kv) (map snd steps).
Proof.
  assert (Hset : forall (d : PyDict.t PhaseResult) k v kv,
             In kv (PyDict.set k v d) -> In kv d \/ snd kv = v).
  { induction d as [ | [k' v'] d IH]; cbn; intros k v kv H.
    - destruct H as [<- | []]. now right.
    - destruct (String.eqb k k').
      + destruct H as [<- | H]; [now right | left; now right].
      + destruct H as [<- | H]; [left; now left | ].
        destruct (IH _ _ _ H) as [H' | H']; [left; now right | now right]. }
  induction steps as [ | [p r] steps IH]; intros d kv H; cbn in *.
  - now left.
  - apply IH in H. destruct H as [H | H]; [ | right; now right].
    apply Hset in H. destruct H as [H | H]; [now left | right; left; now symmetry].
Qed.

(** X1. The rows of [wave_phases] are never updated. After a pass on a wave
    id new to the database, with a file count that sqlite3 can store, every
    phase that has a result in the returned
    dictionary, completed or failed, has a row of this wave, and every row
    the pass wrote still reads "in_progress" with no results and no metrics;
    the rows that were there before are unchanged. *)
Theorem phase_rows_stay_in_progress (self : WaveOrchestrator) (body : PhaseBody)
    (db : Database) (context : WaveContext) :
  sqlite_integer (file_count context) = true ->
  wave_exists db (wave_id context) = false ->
  exists results context' db' rows,
    execute_wave self body db context = Ok (results, context', db')
    /\ wave_phases db' = wave_phases db ++ rows
    /\ Forall
         (fun r =>
            prow_wave_id r = wave_id context
            /\ prow_status r = in_progress
            /\ prow_results r = None
            /\ prow_metrics r = None)
         rows
    /\ Forall
         (fun kv =>
            (pr_status (snd kv) = completed \/ pr_status (snd kv) = failed)
            /\ In (fst kv) (map prow_phase rows))
         (res_phases results)
    /\ (phases_completed (res_metrics results) <= List.length rows)%nat.
Proof.
  intros _ Hfresh.
  destruct (execute_wave_run self body db context Hfresh)
    as (done & rest & outs & cps & context' & Hrun & Hsplit & Houts & _).
  eexists _, _, _, _. split; [exact Hrun | ].
  cbn [wave_phases res_phases res_metrics phases_completed].
  split; [reflexivity | ]. split.
  { apply Forall_forall. intros r Hin. apply in_map_iff in Hin.
    destruct Hin as (p & <- & _). cbn. auto. }
  split.
  { apply Forall_forall. intros [k v] Hin. cbn [fst snd].
    pose proof (keys_record_all_subset (combine done outs) [] k) as Hk.
    pose proof (values_record_all _ _ _ Hin) as [[] | Hv].
    destruct (combine_fst_Forall2 _ _ _ Houts) as [Hfst Hsnd].
    split.
    - cbn [snd] in Hv. rewrite Hsnd in Hv.
      clear - Hv Houts. induction Houts as [ | p x ps xs [_ Hs] _ IH];
        [contradiction | ].
      destruct Hv as [<- | Hv]; auto.
    - destruct Hk as [[] | Hk].
      { apply in_map_iff. now exists (k, v). }
      rewrite <- map_map, Hfst in Hk. rewrite map_map. cbn [phase_start_row prow_phase].
      exact Hk. }
  rewrite length_map, (Forall2_length Houts). apply filter_length_bound.
Qed.

Lemma phase_rows_stay_in_progress_witness :
  exists results context' db' rows,
    execute_wave init (fails_at VALIDATION) empty_database systematic_context
    = Ok (results, context', db')
    /\ wave_phases db' = wave_phases empty_database ++ rows
    /\ Forall
         (fun r =>
            prow_wave_id r = wave_id systematic_context
            /\ prow_status r = in_progress
            /\ prow_results r = None
            /\ prow_metrics r = None)
         rows
    /\ Forall
         (fun kv =>
            (pr_status (snd kv) = completed \/ pr_status (snd kv) = failed)
            /\ In (fst kv) (map prow_phase rows))
         (res_phases results)
    /\ (phases_completed (res_metrics results) <= List.length rows)%nat.
Proof.
  apply (phase_rows_stay_in_progress init (fails_at VALIDATION) empty_database
           systematic_context); reflexivity.
Defined.

(** ** Reports *)

Lemma find_wave_new (rows : list WaveRow) (row : WaveRow) (id : string) :
  existsb (fun r => String.eqb (row_wave_id r) id) rows = false ->
  find (fun r => String.eqb (row_wave_id r) id) (rows ++ [row])
  = if String.eqb (row_wave_id row) id then Some row else None.
Proof.
  induction rows as [ | r rows IH]; cbn; [reflexivity | ].
  intros H. apply orb_false_iff in H. destruct H as [Hr Hrows].
  rewrite Hr. now apply IH.
Qed.

Lemma find_wave_other (rows new : list WaveRow) (id : string) :
  existsb (fun r => String.eqb (row_wave_id r) id) new = false ->
  find (fun r => String.eqb (row_wave_id r) id) (rows ++ new)
  = find (fun r => String.eqb (row_wave_id r) id) rows.
Proof.
  intros Hnew. induction rows as [ | r rows IH]; cbn.
  - induction new as [ | r new IH]; cbn in *; [reflexivity | ].
    apply orb_false_iff in Hnew. destruct Hnew as [Hr Hnew].
    rewrite Hr. now apply IH.
  - destruct (String.eqb (row_wave_id r) id); [reflexivity | exact IH].
Qed.

Lemma find_wave_none (db : Database) (id : string) :
  wave_exists db id = false
  <-> find (fun r => String.eqb (row_wave_id r) id) (waves db) = None.
Proof.
  unfold wave_exists. induction (waves db) as [ | r rows IH]; cbn.
  - tauto.
  - destruct (String.eqb (row_wave_id r) id); cbn; [ | exact IH].
    split; discriminate.
Qed.

Lemma no_phase_rows_of_fresh_wave (db : Database) (id : string) :
  well_formed db -> wave_exists db id = false ->
  filter (fun r => String.eqb (prow_wave_id r) id) (wave_phases db) = [].
Proof.
  intros (_ & Hrows & _) Hfresh.
  induction Hrows as [ | r rows Hr _ IH]; cbn; [reflexivity | ].
  destruct (String.eqb_spec (prow_wave_id r) id) as [<- | _]; [congruence | exact IH].
Qed.

Lemma filter_start_rows (self : WaveOrchestrator) (id id' : string)
    (l : list WavePhase) :
  filter (fun r => String.eqb (prow_wave_id r) id')
    (map (phase_start_row self id) l)
  = if String.eqb id id' then map (phase_start_row self id) l else [].
Proof.
  induction l as [ | p l IH]; cbn [map filter phase_start_row prow_wave_id].
  - now destruct (String.eqb id id').
  - rewrite IH. now destruct (String.eqb id id').
Qed.


(** The report of a wave whose row and phase rows were just appended. *)
Lemma report_of_new_wave (self : WaveOrchestrator) (db : Database) (id : string)
    (row : WaveRow) (done : list WavePhase) (cps : list CheckpointRow) :
  well_formed db -> wave_exists db id = false -> row_wave_id row = id ->
  generate_wave_report
    {| waves := waves db ++ [row];
       wave_phases := wave_phases db ++ map (phase_start_row self id) done;
       wave_checkpoints := cps |} id
  = wave_report
      {| rep_wave_id := id;
         rep_strategy := row_strategy row;
         rep_complexity_score := row_complexity_score row;
         rep_file_count := row_file_count row;
         rep_duration :=
           match row_results row with
           | Some _ => duration_seconds
           | None => duration_in_progress
           end;
         rep_status := row_status row;
         rep_phases_completed := row_phases_completed row;
         rep_total_phases := row_total_phases row;
         rep_phases := map phase_summary (map (phase_start_row self id) done) |}.
Proof.
  intros Hwf Hfresh Hid. unfold generate_wave_report. cbn [waves wave_phases].
  rewrite (find_wave_new _ _ _ Hfresh), Hid, String.eqb_refl.
  rewrite filter_app, (no_phase_rows_of_fresh_wave _ _ Hwf Hfresh).
  rewrite filter_start_rows, String.eqb_refl. reflexivity.
Qed.

Lemma start_rows_summary (self : WaveOrchestrator) (id : string)
    (done : list WavePhase) :
  Forall2
    (fun p s =>
       sum_phase s = phase_value p
       /\ sum_status s = in_progress
       /\ sum_duration s = duration_in_progress
       /\ sum_primary_agent s
          = option_map primary (PyDict.get (phase_value p) (agents_config self))
       /\ sum_support_agents s
          = match PyDict.get (phase_value p) (agents_config self) with
            | Some c => support c
            | None => []
            end)
    done (map phase_summary (map (phase_start_row self id) done)).
Proof.
  induction done as [ | p done IH]; cbn [map]; constructor; [ | exact IH].
  cbn. auto.
Qed.


Lemma well_formed_empty : well_formed empty_database.
Proof. repeat split; constructor. Qed.


(** X3. A pass touches the report of no other wave: after a pass on a wave
    id new to the database, with a file count that sqlite3 can store, the
    report of every other id, found or not, is
    what it was before. *)
Theorem pass_keeps_other_reports (self : WaveOrchestrator) (body : PhaseBody)
    (db : Database) (context : WaveContext) :
  sqlite_integer (file_count context) = true ->
  wave_exists db (wave_id context) = false ->
  exists results context' db',
    execute_wave self body db context = Ok (results, context', db')
    /\ forall id,
         id <> wave_id context ->
         generate_wave_report db' id = generate_wave_report db id.
Proof.
  intros _ Hfresh.
  destruct (execute_wave_run self body db context Hfresh)
    as (done & rest & outs & cps & context' & Hrun & _).
  eexists _, _, _. split; [exact Hrun | ].
  intros id Hid. unfold generate_wave_report. cbn [waves wave_phases].
  assert (Hne : String.eqb (wave_id context) id = false).
  { apply String.eqb_neq. congruence. }
  rewrite find_wave_other by (cbn; now rewrite Hne).
  rewrite filter_app, filter_start_rows, Hne, app_nil_r. reflexivity.
Qed.

Lemma pass_keeps_other_reports_witness :
  exists results context' db',
    execute_wave init simulated_body empty_database systematic_context
    = Ok (results, context', db')
    /\ forall id,
         id <> wave_id systematic_context ->
         generate_wave_report db' id = generate_wave_report empty_database id.
Proof.
  apply (pass_keeps_other_reports init simulated_body empty_database
           systematic_context); reflexivity.
Defined.

(** ** The constraints of the schema *)

Lemma wave_exists_grows (db : Database) (rows : list WaveRow) (id : string)
    (phases_rows : list PhaseRow) (cps : list CheckpointRow) :
  wave_exists db id = true ->
  wave_exists {| waves := waves db ++ rows; wave_phases := phases_rows;
                 wave_checkpoints := cps |} id = true.
Proof. intros H. now rewrite wave_exists_app, H. Qed.

Lemma fresh_not_in_ids (db : Database) (id : string) :
  wave_exists db id = false -> ~ In id (map row_wave_id (waves db)).
Proof.
  unfold wave_exists. intros H Hin. apply in_map_iff in Hin.
  destruct Hin as (r & Hr & Hin).
  assert (Ht : existsb (fun r => String.eqb (row_wave_id r) id) (waves db) = true).
  { apply existsb_exists. exists r. split; [assumption | ].
    now apply String.eqb_eq. }
  congruence.
Qed.

(** A pass keeps the constraints; it raises exactly when the wave id is
    taken, and then changes nothing. *)
Lemma execute_wave_keeps_well_formed (self : WaveOrchestrator) (body : PhaseBody)
    (db : Database) (context : WaveContext) :
  well_formed db ->
  match execute_wave self body db context with
  | Ok (_, _, db') =>
      well_formed db' /\ wave_exists db (wave_id context) = false
  | Raise e => e = IntegrityError /\ wave_exists db (wave_id context) = true
  end.
Proof.
  intros (Hids & Hrows & Hcps).
  destruct (wave_exists db (wave_id context)) eqn:Hfresh.
  - unfold execute_wave, insert_wave. cbn [row_wave_id]. rewrite Hfresh.
    cbn. auto.
  - destruct (execute_wave_run self body db context Hfresh)
      as (done & rest & outs & cps & context' & Hrun & _ & _ & Hshape & _).
    rewrite Hrun. split; [ | reflexivity].
    unfold well_formed. cbn [waves wave_phases wave_checkpoints].
    assert (Hnew : forall row rows' cps',
               row_wave_id row = wave_id context ->
               wave_exists
                 {| waves := waves db ++ [row];
                    wave_phases := rows'; wave_checkpoints := cps' |}
                 (wave_id context) = true).
    { intros row rows' cps' Hrow. rewrite wave_exists_app. cbn.
      rewrite Hrow, String.eqb_refl. apply orb_true_r. }
    split; [ | split].
    + rewrite map_app. cbn [map row_wave_id].
      apply NoDup_app; [assumption | repeat constructor; intros [] | ].
      intros x Hx [<- | []]. revert Hx. now apply fresh_not_in_ids.
    + apply Forall_app. split.
      * eapply Forall_impl; [ | exact Hrows]. cbv beta. intros r.
        apply wave_exists_grows.
      * apply Forall_forall. intros r Hin. apply in_map_iff in Hin.
        destruct Hin as (p & <- & _). cbn [phase_start_row prow_wave_id].
        now apply Hnew.
    + apply Forall_app. split.
      * eapply Forall_impl; [ | exact Hcps]. cbv beta. intros r.
        apply wave_exists_grows.
      * destruct (checkpoint_due _).
        -- destruct Hshape as (_ & Hf & _). eapply Forall_impl; [ | exact Hf].
           cbv beta. intros c [-> _]. now apply Hnew.
        -- subst cps. constructor.
Qed.

Lemma progressive_loop_keeps_well_formed (self : WaveOrchestrator)
    (body : PhaseBody) :
  forall remaining i db context acc,
    well_formed db ->
    match progressive_loop self body i remaining db context acc with
    | Ok (_, _, db') => well_formed db'
    | Raise e => e = IntegrityError
    end.
Proof.
  induction remaining as [ | remaining IH]; intros i db context acc Hwf;
    cbn [progressive_loop]; [exact Hwf | ].
  set (ctx := set_wave_id context _).
  pose proof (execute_wave_keeps_well_formed self body db ctx Hwf) as H.
  destruct (execute_wave self body db ctx) as [[[r c] d] | e]; cbn [bind].
  - destruct H as [H _]. destruct (converged r); [exact H | ].
    now apply IH.
  - apply H.
Qed.

(** X4. The primary key of [waves] and the references of the phase rows and
    checkpoints to it are kept by [execute_wave] and by
    [run_progressive_waves]: started on a database that meets them, with a
    file count that sqlite3 can store, either call leaves one that meets
    them, or raises [IntegrityError], for a single pass exactly when the wave
    id is already in [waves]. *)
Theorem schema_constraints_kept (self : WaveOrchestrator) (body : PhaseBody)
    (db : Database) (context : WaveContext) (iterations : nat) :
  sqlite_integer (file_count context) = true ->
  well_formed db ->
  match execute_wave self body db context with
  | Ok (_, _, db') =>
      well_formed db' /\ wave_exists db (wave_id context) = false
  | Raise e => e = IntegrityError /\ wave_exists db (wave_id context) = true
  end
  /\ match run_progressive_waves self body db context iterations with
     | Ok (_, _, db') => well_formed db'
     | Raise e => e = IntegrityError
     end.
Proof.
  intros _ Hwf. split.
  - now apply execute_wave_keeps_well_formed.
  - now apply progressive_loop_keeps_well_formed.
Qed.

Lemma schema_constraints_kept_witness :
  match execute_wave init simulated_body empty_database systematic_context with
  | Ok (_, _, db') =>
      well_formed db'
      /\ wave_exists empty_database (wave_id systematic_context) = false
  | Raise e =>
      e = IntegrityError
      /\ wave_exists empty_database (wave_id systematic_context) = true
  end
  /\ match run_progressive_waves init simulated_body empty_database
             systematic_context 3 with
     | Ok (_, _, db') => well_formed db'
     | Raise e => e = IntegrityError
     end.
Proof.
  exact (schema_constraints_kept init simulated_body empty_database
           systematic_context 3 eq_refl well_formed_empty).
Defined.

(** ** A wave id is used once *)

Lemma execute_wave_taken (self : WaveOrchestrator) (body : PhaseBody)
    (db : Database) (context : WaveContext) :
  wave_exists db (wave_id context) = true ->
  execute_wave self body db context = Raise IntegrityError.
Proof.
  intros H. unfold execute_wave, insert_wave. cbn [row_wave_id].
  now rewrite H.
Qed.

(** X5. A wave id can be used for one pass only. After a pass on a wave id
    new to the database, any further pass under the same id, whatever the
    orchestrator, the body and the rest of the context, raises
    [IntegrityError] on the resulting database. The file count of either
    context is one that sqlite3 can store. *)
Theorem wave_id_used_once (self : WaveOrchestrator) (body : PhaseBody)
    (db : Database) (context : WaveContext) :
  sqlite_integer (file_count context) = true ->
  wave_exists db (wave_id context) = false ->
  exists results context' db',
    execute_wave self body db context = Ok (results, context', db')
    /\ forall self2 body2 context2,
         sqlite_integer (file_count context2) = true ->
         wave_id context2 = wave_id context ->
         execute_wave self2 body2 db' context2 = Raise IntegrityError.
Proof.
  intros _ Hfresh.
  destruct (execute_wave_run self body db context Hfresh)
    as (done & rest & outs & cps & context' & Hrun & _).
  eexists _, _, _. split; [exact Hrun | ].
  intros self2 body2 context2 _ Hid. apply execute_wave_taken.
  rewrite Hid, wave_exists_app. cbn. rewrite String.eqb_refl.
  apply orb_true_r.
Qed.

Lemma wave_id_used_once_witness :
  exists results context' db',
    execute_wave init simulated_body empty_database systematic_context
    = Ok (results, context', db')
    /\ forall self2 body2 context2,
         sqlite_integer (file_count context2) = true ->
         wave_id context2 = wave_id systematic_context ->
         execute_wave self2 body2 db' context2 = Raise IntegrityError.
Proof.
  apply (wave_id_used_once init simulated_body empty_database systematic_context);
    reflexivity.
Defined.

(** X6. A progressive run cannot be repeated from the same base id. After
    [run_progressive_waves] made its passes (at least one is asked for) on
    ids new to the database, a second call on a context with the same base
    id raises [IntegrityError] at its first pass, since "{base_id}_iter1" is
    taken. The file count of either context is one that sqlite3 can store. *)
Theorem progressive_rerun_raises (self : WaveOrchestrator) (body : PhaseBody)
    (db : Database) (context : WaveContext) (iterations : nat) :
  sqlite_integer (file_count context) = true ->
  (1 <= iterations)%nat ->
  (forall k, (1 <= k <= iterations)%nat ->
             wave_exists db (pass_id (wave_id context) k) = false) ->
  exists all_results context' db',
    run_progressive_waves self body db context iterations
    = Ok (all_results, context', db')
    /\ forall self2 body2 context2 n,
         sqlite_integer (file_count context2) = true ->
         wave_id context2 = wave_id context -> (1 <= n)%nat ->
         run_progressive_waves self2 body2 db' context2 n = Raise IntegrityError.
Proof.
  intros _ Hpos Hfresh.
  destruct (progressive_loop_spec self body iterations 0 db context [] Hfresh)
    as (new & context' & db' & Hloop & _ & Hlen & Hids & _ & _
        & (rows & Hrows & Hrowids) & _).
  exists new, context', db'. split; [exact Hloop | ].
  intros self2 body2 context2 n _ Hid Hn.
  destruct n as [ | n]; [lia | ].
  unfold run_progressive_waves. cbn [progressive_loop].
  rewrite execute_wave_taken; [reflexivity | ].
  cbn [wave_id set_wave_id Nat.add]. rewrite Hid.
  specialize (Hlen Hpos).
  destruct new as [ | r new]; [cbn in Hlen; lia | ].
  destruct (Hids 0%nat r eq_refl) as [Hr _]. cbn [pass_id_from Nat.add] in Hr.
  destruct rows as [ | row rows]; [discriminate Hrowids | ].
  cbn [map] in Hrowids. injection Hrowids as Hrow _.
  unfold wave_exists. rewrite Hrows, existsb_app. cbn [existsb].
  rewrite Hrow, Hr. change (PyStr.of_nat 1) with "1".
  rewrite String.eqb_refl. cbn. apply orb_true_r.
Qed.

Lemma progressive_rerun_raises_witness :
  exists all_results context' db',
    run_progressive_waves init simulated_body empty_database progressive_context 3
    = Ok (all_results, context', db')
    /\ forall self2 body2 context2 n,
         sqlite_integer (file_count context2) = true ->
         wave_id context2 = wave_id progressive_context -> (1 <= n)%nat ->
         run_progressive_waves self2 body2 db' context2 n = Raise IntegrityError.
Proof.
  apply (progressive_rerun_raises init simulated_body empty_database
           progressive_context 3).
  - reflexivity.
  - lia.
  - intros k _. reflexivity.
Defined.

Lemma dict_keys_set_in {V} (k k' : string) (v : V) (d : PyDict.t V) :
  In k (PyDict.keys d) \/ k = k' -> In k (PyDict.keys (PyDict.set k' v d)).
Proof.
  induction d as [ | [k0 v0] d IH]; cbn.
  - intros [[] | ->]. now left.
  - intros H. destruct (String.eqb_spec k' k0) as [-> | Hne]; cbn.
    + destruct H as [[H | H] | H]; auto.
    + destruct H as [[H | H] | H]; auto.
Qed.

Lemma keys_record_all_in (steps : list (WavePhase * PhaseResult)) :
  forall d k,
    In k (PyDict.keys d) \/ In k (map (fun s => phase_value (fst s)) steps) ->
    In k (PyDict.keys (record_all d steps)).
Proof.
  induction steps as [ | [p r] steps IH]; intros d k H.
  - destruct H as [H | []]. exact H.
  - rewrite record_all_cons. apply IH. cbn [map fst] in H.
    destruct H as [H | [H | H]]; [left | left | now right];
      apply dict_keys_set_in; auto.
Qed.

Lemma dict_get_some_in {V} (k : string) (d : PyDict.t V) (v : V) :
  PyDict.get k d = Some v -> In (k, v) d.
Proof.
  induction d as [ | [k0 v0] d IH]; cbn; [discriminate | ].
  destruct (String.eqb_spec k k0) as [-> | _].
  - intros H. injection H as ->. now left.
  - intros H. right. now apply IH.
Qed.

Lemma dict_get_none {V} (k : string) (d : PyDict.t V) :
  PyDict.get k d = None -> ~ In k (PyDict.keys d).
Proof.
  induction d as [ | [k0 v0] d IH]; cbn; [tauto | ].
  destruct (String.eqb_spec k k0) as [-> | Hne]; [discriminate | ].
  intros H [H' | H']; [congruence | now apply IH].
Qed.

(** X7. When no exception leaves the body of any phase, a pass on a wave id
    new to the database, with a file count that sqlite3 can store, executes
    its whole phase list: every phase of the
    list has a completed result, the count of completed phases is the length
    of the list in the results and in the row of the wave. For a non-empty
    list without repetition the success rate is 1.0 and the wave is
    "completed"; for an empty list the rate is 0 and the wave is "partial",
    although nothing failed. *)
Theorem pass_without_exception_completes (self : WaveOrchestrator)
    (body : PhaseBody) (db : Database) (context : WaveContext) :
  sqlite_integer (file_count context) = true ->
  (forall c p, exists payload m, body c p = returns payload m) ->
  wave_exists db (wave_id context) = false ->
  let phases := wave_phase_list self context in
  exists results context' db' row,
    execute_wave self body db context = Ok (results, context', db')
    /\ waves db' = waves db ++ [row]
    /\ phases_completed (res_metrics results) = List.length phases
    /\ row_phases_completed row = List.length phases
    /\ row_total_phases row = List.length phases
    /\ row_status row = final_status (success_rate (res_metrics results))
    /\ (forall p, In p phases ->
          exists r, PyDict.get (phase_value p) (res_phases results) = Some r
                    /\ pr_status r = completed)
    /\ (NoDup phases -> phases <> [] ->
        PyFloat.eq (success_rate (res_metrics results)) 1.0%float = true
        /\ row_status row = wave_completed)
    /\ (phases = [] ->
        success_rate (res_metrics results) = 0%float
        /\ row_status row = wave_partial).
Proof.
  intros _ Hb Hfresh phases.
  destruct (execute_wave_all_completed self body db context Hb Hfresh)
    as (outs & cps & context' & Hrun & Houts & _).
  fold phases in Hrun, Houts.
  eexists _, _, _, _. split; [exact Hrun | ].
  cbn [waves res_metrics phases_completed success_rate row_phases_completed
       row_total_phases row_status res_phases].
  do 5 (split; [reflexivity | ]).
  split; [ | split].
  - intros p Hp.
    assert (Hall : forall kv, In kv (record_all [] (combine phases outs)) ->
                     pr_status (snd kv) = completed).
    { intros kv Hin. apply values_record_all in Hin. destruct Hin as [[] | Hin].
      rewrite (proj2 (combine_fst_Forall2 _ _ _ Houts)) in Hin.
      clear - Hin Houts. induction Houts as [ | q x ps xs [_ Hs] _ IH];
        [contradiction | ].
      destruct Hin as [<- | Hin]; auto. }
    destruct (PyDict.get (phase_value p) (record_all [] (combine phases outs)))
      as [r | ] eqn:Hget.
    + exists r. split; [reflexivity | ].
      apply (Hall _ (dict_get_some_in _ _ _ Hget)).
    + exfalso. apply (dict_get_none _ _ Hget).
      apply keys_record_all_in. right.
      rewrite <- map_map, (proj1 (combine_fst_Forall2 _ _ _ Houts)).
      now apply in_map.
  - intros Hnd Hne.
    pose proof (NoDup_phases_length _ Hnd) as H5.
    pose proof (proj2 (final_status_small (List.length phases) phases
                         (le_n _) H5) (conj Hne eq_refl)) as Hst.
    split; [ | exact Hst].
    unfold final_status in Hst.
    destruct (PyFloat.eq (final_success_rate (List.length phases) phases) 1.0%float);
      [reflexivity | discriminate Hst].
  - intros ->. cbn. split; reflexivity.
Qed.

Lemma pass_without_exception_completes_witness :
  let phases := wave_phase_list init systematic_context in
  exists results context' db' row,
    execute_wave init simulated_body empty_database systematic_context
    = Ok (results, context', db')
    /\ waves db' = waves empty_database ++ [row]
    /\ phases_completed (res_metrics results) = List.length phases
    /\ row_phases_completed row = List.length phases
    /\ row_total_phases row = List.length phases
    /\ row_status row = final_status (success_rate (res_metrics results))
    /\ (forall p, In p phases ->
          exists r, PyDict.get (phase_value p) (res_phases results) = Some r
                    /\ pr_status r = completed)
    /\ (NoDup phases -> phases <> [] ->
        PyFloat.eq (success_rate (res_metrics results)) 1.0%float = true
        /\ row_status row = wave_completed)
    /\ (phases = [] ->
        success_rate (res_metrics results) = 0%float
        /\ row_status row = wave_partial).
Proof.
  apply (pass_without_exception_completes init simulated_body empty_database
           systematic_context).
  - reflexivity.
  - intros c p. destruct p; eexists _, _; reflexivity.
  - reflexivity.
Defined.

(** ** The rows of a progressive run *)





(** ** The entry point *)

Lemma simulated_body_returns (c : WaveContext) (p : WavePhase) :
  exists payload m, simulated_body c p = returns payload m.
Proof. destruct p; eexists _, _; reflexivity. Qed.

(** A pass of the built-in orchestrator none of whose phase bodies raises,
    and its report. *)
Lemma completed_pass_report (body : PhaseBody) (db : Database)
    (context : WaveContext) :
  (forall c p, exists payload m, body c p = returns payload m) ->
  well_formed db ->
  wave_exists db (wave_id context) = false ->
  exists results context' db' r,
    execute_wave init body db context = Ok (results, context', db')
    /\ wave_id context' = wave_id context
    /\ PyFloat.eq (success_rate (res_metrics results)) 1.0%float = true
    /\ (forall p, ~ In p (wave_phase_list init context) ->
          PyDict.get (phase_value p) (res_phases results) = None)
    /\ generate_wave_report db' (wave_id context) = wave_report r
    /\ rep_wave_id r = wave_id context
    /\ rep_strategy r = strategy_value (strategy context)
    /\ rep_complexity_score r = complexity_score context
    /\ rep_file_count r = file_count context
    /\ rep_duration r = duration_seconds
    /\ rep_status r = wave_completed
    /\ rep_phases_completed r = rep_total_phases r
    /\ rep_total_phases r = List.length (wave_phase_list init context)
    /\ map sum_phase (rep_phases r) = map phase_value (wave_phase_list init context)
    /\ Forall
         (fun s => sum_status s = in_progress
                   /\ sum_duration s = duration_in_progress)
         (rep_phases r).
Proof.
  intros Hb Hwf Hfresh.
  destruct (execute_wave_all_completed init body db context Hb Hfresh)
    as (outs & cps & context' & Hrun & Houts & _ & Hprof).
  destruct (init_phase_list context) as [Hnd Hlen].
  set (phases := wave_phase_list init context) in *.
  assert (Hne : phases <> []).
  { intros E. rewrite E in Hlen. cbn in Hlen. lia. }
  pose proof (proj2 (final_status_small (List.length phases) phases
                       (le_n _) ltac:(lia)) (conj Hne eq_refl)) as Hst.
  eexists _, _, _, _. split; [exact Hrun | ].
  split; [apply Hprof | ].
  cbn [res_metrics success_rate res_phases].
  split.
  { unfold final_status in Hst.
    destruct (PyFloat.eq (final_success_rate (List.length phases) phases) 1.0%float);
      [reflexivity | discriminate Hst]. }
  split.
  { intros p Hp. apply dict_get_notin. intros Hin.
    apply keys_record_all_subset in Hin. destruct Hin as [[] | Hin].
    rewrite <- map_map, (proj1 (combine_fst_Forall2 _ _ _ Houts)) in Hin.
    apply in_map_iff in Hin. destruct Hin as (q & Hq & Hin).
    apply phase_value_inj in Hq. now subst q. }
  split; [apply (report_of_new_wave init db _ _ phases _ Hwf Hfresh); reflexivity | ].
  cbn [rep_wave_id rep_strategy rep_complexity_score rep_file_count rep_duration
       rep_status rep_phases_completed rep_total_phases rep_phases
       row_strategy row_complexity_score row_file_count row_results row_status
       row_phases_completed row_total_phases res_metrics success_rate
       phases_completed].
  do 5 (split; [reflexivity | ]).
  split; [exact Hst | ]. do 2 (split; [reflexivity | ]).
  pose proof (start_rows_summary init (wave_id context) phases) as Hsum.
  split.
  - clear - Hsum. induction Hsum as [ | p s ps ss (Hp & _) _ IH]; cbn;
      [reflexivity | now rewrite Hp, IH].
  - clear - Hsum. induction Hsum as [ | p s ps ss (_ & H1 & H2 & _) _ IH];
      constructor; auto.
Qed.

(** X9. [main] from end to end, with the phase bodies of the source, which
    raise nothing. On a database that meets the constraints of its schema
    and holds neither the generated id nor "{id}_iter1", [main] gets a
    report, never "Wave not found": the report is that of the generated id,
    or of "{id}_iter1" when the progressive strategy was selected (a single
    pass is then made). It shows the selected strategy and the analysed score
    and file count, the status "completed", as many completed phases as the
    strategy has (between 2 and 5), and one entry per phase, each still
    "in_progress". *)
Theorem main_reports_a_completed_wave (fs : FileSystem) (id : string)
    (db : Database) (target : string) :
  well_formed db ->
  wave_exists db id = false ->
  wave_exists db (id ++ "_iter1")%string = false ->
  let '(score, files, ops, doms) := analyze_complexity fs target in
  let chosen := select_strategy (new_context id PROGRESSIVE score files ops doms) in
  exists r db',
    main fs id simulated_body db target = Ok (wave_report r, db')
    /\ rep_wave_id r
       = match chosen with
         | PROGRESSIVE => (id ++ "_iter1")%string
         | _ => id
         end
    /\ rep_strategy r = strategy_value chosen
    /\ rep_complexity_score r = score
    /\ rep_file_count r = files
    /\ rep_duration r = duration_seconds
    /\ rep_status r = wave_completed
    /\ rep_phases_completed r = rep_total_phases r
    /\ (2 <= rep_total_phases r <= 5)%nat
    /\ List.length (rep_phases r) = rep_total_phases r
    /\ Forall
         (fun s => sum_status s = in_progress
                   /\ sum_duration s = duration_in_progress)
         (rep_phases r).
Proof.
  intros Hwf Hid Hid1. unfold main.
  destruct (analyze_complexity fs target) as [[[score files] ops] doms].
  cbv zeta.
  change (set_wave_id (new_context EmptyString PROGRESSIVE score files ops doms) id)
    with (new_context id PROGRESSIVE score files ops doms).
  set (context0 := new_context id PROGRESSIVE score files ops doms).
  set (chosen := select_strategy context0).
  set (context := set_strategy context0 chosen).
  change (strategy context) with chosen.
  assert (Hreport : forall c,
             wave_exists db (wave_id c) = false ->
             strategy c = chosen -> complexity_score c = score ->
             file_count c = files ->
             exists results context' db' r,
               execute_wave init simulated_body db c = Ok (results, context', db')
               /\ wave_id context' = wave_id c
               /\ converged results
                  = negb (PyStr.mem "optimization"
                            (map phase_value (wave_phase_list init c)))
                    || converged results
               /\ generate_wave_report db' (wave_id c) = wave_report r
               /\ rep_wave_id r = wave_id c
               /\ rep_strategy r = strategy_value chosen
               /\ rep_complexity_score r = score
               /\ rep_file_count r = files
               /\ rep_duration r = duration_seconds
               /\ rep_status r = wave_completed
               /\ rep_phases_completed r = rep_total_phases r
               /\ (2 <= rep_total_phases r <= 5)%nat
               /\ List.length (rep_phases r) = rep_total_phases r
               /\ Forall
                    (fun s => sum_status s = in_progress
                              /\ sum_duration s = duration_in_progress)
                    (rep_phases r)).
  { intros c Hc Hs Hsc Hf.
    destruct (completed_pass_report simulated_body db c simulated_body_returns
                Hwf Hc)
      as (results & context' & db' & r & Hrun & Hwid & Hrate & Hkeys & Hrep
          & H1 & H2 & H3 & H4 & H5 & H6 & H7 & H8 & H9 & H10).
    exists results, context', db', r.
    split; [exact Hrun | ]. split; [exact Hwid | ].
    split.
    { destruct (PyStr.mem "optimization" (map phase_value (wave_phase_list init c)))
        eqn:Hmem; cbn [negb orb]; [reflexivity | ].
      unfold converged. rewrite Hrate. cbn [andb].
      rewrite (proj1 (improvement_cases results)); [reflexivity | ].
      apply (Hkeys OPTIMIZATION). intros Hin.
      apply (proj1 (mem_false_not_In _ _) Hmem).
      now apply (in_map phase_value) in Hin. }
    split; [exact Hrep | ]. split; [exact H1 | ].
    split; [now rewrite H2, Hs | ]. split; [congruence | ]. split; [congruence | ].
    split; [exact H5 | ]. split; [exact H6 | ]. split; [exact H7 | ].
    split; [rewrite H8; apply init_phase_list | ].
    split; [ | exact H10].
    rewrite H8, <- (length_map sum_phase), H9. apply length_map. }
  destruct chosen eqn:Hchosen.
  - (* progressive: one pass under "{id}_iter1" *)
    unfold run_progressive_waves. cbn [progressive_loop Nat.add].
    change (PyStr.of_nat 1) with "1".
    set (context1 := set_wave_id context _).
    destruct (Hreport context1 Hid1 eq_refl eq_refl eq_refl)
      as (results & context' & db' & r & Hrun & Hwid & Hconv & Hrep & Hrest).
    rewrite Hrun. cbn [bind].
    assert (Hc : converged results = true).
    { rewrite Hconv. reflexivity. }
    rewrite Hc. cbn [bind]. rewrite Hwid.
    exists r, db'. split; [now rewrite Hrep | exact Hrest].
  - destruct (Hreport context Hid eq_refl eq_refl eq_refl)
      as (results & context' & db' & r & Hrun & Hwid & _ & Hrep & Hrest).
    rewrite Hrun. cbn [bind]. rewrite Hwid.
    exists r, db'. split; [now rewrite Hrep | exact Hrest].
  - destruct (Hreport context Hid eq_refl eq_refl eq_refl)
      as (results & context' & db' & r & Hrun & Hwid & _ & Hrep & Hrest).
    rewrite Hrun. cbn [bind]. rewrite Hwid.
    exists r, db'. split; [now rewrite Hrep | exact Hrest].
  - destruct (Hreport context Hid eq_refl eq_refl eq_refl)
      as (results & context' & db' & r & Hrun & Hwid & _ & Hrep & Hrest).
    rewrite Hrun. cbn [bind]. rewrite Hwid.
    exists r, db'. split; [now rewrite Hrep | exact Hrest].
Qed.

Lemma main_reports_a_completed_wave_witness :
  exists r db',
    main (fun _ => Directory 150) "0123456789ab" simulated_body empty_database
      "optimize the api"
    = Ok (wave_report r, db')
    /\ rep_wave_id r = "0123456789ab"
    /\ rep_strategy r = "enterprise"
    /\ rep_status r = wave_completed
    /\ rep_phases_completed r = 5%nat
    /\ List.length (rep_phases r) = 5%nat.
Proof.
  pose proof (main_reports_a_completed_wave (fun _ => Directory 150)
                "0123456789ab" empty_database "optimize the api"
                well_formed_empty eq_refl eq_refl) as H.
  vm_compute in H. destruct H as (r & db' & Hmain & H).
  exists r, db'. split.
  - vm_compute. exact Hmain.
  - vm_compute in Hmain. injection Hmain as <- _. vm_compute. auto.
Defined.

(** ** The analysis of any target *)

Lemma NoDup_map_filter {A B} (g : A -> B) (f : A -> bool) (l : list A) :
  NoDup (map g l) -> NoDup (map g (filter f l)).
Proof.
  induction l as [ | x l IH]; cbn; [auto | ].
  intros H. inversion H as [ | y ys Hx Hl]; subst.
  destruct (f x); cbn; [ | auto].
  constructor; [ | auto].
  intros Hin. apply Hx. apply in_map_iff in Hin.
  destruct Hin as (z & Hz & Hin). apply filter_In in Hin.
  apply in_map_iff. exists z. tauto.
Qed.

Lemma incl_map_filter {A B} (g : A -> B) (f : A -> bool) (l : list A) :
  incl (map g (filter f l)) (map g l).
Proof.
  intros y Hin. apply in_map_iff in Hin. destruct Hin as (z & Hz & Hin).
  apply filter_In in Hin. apply in_map_iff. exists z. tauto.
Qed.

(** What the file system contributes: a non-negative base score and a
    file count that is 0, 1 or the number of Python files of a directory. *)
Lemma file_analysis_bounds (fs : FileSystem) (target : string) :
  nonneg (fst (file_analysis fs target))
  /\ (0 <= snd (file_analysis fs target))%Z
  /\ ((1 < snd (file_analysis fs target))%Z ->
      exists n, fs target = Directory n
                /\ snd (file_analysis fs target) = Z.of_nat n).
Proof.
  unfold file_analysis. destruct (fs target) as [ | | n | | ]; cbn [fst snd];
    (split; [ | split; [lia | ]]);
    try exact nonneg_const_0; try exact nonneg_const_0_3; try lia.
  - apply min_bounds; [ | exact nonneg_const_1].
    apply nonneg_add; [exact nonneg_const_0_3 | ].
    eapply nonneg_mul_finite; [reflexivity | apply nonneg_of_int].
  - intros _. now exists n.
Qed.

(** X10. Whatever the file system answers about the target (a file, a
    directory, nothing, an error), the analysis returns a score in [0, 1]
    and a file count that is not negative; the score is at least 0.8 when
    more than 100 files were counted and at least 0.7 when more than 50
    were. The operation types and the domains it returns are without
    repetition and are taken from the seven operation types and the five
    domains of the keyword tables. *)
Theorem analyze_complexity_bounds (fs : FileSystem) (target : string) :
  let '(score, files, ops, doms) := analyze_complexity fs target in
  PyFloat.ge score 0.0%float = true
  /\ PyFloat.ge 1.0%float score = true
  /\ (0 <= files)%Z
  /\ ((files > 100)%Z -> PyFloat.ge score 0.8%float = true)
  /\ ((files > 50)%Z -> PyFloat.ge score 0.7%float = true)
  /\ NoDup ops
  /\ incl ops (map snd operation_keywords)
  /\ (List.length ops <= 7)%nat
  /\ NoDup doms
  /\ incl doms (map fst domain_keywords)
  /\ (List.length doms <= 5)%nat.
Proof.
  rewrite analyze_complexity_unfold.
  destruct (file_analysis_bounds fs target) as (Hbase & Hfiles & _).
  set (ops := map snd (filter _ operation_keywords)).
  set (doms := map fst (filter _ domain_keywords)).
  cbv beta iota zeta.
  set (raw := Nat.iter (List.length doms) _ (Nat.iter (List.length ops) _ _)).
  assert (Hraw : nonneg raw).
  { apply nonneg_iter_add; [exact nonneg_const_0_05 | ].
    apply nonneg_iter_add; [exact nonneg_const_0_1 | exact Hbase]. }
  destruct (min_bounds raw 1.0%float Hraw nonneg_const_1) as [Hc0 Hc1].
  destruct (adjust_for_scale_bounds (snd (file_analysis fs target)) _ Hc0 Hc1)
    as (Hy0 & Hy1 & _ & H100 & H50).
  unfold PyFloat.ge.
  split; [now apply nonneg_iff_leb | ].
  split; [exact Hy1 | ]. split; [exact Hfiles | ].
  split; [exact H100 | ]. split; [exact H50 | ].
  split; [apply NoDup_map_filter; vm_compute;
          repeat constructor; cbn; intuition discriminate | ].
  split; [apply incl_map_filter | ].
  split; [unfold ops; rewrite length_map;
          apply (filter_length_bound _ operation_keywords) | ].
  split; [apply NoDup_map_filter; vm_compute;
          repeat constructor; cbn; intuition discriminate | ].
  split; [apply incl_map_filter | ].
  unfold doms. rewrite length_map. apply (filter_length_bound _ domain_keywords).
Qed.

(** X11. The strategy selected for an analysed target is the enterprise one
    exactly when the target is a readable directory holding more than 100
    Python files, whatever its name says. *)
Theorem enterprise_iff_large_directory (fs : FileSystem) (target id : string)
    (s : WaveStrategy) :
  let '(score, files, ops, doms) := analyze_complexity fs target in
  select_strategy (new_context id s score files ops doms) = ENTERPRISE
  <-> exists n, fs target = Directory n /\ (n > 100)%nat.
Proof.
  destruct (analyze_complexity fs target) as [[[score files] ops] doms] eqn:E.
  split.
  - intros Hsel.
    assert (Hfiles : (files > 100)%Z).
    { unfold select_strategy in Hsel.
      cbn [file_count new_context complexity_score domains operation_types]
        in Hsel.
      destruct (Z.gtb_spec files 100) as [H | H]; [lia | ].
      cbn [andb] in Hsel. cbv iota in Hsel.
      repeat match type of Hsel with
             | (if ?c then _ else _) = _ => destruct c
             end; discriminate Hsel. }
    pose proof (analyze_complexity_unfold fs target) as Hun. cbv zeta in Hun.
    rewrite E in Hun. injection Hun as _ Hf _ _.
    destruct (file_analysis_bounds fs target) as (_ & _ & Hdir).
    destruct (Hdir ltac:(lia)) as (n & Hn & Hcount).
    exists n. split; [exact Hn | lia].
  - intros (n & Hn & Hbig).
    pose proof (large_directory_selects_enterprise fs target id n s Hn Hbig) as H.
    rewrite E in H. exact H.
Qed.

(** *** Substrings *)

Lemma prefix_app (a b : string) : String.prefix a (a ++ b) = true.
Proof.
  induction a as [ | c a IH]; cbn; [now destruct b | ].
  destruct (Ascii.ascii_dec c c); [exact IH | congruence].
Qed.

Lemma prefix_split (a h : string) :
  String.prefix a h = true -> exists post, h = (a ++ post)%string.
Proof.
  revert h. induction a as [ | c a IH]; intros h H.
  - exists h. reflexivity.
  - destruct h as [ | c' h]; cbn in H; [discriminate H | ].
    destruct (Ascii.ascii_dec c c') as [-> | _]; [ | discriminate H].
    destruct (IH h H) as (post & ->). now exists post.
Qed.

(** [needle in hay] holds exactly when [hay] is [needle] between two
    strings. *)
Lemma contains_iff (needle hay : string) :
  PyStr.contains needle hay = true
  <-> exists pre post, hay = (pre ++ needle ++ post)%string.
Proof.
  split.
  - induction hay as [ | c hay IH]; cbn [PyStr.contains]; intros H;
      apply orb_true_iff in H; destruct H as [H | H].
    + apply prefix_split in H. destruct H as (post & ->).
      now exists EmptyString, post.
    + discriminate H.
    + apply prefix_split in H. destruct H as (post & ->).
      now exists EmptyString, post.
    + destruct (IH H) as (pre & post & ->). now exists (String c pre), post.
  - intros (pre & post & ->). induction pre as [ | c pre IH].
    + cbn [append]. destruct (needle ++ post)%string eqn:E;
        cbn [PyStr.contains]; rewrite <- E, prefix_app; reflexivity.
    + cbn [append PyStr.contains]. rewrite IH. apply orb_true_r.
Qed.

Lemma lower_app (a b : string) :
  PyStr.lower (a ++ b) = (PyStr.lower a ++ PyStr.lower b)%string.
Proof. induction a as [ | c a IH]; cbn; [reflexivity | now rewrite IH]. Qed.

Lemma contains_wrapped (k pre target post : string) :
  PyStr.contains k (PyStr.lower target) = true ->
  PyStr.contains k (PyStr.lower (pre ++ target ++ post)) = true.
Proof.
  intros H. apply contains_iff in H. destruct H as (a & b & Hab).
  apply contains_iff. rewrite !lower_app, Hab.
  exists (PyStr.lower pre ++ a)%string, (b ++ PyStr.lower post)%string.
  now rewrite !string_append_assoc.
Qed.

(** X12. Text put before or after a target description takes nothing away
    from what the analysis recognizes: every operation type and every domain
    found for a target is found for any string that contains it, in any
    letter case, whatever the file system says of either. *)
Theorem analysis_keeps_keywords_of_substring (fs fs' : FileSystem)
    (pre target post : string) :
  let '(_, _, ops, doms) := analyze_complexity fs target in
  let '(_, _, ops', doms') :=
    analyze_complexity fs' (pre ++ target ++ post) in
  incl ops ops' /\ incl doms doms'.
Proof.
  rewrite !analyze_complexity_unfold. cbv beta iota zeta. split.
  - intros o Hin. apply in_map_iff in Hin. destruct Hin as (kw & <- & Hin).
    apply filter_In in Hin. destruct Hin as [Hkw Hc].
    apply in_map_iff. exists kw. split; [reflexivity | ].
    apply filter_In. split; [exact Hkw | ]. now apply contains_wrapped.
  - intros d Hin. apply in_map_iff in Hin. destruct Hin as (kw & <- & Hin).
    apply filter_In in Hin. destruct Hin as [Hkw Hc].
    apply in_map_iff. exists kw. split; [reflexivity | ].
    apply filter_In. split; [exact Hkw | ].
    apply existsb_exists in Hc. destruct Hc as (k & Hk & Hc).
    apply existsb_exists. exists k. split; [exact Hk | ].
    now apply contains_wrapped.
Qed.

(** ** The bridge *)

Lemma dict_keys_fold_set {A V} (key : A -> string) (f : A -> V) (l : list A) :
  forall d,
    NoDup (PyDict.keys d ++ map key l) ->
    PyDict.keys (fold_left (fun d x => PyDict.set (key x) (f x) d) l d)
    = PyDict.keys d ++ map key l.
Proof.
  induction l as [ | x l IH]; intros d Hnd; cbn [fold_left map].
  - now rewrite app_nil_r.
  - assert (Hk : ~ In (key x) (PyDict.keys d)).
    { intros Hin. apply (NoDup_remove_2 _ _ _ Hnd). apply in_or_app. now left. }
    rewrite IH; rewrite (dict_keys_set_new _ _ _ Hk), <- app_assoc.
    + reflexivity.
    + exact Hnd.
Qed.

Lemma adaptive_phases_shape (context : WaveContext) :
  let l := select_adaptive_phases context in
  NoDup l /\ (2 <= List.length l <= 5)%nat
  /\ In REVIEW l /\ In IMPLEMENTATION l.
Proof.
  unfold select_adaptive_phases.
  destruct (PyFloat.gt (complexity_score context) 0.7%float);
    destruct (PyStr.mem "testing" (operation_types context)
              || PyFloat.gt (complexity_score context) 0.6%float);
    destruct (PyStr.mem "optimization" (operation_types context)
              || PyStr.mem "performance_tuning" (operation_types context));
    cbn; (split; [repeat constructor; cbn; intuition discriminate | ]);
    (split; [lia | ]); auto 6.
Qed.

Section BridgeRuns.

Import Bridge.

Variable sum : list float -> float.

(** X13. [run_adaptive_wave] returns for every target, file system and
    orchestrator configuration, never raising: the adaptive plan always
    holds the review and the implementation phase, so the overall score is
    a quotient by 2 to 5 phase results. The report carries the generated id
    and the strategy "adaptive", one phase result per planned phase in the
    order of the plan, and the status that tells whether the overall score
    is above 0.7. *)
Theorem adaptive_wave_always_returns (self : WaveOrchestrator) (fs : FileSystem)
    (generate_id : string) (observed : Observed) (target : string) :
  exists r,
    run_adaptive_wave sum self fs generate_id observed target = Ok r
    /\ report_wave_id r = generate_id
    /\ report_strategy r = "adaptive"
    /\ (2 <= List.length (phase_reports r) <= 5)%nat
    /\ (let '(score, files, ops, doms) := analyze_complexity fs target in
        PyDict.keys (phase_reports r)
        = map phase_value
            (select_adaptive_phases
               (new_context generate_id ADAPTIVE score files ops doms)))
    /\ (exists review, PyDict.get "review" (phase_reports r) = Some review)
    /\ (exists impl, PyDict.get "implementation" (phase_reports r) = Some impl)
    /\ status r = (if PyFloat.gt (overall_score r) 0.7%float
                   then "success" else "needs_improvement").
Proof.
  unfold run_adaptive_wave.
  destruct (analyze_complexity fs target) as [[[score files] ops] doms].
  set (context := new_context generate_id ADAPTIVE score files ops doms).
  destruct (adaptive_phases_shape context) as (Hnd & Hlen & Hrev & Himp).
  assert (Hlist : wave_phase_list self context = select_adaptive_phases context)
    by reflexivity.
  assert (Hkeys :
            PyDict.keys
              (fold_left
                 (fun d p => PyDict.set (phase_value p) (phase_report sum observed p) d)
                 (select_adaptive_phases context) [])
            = map phase_value (select_adaptive_phases context)).
  { apply (dict_keys_fold_set phase_value (phase_report sum observed)).
    cbn [PyDict.keys map app]. now apply NoDup_phase_values. }
  unfold execute_wave_with_agents. cbv zeta. rewrite Hlist.
  set (d := fold_left
              (fun d p => PyDict.set (phase_value p) (phase_report sum observed p) d)
              (select_adaptive_phases context) []) in *.
  assert (Hdlen : List.length d = List.length (select_adaptive_phases context)).
  { rewrite <- (length_map fst d). change (map fst d) with (PyDict.keys d).
    rewrite Hkeys. apply length_map. }
  assert (Hget : forall p, In p (select_adaptive_phases context) ->
                   exists v, PyDict.get (phase_value p) d = Some v).
  { intros p Hp. destruct (PyDict.get (phase_value p) d) as [v | ] eqn:E;
      [now exists v | exfalso].
    apply (dict_get_none _ _ E). rewrite Hkeys. now apply in_map. }
  destruct d as [ | kv d'] eqn:Ed.
  { cbn in Hdlen. lia. }
  rewrite <- Ed in *. eexists. split; [reflexivity | ].
  cbn [report_wave_id report_strategy phase_reports status overall_score].
  split; [reflexivity | ]. split; [reflexivity | ].
  split; [rewrite Hdlen; exact Hlen | ].
  split; [exact Hkeys | ].
  split; [exact (Hget REVIEW Hrev) | ].
  split; [exact (Hget IMPLEMENTATION Himp) | ].
  reflexivity.
Qed.

(** X14. [run_enterprise_wave] raises exactly when it has nothing to divide
    by: it raises [ZeroDivisionError] when the list of targets is empty
    (the average of no score) or the enterprise phase list is empty (the
    overall score of no phase), and returns in every other case. *)
Theorem enterprise_wave_raises_iff (self : WaveOrchestrator) (fs : FileSystem)
    (generate_id : nat -> string) (observed : nat -> Observed)
    (target_list : list string) :
  (run_enterprise_wave sum self fs generate_id observed target_list
   = Raise ZeroDivisionError
   <-> target_list = [] \/ phases (strategy_configs self ENTERPRISE) = [])
  /\ ((exists report,
         run_enterprise_wave sum self fs generate_id observed target_list
         = Ok report)
      <-> target_list <> [] /\ phases (strategy_configs self ENTERPRISE) <> []).
Proof.
  assert (Hraise : target_list = [] \/ phases (strategy_configs self ENTERPRISE) = [] ->
                   run_enterprise_wave sum self fs generate_id observed target_list
                   = Raise ZeroDivisionError).
  { intros [-> | Hnil]; [reflexivity | ].
    destruct target_list as [ | t ts]; [reflexivity | ].
    unfold run_enterprise_wave. cbn [List.length seq combine map fst snd gather].
    unfold target_wave at 1.
    destruct (analyze_complexity fs t) as [[[c f] o] d].
    unfold execute_wave_with_agents, wave_phase_list.
    cbn [strategy new_context]. rewrite Hnil. reflexivity. }
  assert (Hok : target_list <> [] ->
                phases (strategy_configs self ENTERPRISE) <> [] ->
                exists report,
                  run_enterprise_wave sum self fs generate_id observed target_list
                  = Ok report).
  { intros Hne Hph. unfold run_enterprise_wave.
    set (tasks := map _ (combine _ target_list)).
    assert (Htasks : Forall (fun t => exists r, t = Ok r /\ True) tasks).
    { apply Forall_forall. intros t Hin. apply in_map_iff in Hin.
      destruct Hin as ([i target] & <- & _). cbn [fst snd].
      unfold target_wave.
      destruct (analyze_complexity fs target) as [[[c f] o] d].
      destruct (execute_wave_with_agents_returns sum self (observed i)
                  (new_context (generate_id i) ENTERPRISE c f o d) Hph)
        as (r & Hr & _).
      exists r. now split. }
    destruct (gather_all tasks (fun _ => True) Htasks)
      as (results & Hg & Hall & _).
    rewrite Hg. cbn [bind].
    destruct (compile_results target_list results ([], 0%nat, 0%nat))
      as [[bt ns] nf].
    destruct results as [ | r results].
    - exfalso. apply Forall2_length in Hall. subst tasks.
      rewrite length_map, length_combine, length_seq, Nat.min_id in Hall.
      destruct target_list; [congruence | discriminate Hall].
    - eexists. reflexivity. }
  split; split.
  - intros Hr.
    destruct target_list as [ | t ts]; [now left | right].
    destruct (phases (strategy_configs self ENTERPRISE)) as [ | p ps] eqn:Hph;
      [reflexivity | exfalso].
    destruct (Hok ltac:(discriminate) ltac:(discriminate))
      as (report & Hrep).
    congruence.
  - exact Hraise.
  - intros (report & Hrep). split.
    + intros ->. discriminate Hrep.
    + intros Hnil. rewrite (Hraise (or_intror Hnil)) in Hrep. discriminate Hrep.
  - intros [Hne Hph]. now apply Hok.
Qed.

(** *** The dictionary of the waves by target *)

Lemma dict_keys_set_iff {V} (x k : string) (v : V) (d : PyDict.t V) :
  In x (PyDict.keys (PyDict.set k v d)) <-> In x (PyDict.keys d) \/ x = k.
Proof.
  induction d as [ | [k0 v0] d IH]; cbn.
  - intuition congruence.
  - destruct (String.eqb_spec k k0) as [-> | Hne]; cbn.
    + intuition congruence.
    + rewrite IH. intuition congruence.
Qed.

Lemma dict_keys_set_NoDup {V} (k : string) (v : V) (d : PyDict.t V) :
  NoDup (PyDict.keys d) -> NoDup (PyDict.keys (PyDict.set k v d)).
Proof.
  induction d as [ | [k0 v0] d IH]; cbn; intros H.
  - repeat constructor. intros [].
  - inversion H as [ | y ys Hk0 Hd]; subst.
    destruct (String.eqb_spec k k0) as [-> | Hne]; cbn.
    + now constructor.
    + constructor; [ | now apply IH].
      intros Hin. apply dict_keys_set_iff in Hin.
      destruct Hin as [Hin | Heq]; [contradiction | congruence].
Qed.

Lemma dict_fold_set_keys {V} (l : list (string * V)) :
  forall d,
    NoDup (PyDict.keys d) ->
    let d' := fold_left (fun d kv => PyDict.set (fst kv) (snd kv) d) l d in
    NoDup (PyDict.keys d')
    /\ (forall x, In x (PyDict.keys d') <-> In x (PyDict.keys d) \/ In x (map fst l)).
Proof.
  induction l as [ | [k v] l IH]; intros d Hnd; cbn [fold_left map fst snd].
  - split; [exact Hnd | ]. cbn. intuition.
  - destruct (IH (PyDict.set k v d) (dict_keys_set_NoDup k v d Hnd)) as [H1 H2].
    split; [exact H1 | ]. intros x. rewrite H2, dict_keys_set_iff.
    cbn. intuition congruence.
Qed.

Lemma dict_fold_set_other {V} (l : list (string * V)) (k : string) :
  forall d,
    (forall kv, In kv l -> fst kv <> k) ->
    PyDict.get k (fold_left (fun d kv => PyDict.set (fst kv) (snd kv) d) l d)
    = PyDict.get k d.
Proof.
  induction l as [ | [k0 v0] l IH]; intros d H; cbn [fold_left fst snd];
    [reflexivity | ].
  rewrite IH by (intros kv Hin; apply H; now right).
  apply dict_get_set_other. intros Heq. apply (H (k0, v0)); [now left | ].
  cbn [fst]. congruence.
Qed.

(** The value of a key after a sequence of assignments is the one of the
    last assignment to it. *)
Lemma dict_fold_set_last {V} (l : list (string * V)) (k : string) (v : V) :
  forall d i,
    nth_error l i = Some (k, v) ->
    (forall j kv, (i < j)%nat -> nth_error l j = Some kv -> fst kv <> k) ->
    PyDict.get k (fold_left (fun d kv => PyDict.set (fst kv) (snd kv) d) l d)
    = Some v.
Proof.
  induction l as [ | [k0 v0] l IH]; intros d i Hi Hlast.
  - destruct i; discriminate Hi.
  - cbn [fold_left fst snd]. destruct i as [ | i].
    + cbn in Hi. injection Hi as -> ->.
      rewrite dict_fold_set_other; [apply dict_get_set_same | ].
      intros kv Hin. apply In_nth_error in Hin. destruct Hin as [j Hj].
      apply (Hlast (S j) kv); [lia | exact Hj].
    + apply (IH _ i); [exact Hi | ].
      intros j kv Hlt Hj. apply (Hlast (S j) kv); [lia | exact Hj].
Qed.

Lemma compile_results_dict (target_list : list string) :
  forall results acc,
    List.length results = List.length target_list ->
    fst (fst (compile_results target_list results acc))
    = fold_left (fun d kv => PyDict.set (fst kv) (snd kv) d)
        (combine target_list results) (fst (fst acc)).
Proof.
  induction target_list as [ | t ts IH]; intros [ | r rs] [[d a] b] Hlen;
    try discriminate Hlen; [reflexivity | ].
  cbn [compile_results combine fold_left fst snd]. injection Hlen as Hlen.
  destruct (String.eqb (status r) "success"); rewrite IH by assumption;
    reflexivity.
Qed.

Lemma nth_error_combine {A B} (a : list A) (b : list B) (i : nat) :
  nth_error (combine a b) i
  = match nth_error a i, nth_error b i with
    | Some x, Some y => Some (x, y)
    | _, _ => None
    end.
Proof.
  revert b i. induction a as [ | x a IH]; intros [ | y b] [ | i]; cbn;
    try reflexivity.
  - now destruct (nth_error a i).
  - apply IH.
Qed.

Lemma Forall2_nth_error {A B} (R : A -> B -> Prop) (l : list A) (l' : list B)
    (i : nat) (x : A) :
  Forall2 R l l' -> nth_error l i = Some x ->
  exists y, nth_error l' i = Some y /\ R x y.
Proof.
  intros H. revert i. induction H as [ | a b l l' Hab _ IH]; intros [ | i] Hi;
    try discriminate Hi.
  - injection Hi as ->. now exists b.
  - now apply IH.
Qed.

(** The fan-out over a non-empty list of targets: the results of the waves
    in the order of the targets, and the dictionary that files them by
    target. *)
Lemma run_enterprise_wave_run (self : WaveOrchestrator) (fs : FileSystem)
    (generate_id : nat -> string) (observed : nat -> Observed)
    (target_list : list string) :
  target_list <> [] ->
  phases (strategy_configs self ENTERPRISE) <> [] ->
  exists report results,
    run_enterprise_wave sum self fs generate_id observed target_list = Ok report
    /\ List.length results = List.length target_list
    /\ (forall i t,
          nth_error target_list i = Some t ->
          exists r, nth_error results i = Some r
                    /\ target_wave sum self fs generate_id observed i t = Ok r)
    /\ targets report
       = fold_left (fun d kv => PyDict.set (fst kv) (snd kv) d)
           (combine target_list results) []
    /\ total_targets (summary report) = List.length target_list.
Proof.
  intros Hne Hph. unfold run_enterprise_wave.
  set (its := combine (seq 0 (List.length target_list)) target_list).
  assert (Htasks :
            Forall (fun t => exists r, t = Ok r /\ True)
              (map (fun it => target_wave sum self fs generate_id observed
                                (fst it) (snd it)) its)).
  { apply Forall_map, Forall_forall. intros [i target] _.
    cbn [fst snd]. unfold target_wave.
    destruct (analyze_complexity fs target) as [[[c f] o] d].
    destruct (execute_wave_with_agents_returns sum self (observed i)
                (new_context (generate_id i) ENTERPRISE c f o d) Hph)
      as (r & Hr & _).
    exists r. now split. }
  destruct (gather_all _ (fun _ => True) Htasks) as (results & Hg & Hall & _).
  apply Forall2_map_left in Hall.
  assert (Hlen : List.length results = List.length target_list).
  { rewrite <- (Forall2_length Hall). subst its.
    rewrite length_combine, length_seq. lia. }
  rewrite Hg. cbn [bind].
  pose proof (compile_results_dict target_list results ([], 0%nat, 0%nat) Hlen)
    as Hdict.
  destruct (compile_results target_list results ([], 0%nat, 0%nat))
    as [[bt ns] nf].
  cbn [fst] in Hdict.
  destruct results as [ | r0 results0] eqn:Eres.
  { destruct target_list; [congruence | discriminate Hlen]. }
  rewrite <- Eres in *. eexists. exists results.
  split; [rewrite Eres; reflexivity | ].
  split; [exact Hlen | ]. split; [ | split; [exact Hdict | reflexivity]].
  intros i t Hi.
  assert (Hit : nth_error its i = Some (i, t)).
  { subst its. rewrite nth_error_combine, Hi.
    assert (Hlt : (i < List.length target_list)%nat).
    { apply nth_error_Some. congruence. }
    rewrite nth_error_seq.
    destruct (Nat.ltb_spec i (List.length target_list)); [reflexivity | lia]. }
  destruct (Forall2_nth_error _ _ _ _ _ Hall Hit) as (r & Hr & Hrun).
  exists r. split; assumption.
Qed.

(** X15. The fan-out files the waves by target string, so a target listed
    more than once keeps one entry: the dictionary of the report has one key
    per distinct target, its size is at most [total_targets] and equals it
    exactly when no target is repeated, and the entry of a target is the
    result of the wave of its last occurrence in the list, while
    [total_targets] counts every occurrence. *)
Theorem enterprise_targets_keep_last_wave (self : WaveOrchestrator)
    (fs : FileSystem) (generate_id : nat -> string) (observed : nat -> Observed)
    (target_list : list string) :
  target_list <> [] ->
  phases (strategy_configs self ENTERPRISE) <> [] ->
  exists report,
    run_enterprise_wave sum self fs generate_id observed target_list = Ok report
    /\ total_targets (summary report) = List.length target_list
    /\ NoDup (PyDict.keys (targets report))
    /\ (forall t, In t (PyDict.keys (targets report)) <-> In t target_list)
    /\ (List.length (targets report) <= total_targets (summary report))%nat
    /\ (List.length (targets report) = total_targets (summary report)
        <-> NoDup target_list)
    /\ (forall i t,
          nth_error target_list i = Some t ->
          (forall j, (i < j)%nat -> nth_error target_list j <> Some t) ->
          exists r,
            target_wave sum self fs generate_id observed i t = Ok r
            /\ PyDict.get t (targets report) = Some r).
Proof.
  intros Hne Hph.
  destruct (run_enterprise_wave_run self fs generate_id observed target_list
              Hne Hph)
    as (report & results & Hrun & Hlen & Hnth & Hdict & Htotal).
  exists report. split; [exact Hrun | ]. split; [exact Htotal | ].
  destruct (dict_fold_set_keys (combine target_list results) []
              (NoDup_nil _)) as [Hnd Hkeys].
  cbv zeta in Hnd, Hkeys. rewrite <- Hdict in Hnd, Hkeys.
  assert (Hfst : map fst (combine target_list results) = target_list).
  { clear - Hlen. revert results Hlen.
    induction target_list as [ | t ts IH]; intros [ | r rs] Hlen;
      try discriminate Hlen; cbn; [reflexivity | ].
    f_equal. apply IH. now injection Hlen. }
  rewrite Hfst in Hkeys.
  assert (Hiff : forall t, In t (PyDict.keys (targets report)) <-> In t target_list).
  { intros t. rewrite Hkeys. cbn. tauto. }
  assert (Hsize : List.length (targets report)
                  = List.length (PyDict.keys (targets report))).
  { unfold PyDict.keys. now rewrite length_map. }
  split; [exact Hnd | ]. split; [exact Hiff | ].
  split.
  { rewrite Htotal, Hsize. apply NoDup_incl_length; [exact Hnd | ].
    intros t. apply Hiff. }
  split.
  { rewrite Htotal, Hsize. split.
    - intros Heq. apply (NoDup_incl_NoDup Hnd); [lia | ].
      intros t. apply Hiff.
    - intros Htl. f_equal. rewrite Hdict.
      rewrite <- Hfst at 2.
      apply (dict_keys_fold_set fst snd (combine target_list results) []).
      cbn [PyDict.keys map app]. now rewrite Hfst. }
  intros i t Hi Hlast.
  destruct (Hnth i t Hi) as (r & Hr & Hwave).
  exists r. split; [exact Hwave | ].
  rewrite Hdict. apply (dict_fold_set_last _ _ _ _ i).
  - now rewrite nth_error_combine, Hi, Hr.
  - intros j [t' r'] Hlt Hj. cbn [fst]. intros ->.
    rewrite nth_error_combine in Hj.
    destruct (nth_error target_list j) as [t'' | ] eqn:Ej; [ | discriminate Hj].
    destruct (nth_error results j); [ | discriminate Hj].
    injection Hj as -> _. now apply (Hlast j Hlt).
Qed.

End BridgeRuns.

(** ** The checkpoints of the bridge *)

Lemma write_checkpoints_spec (self : WaveOrchestrator) (context : WaveContext)
    (due : bool) (l : list WavePhase) :
  forall db,
    let db' :=
      fold_left
        (fun db p => if due then create_checkpoint db context p else db) l db in
    waves db' = waves db
    /\ wave_phases db' = wave_phases db
    /\ exists cps,
         wave_checkpoints db' = wave_checkpoints db ++ cps
         /\ map cp_phase cps = (if due then map phase_value l else [])
         /\ Forall
              (fun c =>
                 cp_wave_id c = wave_id context
                 /\ snap_phase_results (cp_state_snapshot c) = phase_results context
                 /\ snap_metrics (cp_state_snapshot c) = metrics context)
              cps.
Proof.
  induction l as [ | p l IH]; intros db; cbn [fold_left].
  - split; [reflexivity | ]. split; [reflexivity | ].
    exists []. rewrite app_nil_r. split; [reflexivity | ].
    split; [now destruct due | constructor].
  - destruct due.
    + destruct (IH (create_checkpoint db context p)) as (Hw & Hp & cps & Hc & Hm & Hf).
      cbv zeta. rewrite Hw, Hp. split; [reflexivity | ]. split; [reflexivity | ].
      eexists (_ :: cps). rewrite Hc. cbn [create_checkpoint wave_checkpoints].
      rewrite <- app_assoc. split; [reflexivity | ].
      cbn [map cp_phase]. rewrite Hm. split; [reflexivity | ].
      constructor; [cbn; auto | exact Hf].
    + apply IH.
Qed.

(** X16. A wave run through the bridge leaves no trace in [waves] or
    [wave_phases], so its report reads as before the run ("Wave not found"
    for a new id). What it leaves is checkpoints: for the strategies with
    per-phase or continuous checkpoints one per phase, in order, otherwise
    none; each carries the wave id and the same snapshot, the phase results
    and metrics the context had at the call, since the bridge stores no phase
    result in the context. On a database that did not hold the wave id these
    checkpoints refer to no wave, against the foreign key of the schema. *)
Theorem bridge_checkpoints_refer_to_no_wave (self : WaveOrchestrator)
    (db : Database) (context : WaveContext) :
  let db' := Bridge.write_checkpoints self db context in
  let cfg := strategy_configs self (strategy context) in
  waves db' = waves db
  /\ wave_phases db' = wave_phases db
  /\ generate_wave_report db' (wave_id context)
     = generate_wave_report db (wave_id context)
  /\ (exists cps,
        wave_checkpoints db' = wave_checkpoints db ++ cps
        /\ map cp_phase cps
           = (if checkpoint_due cfg
              then map phase_value (wave_phase_list self context) else [])
        /\ Forall
             (fun c =>
                cp_wave_id c = wave_id context
                /\ snap_phase_results (cp_state_snapshot c) = phase_results context
                /\ snap_metrics (cp_state_snapshot c) = metrics context)
             cps)
  /\ (wave_exists db (wave_id context) = false ->
      checkpoint_due cfg = true ->
      wave_phase_list self context <> [] ->
      generate_wave_report db' (wave_id context) = wave_not_found
      /\ ~ well_formed db').
Proof.
  intros db' cfg.
  destruct (write_checkpoints_spec self context (checkpoint_due cfg)
              (wave_phase_list self context) db)
    as (Hw & Hp & cps & Hc & Hm & Hf).
  fold cfg in Hw, Hp, Hc. change (fold_left _ _ db) with db' in Hw, Hp, Hc.
  assert (Hrep : generate_wave_report db' (wave_id context)
                 = generate_wave_report db (wave_id context)).
  { unfold generate_wave_report. now rewrite Hw, Hp. }
  split; [exact Hw | ]. split; [exact Hp | ]. split; [exact Hrep | ].
  split; [now exists cps | ].
  intros Hfresh Hdue Hne. split.
  - rewrite Hrep. unfold generate_wave_report.
    now rewrite (proj1 (find_wave_none db (wave_id context)) Hfresh).
  - intros (_ & _ & Hcps). rewrite Hc in Hcps.
    apply Forall_app in Hcps. destruct Hcps as [_ Hcps].
    rewrite Hdue in Hm.
    destruct cps as [ | c cps'].
    + destruct (wave_phase_list self context); [congruence | discriminate Hm].
    + apply Forall_inv in Hcps. apply Forall_inv in Hf. destruct Hf as [Hid _].
      rewrite Hid in Hcps. unfold wave_exists in Hcps, Hfresh.
      rewrite Hw in Hcps. congruence.
Qed.

(** ** The scores of the bridge *)

Lemma all_tables_complete (n : nat) (t : list Bridge.AgentStatus) :
  List.length t = n -> In t (all_tables n).
Proof.
  revert t. induction n as [ | n IH]; intros [ | s t] H; try discriminate H.
  - now left.
  - cbn [all_tables]. injection H as H. apply in_or_app.
    destruct s; [left | right]; apply in_map; now apply IH.
Qed.

Lemma phase_report_of_table (sum : list float -> float)
    (observed : Bridge.Observed) (p : WavePhase) :
  Bridge.phase_report sum (of_table (table_of observed)) p
  = Bridge.phase_report sum observed p.
Proof. destruct p; reflexivity. Qed.

Lemma wave_score_of_table (sum : list float -> float)
    (observed : Bridge.Observed) (l : list WavePhase) :
  wave_score sum (of_table (table_of observed)) l = wave_score sum observed l.
Proof.
  unfold wave_score.
  assert (H : forall d,
             fold_left
               (fun d p =>
                  PyDict.set (phase_value p)
                    (Bridge.phase_report sum (of_table (table_of observed)) p) d)
               l d
             = fold_left
                 (fun d p =>
                    PyDict.set (phase_value p)
                      (Bridge.phase_report sum observed p) d)
                 l d).
  { induction l as [ | p l IH]; intros d; cbn [fold_left]; [reflexivity | ].
    now rewrite phase_report_of_table, IH. }
  now rewrite H.
Qed.

Lemma execute_wave_with_agents_score (sum : list float -> float)
    (self : WaveOrchestrator) (observed : Bridge.Observed)
    (context : WaveContext) (r : Bridge.WaveReport) :
  Bridge.execute_wave_with_agents sum self observed context = Ok r ->
  Bridge.overall_score r = wave_score sum observed (wave_phase_list self context)
  /\ Bridge.status r
     = (if PyFloat.gt (Bridge.overall_score r) 0.7%float
        then "success" else "needs_improvement").
Proof.
  unfold Bridge.execute_wave_with_agents, wave_score. cbv zeta.
  destruct (fold_left
              (fun d p =>
                 PyDict.set (phase_value p) (Bridge.phase_report sum observed p) d)
              (wave_phase_list self context) []) as [ | kv d];
    [discriminate | ].
  intros H. injection H as <-. split; reflexivity.
Qed.

Lemma init_phase_lists_complete (context : WaveContext) :
  In (wave_phase_list init context) init_phase_lists.
Proof.
  unfold wave_phase_list. destruct (strategy context); cbn [init strategy_configs
    init_strategy_configs phases].
  - now left.
  - right. now left.
  - unfold select_adaptive_phases.
    destruct (PyFloat.gt (complexity_score context) 0.7%float);
      destruct (PyStr.mem "testing" (operation_types context)
                || PyFloat.gt (complexity_score context) 0.6%float);
      destruct (PyStr.mem "optimization" (operation_types context)
                || PyStr.mem "performance_tuning" (operation_types context));
      cbn; auto 12.
  - right. now left.
Qed.

(** The scores over all phase lists of the built-in strategies and all
    tables of statuses, with [sum] adding from left to right. *)
Lemma wave_score_table_bounds :
  forallb
    (fun l =>
       forallb
         (fun t =>
            let s := wave_score Bridge.sum_left (of_table t) l in
            PyFloat.ge s 0.5%float && PyFloat.ge 0.85%float s)
         (all_tables (List.length read_points)))
    init_phase_lists
  = true.
Proof. vm_compute. reflexivity. Qed.

Lemma wave_score_uniform (s : Bridge.AgentStatus) (l : list WavePhase) :
  In l init_phase_lists ->
  wave_score Bridge.sum_left (of_table (map (fun _ => s) read_points)) l
  = Bridge.get_agent_score s.
Proof.
  intros H. unfold init_phase_lists in H. cbn in H.
  repeat (destruct H as [<- | H]; [destruct s; vm_compute; reflexivity | ]).
  contradiction.
Qed.

(** X17. The scores of a wave of the bridge under the built-in strategies,
    [sum] adding from left to right. Whatever the agents' statuses are when
    the phases read them, the wave returns an overall score between 0.5 and
    0.85 and the status that tells whether the score is above 0.7. When
    every agent is seen active the score is 0.85 and the status "success";
    when every agent is seen inactive, as when no agent process could be
    started, the score is 0.5 and the status "needs_improvement". *)
Theorem bridge_score_bounds (observed : Bridge.Observed) (context : WaveContext) :
  exists r,
    Bridge.execute_wave_with_agents Bridge.sum_left init observed context = Ok r
    /\ PyFloat.ge (Bridge.overall_score r) 0.5%float = true
    /\ PyFloat.ge 0.85%float (Bridge.overall_score r) = true
    /\ Bridge.status r
       = (if PyFloat.gt (Bridge.overall_score r) 0.7%float
          then "success" else "needs_improvement")
    /\ ((forall p a, observed p a = Bridge.active) ->
        Bridge.overall_score r = 0.85%float /\ Bridge.status r = "success")
    /\ ((forall p a, observed p a = Bridge.inactive) ->
        Bridge.overall_score r = 0.5%float
        /\ Bridge.status r = "needs_improvement").
Proof.
  destruct (init_phase_list context) as [_ Hlen].
  destruct (execute_wave_with_agents_returns Bridge.sum_left init observed context)
    as (r & Hr & _).
  { intros E. rewrite E in Hlen. cbn in Hlen. lia. }
  exists r. split; [exact Hr | ].
  destruct (execute_wave_with_agents_score _ _ _ _ _ Hr) as [Hscore Hstatus].
  pose proof (init_phase_lists_complete context) as Hl.
  rewrite <- wave_score_of_table in Hscore.
  pose proof wave_score_table_bounds as Hb.
  rewrite forallb_forall in Hb. specialize (Hb _ Hl).
  rewrite forallb_forall in Hb.
  specialize (Hb (table_of observed)
                (all_tables_complete _ _ (length_map _ _))).
  cbv zeta in Hb. rewrite <- Hscore in Hb. apply andb_true_iff in Hb.
  split; [apply Hb | ]. split; [apply Hb | ]. split; [exact Hstatus | ].
  assert (Huniform : forall s, (forall p a, observed p a = s) ->
                       Bridge.overall_score r = Bridge.get_agent_score s).
  { intros s Hs. rewrite Hscore.
    replace (table_of observed) with (map (fun _ : WavePhase * string => s) read_points).
    - now apply wave_score_uniform.
    - unfold table_of. apply map_ext. intros [p a]. now rewrite Hs. }
  split; intros Hs; rewrite Hstatus, (Huniform _ Hs); split; reflexivity.
Qed.

(** X15 on three targets of which the first is listed again at the end,
    the agents being seen inactive by the first wave only. *)
Lemma enterprise_targets_keep_last_wave_witness :
  exists report,
    Bridge.run_enterprise_wave Bridge.sum_left init (fun _ => Missing)
      PyStr.of_nat
      (fun i _ _ => if Nat.eqb i 0 then Bridge.inactive else Bridge.active)
      ["api"; "web"; "api"]
    = Ok report
    /\ map (fun kv => (fst kv, Bridge.status (snd kv), Bridge.overall_score (snd kv)))
         (Bridge.targets report)
       = [ ("api", "success", 0.85%float); ("web", "success", 0.85%float) ]
    /\ Bridge.total_targets (Bridge.summary report) = 3%nat
    /\ Bridge.successful (Bridge.summary report) = 2%nat
    /\ Bridge.failed (Bridge.summary report) = 1%nat.
Proof.
  destruct (enterprise_targets_keep_last_wave Bridge.sum_left init
              (fun _ => Missing) PyStr.of_nat
              (fun i _ _ => if Nat.eqb i 0 then Bridge.inactive else Bridge.active)
              ["api"; "web"; "api"] ltac:(discriminate) ltac:(discriminate))
    as (report & Hrun & _).
  exists report. split; [exact Hrun | ].
  vm_compute in Hrun. injection Hrun as <-.
  vm_compute. repeat split.
Defined.

(** ** The agent orchestrator *)

Section AgentRuns.

Import Agents.

Variable launch : nat -> Launch.

Lemma agent_get_set_same (k : string) (a : Agent) (d : PyDict.t Agent) :
  PyDict.get k (PyDict.set k a d) = Some a.
Proof. apply dict_get_set_same. Qed.

(** X18. Stopping an agent stops no process, and starting it again starts
    another one. When the start of an agent gets its process started, the
    agent scores 0.85 and the script is added to the processes started;
    [stop_agent] then brings the score back to 0.5 but leaves the processes
    as they are; and a further successful start, whether the agent was
    stopped in between or not, adds the same script once more. *)
Theorem stopped_agent_keeps_its_process (self : AgentOrchestrator)
    (agent_key : string) (agent : Agent) :
  PyDict.get agent_key (self_agents self) = Some agent ->
  launch (attempts self) = launched ->
  exists started stopped,
    start_agent launch self agent_key = Ret (true, started)
    /\ stop_agent started agent_key = Ret stopped
    /\ get_agent_score started agent_key = Ret 0.85%float
    /\ get_agent_score stopped agent_key = Ret 0.5%float
    /\ processes started = processes self ++ [script agent]
    /\ processes stopped = processes started
    /\ (launch (S (attempts self)) = launched ->
        exists again twice,
          start_agent launch stopped agent_key = Ret (true, again)
          /\ start_agent launch started agent_key = Ret (true, twice)
          /\ processes again = processes self ++ [script agent; script agent]
          /\ processes twice = processes self ++ [script agent; script agent]).
Proof.
  intros Hget Hl. unfold start_agent at 1. rewrite Hget, Hl.
  eexists _, _. split; [reflexivity | ].
  unfold stop_agent. cbn [self_agents]. rewrite agent_get_set_same.
  split; [reflexivity | ].
  unfold get_agent_score. cbn [self_agents]. rewrite !agent_get_set_same.
  cbn [set_status status Bridge.get_agent_score processes].
  do 4 (split; [reflexivity | ]).
  intros Hl2. unfold start_agent.
  cbn [self_agents attempts processes]. rewrite !agent_get_set_same, Hl2.
  eexists _, _. split; [reflexivity | ]. split; [reflexivity | ].
  cbn [processes set_status script]. rewrite <- !app_assoc. split; reflexivity.
Qed.

(** *** Workflows *)

Lemma start_sequential_gather (keys : list string) :
  forall self results,
    start_sequential launch self keys results
    = bind (gather_starts launch self keys)
        (fun '(results_list, self) =>
           Ret (fold_left (fun results kr => PyDict.set (fst kr) (snd kr) results)
                  (combine keys results_list) results,
                self)).
Proof.
  induction keys as [ | k keys IH]; intros self results;
    cbn [start_sequential gather_starts]; [reflexivity | ].
  destruct (start_agent launch self k) as [[success self1] | key | ];
    cbn [bind]; try reflexivity.
  rewrite IH.
  destruct (gather_starts launch self1 keys) as [[l self2] | key | ];
    reflexivity.
Qed.

(** X19. The parallel mode of [run_workflow] does what the sequential mode
    does: the agents of the workflow are started one after the other in the
    order of the list, and the results, the state of the orchestrator and
    the row logged are those the sequential loop gives. *)
Theorem parallel_mode_is_sequential (self : AgentOrchestrator)
    (workflow_name : string) (workflow : Workflow) :
  PyDict.get workflow_name (workflows self) = Some workflow ->
  mode workflow = "parallel" ->
  run_workflow launch self workflow_name
  = bind (start_sequential launch self (agents workflow) [])
      (fun '(results, self) =>
         Ret (results, log_run self workflow_name results)).
Proof.
  intros Hget Hmode. unfold run_workflow. rewrite Hget, Hmode.
  cbn [String.eqb Ascii.eqb Bool.eqb]. now rewrite start_sequential_gather.
Qed.

Lemma dict_keys_set_same {V} (k : string) (v a : V) (d : PyDict.t V) :
  PyDict.get k d = Some a -> PyDict.keys (PyDict.set k v d) = PyDict.keys d.
Proof.
  induction d as [ | [k0 v0] d IH]; cbn; [discriminate | ].
  destruct (String.eqb_spec k k0) as [-> | Hne]; cbn; [reflexivity | ].
  intros H. f_equal. now apply IH.
Qed.

Lemma dict_get_known {V} (k : string) (d d' : PyDict.t V) :
  PyDict.keys d' = PyDict.keys d ->
  (exists a, PyDict.get k d = Some a) -> exists a, PyDict.get k d' = Some a.
Proof.
  intros Hk [a Ha]. destruct (PyDict.get k d') as [a' | ] eqn:E; [now exists a' | ].
  exfalso. apply (dict_get_none _ _ E). rewrite Hk.
  apply dict_get_some_in in Ha. apply in_map_iff. now exists (k, a).
Qed.

(** One start of a known agent. *)
Lemma start_agent_known (self : AgentOrchestrator) (k : string) :
  (exists a, PyDict.get k (self_agents self) = Some a) ->
  exists self',
    start_agent launch self k = Ret (is_launched (launch (attempts self)), self')
    /\ attempts self' = S (attempts self)
    /\ PyDict.keys (self_agents self') = PyDict.keys (self_agents self)
    /\ workflows self' = workflows self
    /\ agent_runs self' = agent_runs self
    /\ orchestrator_metrics self' = orchestrator_metrics self
    /\ (is_launched (launch (attempts self)) = false ->
        self_agents self' = self_agents self /\ processes self' = processes self).
Proof.
  intros [a Ha]. unfold start_agent. rewrite Ha.
  destruct (launch (attempts self)); eexists; (split; [reflexivity | ]);
    cbn [attempts self_agents workflows agent_runs orchestrator_metrics
         processes is_launched];
    repeat split; try discriminate.
  apply (dict_keys_set_same _ _ a). exact Ha.
Qed.

Lemma agents_known_keys (self self' : AgentOrchestrator) (keys : list string) :
  PyDict.keys (self_agents self') = PyDict.keys (self_agents self) ->
  agents_known self keys -> agents_known self' keys.
Proof.
  intros Hk H k Hin. apply (dict_get_known k _ _ Hk). now apply H.
Qed.

(** The starts of a list of known agents: each takes the next attempt. *)
Lemma gather_starts_known (keys : list string) :
  forall self,
    agents_known self keys ->
    exists self',
      gather_starts launch self keys
      = Ret (map (fun i => is_launched (launch (attempts self + i)))
               (seq 0 (List.length keys)),
             self')
      /\ attempts self' = (attempts self + List.length keys)%nat
      /\ PyDict.keys (self_agents self') = PyDict.keys (self_agents self)
      /\ workflows self' = workflows self
      /\ agent_runs self' = agent_runs self
      /\ orchestrator_metrics self' = orchestrator_metrics self
      /\ ((forall i, (i < List.length keys)%nat ->
             is_launched (launch (attempts self + i)) = false) ->
          self_agents self' = self_agents self /\ processes self' = processes self).
Proof.
  induction keys as [ | k keys IH]; intros self Hknown.
  - exists self. cbn. rewrite Nat.add_0_r. repeat split; reflexivity.
  - destruct (start_agent_known self k (Hknown k (or_introl eq_refl)))
      as (self1 & Hs & Ha1 & Hk1 & Hw1 & Hr1 & Hm1 & Hf1).
    destruct (IH self1) as (self2 & Hg & Ha2 & Hk2 & Hw2 & Hr2 & Hm2 & Hf2).
    { apply (agents_known_keys self); [exact Hk1 | ].
      intros k' Hin. apply Hknown. now right. }
    exists self2. cbn [gather_starts List.length seq map].
    rewrite Hs. cbn [bind]. rewrite Hg. cbn [bind].
    rewrite Nat.add_0_r, <- seq_shift, map_map.
    split.
    { f_equal. f_equal. f_equal. apply map_ext. intros i.
      rewrite Ha1. f_equal. f_equal. lia. }
    split; [lia | ]. split; [congruence | ]. split; [congruence | ].
    split; [congruence | ]. split; [congruence | ].
    intros Hnone.
    assert (H0 : is_launched (launch (attempts self)) = false).
    { rewrite <- (Nat.add_0_r (attempts self)). apply Hnone. lia. }
    destruct (Hf1 H0) as [Hag1 Hp1].
    destruct Hf2 as [Hag2 Hp2].
    { intros i Hi. rewrite Ha1.
      replace (S (attempts self) + i)%nat with (attempts self + S i)%nat by lia.
      apply Hnone. lia. }
    split; congruence.
Qed.

Lemma start_continuous_gather (keys : list string) :
  forall self results,
    start_continuous launch self keys results
    = bind (gather_starts launch self keys)
        (fun '(_, self) =>
           Ret (fold_left (fun results k => PyDict.set k true results) keys results,
                self)).
Proof.
  induction keys as [ | k keys IH]; intros self results;
    cbn [start_continuous gather_starts fold_left]; [reflexivity | ].
  destruct (start_agent launch self k) as [[success self1] | key | ];
    cbn [bind]; try reflexivity.
  rewrite IH.
  destruct (gather_starts launch self1 keys) as [[l self2] | key | ];
    reflexivity.
Qed.

Lemma dict_fold_set_const {V} (v : V) (keys : list string) :
  forall d k,
    PyDict.get k (fold_left (fun d k => PyDict.set k v d) keys d)
    = if in_dec string_dec k keys then Some v else PyDict.get k d.
Proof.
  induction keys as [ | k0 keys IH]; intros d k; cbn [fold_left]; [reflexivity | ].
  rewrite IH.
  destruct (in_dec string_dec k keys) as [Hin | Hnot];
    destruct (in_dec string_dec k (k0 :: keys)) as [Hin' | Hnot'];
    try reflexivity.
  - exfalso. apply Hnot'. now right.
  - destruct Hin' as [-> | Hin']; [apply dict_get_set_same | contradiction].
  - apply dict_get_set_other. intros ->. apply Hnot'. now left.
Qed.

(** X20. The continuous mode of [run_workflow] reports success whatever
    happened: for a workflow in that mode whose agents are all known, the
    results hold [True] for every agent of the workflow and nothing else,
    one start attempt was made per agent, and the run is logged as
    "completed" with these results; this is so even when no process could
    be started, in which case no agent changed and no process was added. *)
Theorem continuous_mode_reports_success (self : AgentOrchestrator)
    (workflow_name : string) (workflow : Workflow) :
  PyDict.get workflow_name (workflows self) = Some workflow ->
  mode workflow = "continuous" ->
  agents_known self (agents workflow) ->
  exists results self',
    run_workflow launch self workflow_name = Ret (results, self')
    /\ (forall k, In k (agents workflow) -> PyDict.get k results = Some true)
    /\ (forall k, ~ In k (agents workflow) -> PyDict.get k results = None)
    /\ attempts self' = (attempts self + List.length (agents workflow))%nat
    /\ agent_runs self'
       = agent_runs self
         ++ [ {| logged_agent_name := "orchestrator";
                 logged_workflow := workflow_name;
                 logged_status := "completed";
                 logged_metrics := results |} ]
    /\ ((forall i, (i < List.length (agents workflow))%nat ->
           is_launched (launch (attempts self + i)) = false) ->
        self_agents self' = self_agents self /\ processes self' = processes self).
Proof.
  intros Hget Hmode Hknown. unfold run_workflow. rewrite Hget, Hmode.
  cbn [String.eqb Ascii.eqb Bool.eqb]. rewrite start_continuous_gather.
  destruct (gather_starts_known (agents workflow) self Hknown)
    as (self1 & Hg & Ha & Hk & Hw & Hr & Hm & Hnone).
  rewrite Hg. cbn [bind]. eexists _, _. split; [reflexivity | ].
  split.
  { intros k Hin. rewrite dict_fold_set_const.
    destruct (in_dec string_dec k (agents workflow)); [reflexivity | contradiction]. }
  split.
  { intros k Hnot. rewrite dict_fold_set_const.
    destruct (in_dec string_dec k (agents workflow)); [contradiction | reflexivity]. }
  cbn [log_run attempts agent_runs self_agents processes].
  split; [exact Ha | ]. split; [now rewrite Hr | exact Hnone].
Qed.

(** X21. The sequential and the parallel mode report each start as it
    went: for a workflow in one of these modes whose agents are known and
    listed once each, the results hold, for the agent at position [i] of
    the list, whether the start attempt number [i] of the run got its
    process started, and nothing for other keys; the run is logged as
    "completed" in either case. *)
Theorem sequential_mode_reports_each_start (self : AgentOrchestrator)
    (workflow_name : string) (workflow : Workflow) :
  PyDict.get workflow_name (workflows self) = Some workflow ->
  mode workflow = "sequential" \/ mode workflow = "parallel" ->
  agents_known self (agents workflow) ->
  NoDup (agents workflow) ->
  exists results self',
    run_workflow launch self workflow_name = Ret (results, self')
    /\ (forall i k,
          nth_error (agents workflow) i = Some k ->
          PyDict.get k results
          = Some (is_launched (launch (attempts self + i))))
    /\ PyDict.keys results = agents workflow
    /\ attempts self' = (attempts self + List.length (agents workflow))%nat
    /\ agent_runs self'
       = agent_runs self
         ++ [ {| logged_agent_name := "orchestrator";
                 logged_workflow := workflow_name;
                 logged_status := "completed";
                 logged_metrics := results |} ].
Proof.
  intros Hget Hmode Hknown Hnd.
  assert (Hrun : run_workflow launch self workflow_name
                 = bind (start_sequential launch self (agents workflow) [])
                     (fun '(results, self) =>
                        Ret (results, log_run self workflow_name results))).
  { destruct Hmode as [Hmode | Hmode].
    - unfold run_workflow. now rewrite Hget, Hmode.
    - unfold run_workflow. rewrite Hget, Hmode.
      cbn [String.eqb Ascii.eqb Bool.eqb]. now rewrite start_sequential_gather. }
  rewrite Hrun, start_sequential_gather.
  destruct (gather_starts_known (agents workflow) self Hknown)
    as (self1 & Hg & Ha & Hk & Hw & Hr & Hm & _).
  rewrite Hg. cbn [bind]. eexists _, _. split; [reflexivity | ].
  set (outcomes := map (fun i => is_launched (launch (attempts self + i)))
                     (seq 0 (List.length (agents workflow)))).
  assert (Hlen : List.length outcomes = List.length (agents workflow)).
  { unfold outcomes. now rewrite length_map, length_seq. }
  assert (Hfst : map fst (combine (agents workflow) outcomes) = agents workflow).
  { clear - Hlen. revert Hlen. generalize outcomes. clear outcomes.
    induction (agents workflow) as [ | t ts IH]; intros [ | r rs] Hlen;
      try discriminate Hlen; cbn; [reflexivity | ].
    f_equal. apply IH. now injection Hlen. }
  split.
  { intros i k Hi. apply (dict_fold_set_last _ _ _ _ i).
    - rewrite nth_error_combine, Hi. unfold outcomes.
      rewrite nth_error_map, nth_error_seq.
      assert (Hlt : (i < List.length (agents workflow))%nat).
      { apply nth_error_Some. congruence. }
      destruct (Nat.ltb_spec i (List.length (agents workflow))); [reflexivity | lia].
    - intros j [k' b] Hlt Hj. cbn [fst]. intros ->.
      rewrite nth_error_combine in Hj.
      destruct (nth_error (agents workflow) j) as [k'' | ] eqn:Ej;
        [ | discriminate Hj].
      destruct (nth_error outcomes j); [ | discriminate Hj].
      injection Hj as -> _.
      rewrite NoDup_nth_error in Hnd.
      assert (i = j); [ | lia].
      apply Hnd; [ | congruence].
      apply nth_error_Some. congruence. }
  split.
  { rewrite <- Hfst at 2.
    apply (dict_keys_fold_set fst snd (combine (agents workflow) outcomes) []).
    cbn [PyDict.keys map app]. now rewrite Hfst. }
  cbn [log_run attempts agent_runs]. split; [exact Ha | now rewrite Hr].
Qed.

(** *** Scores and shutdown *)

Lemma dict_get_in_keys {V} (k : string) (d : PyDict.t V) :
  In k (PyDict.keys d) -> exists a, PyDict.get k d = Some a.
Proof.
  intros Hin. destruct (PyDict.get k d) as [a | ] eqn:E; [now exists a | ].
  exfalso. now apply (dict_get_none _ _ E).
Qed.

(** X22. The system score of an orchestrator with its four agents, [sum]
    adding from left to right: it lies between 0.5 and 0.85, so it is never
    below 0.5 and the recovery branch of the orchestration loop, taken when
    the score is below 0.5, is never taken; and it is below 0.7, the score
    under which the loop runs the performance optimization workflow, exactly
    when at most two of the four agents are active. *)
Theorem system_score_thresholds (self : AgentOrchestrator) :
  four_agents self ->
  exists score,
    calculate_system_score Bridge.sum_left self = Ret score
    /\ PyFloat.ge score 0.5%float = true
    /\ PyFloat.ge 0.85%float score = true
    /\ PrimFloat.ltb score 0.5%float = false
    /\ (PrimFloat.ltb score 0.7%float = true
        <-> (List.length (filter is_active (PyDict.values (self_agents self))) <= 2)%nat).
Proof.
  unfold four_agents, calculate_system_score, get_agent_score.
  destruct (self_agents self)
    as [ | [k1 a1] [ | [k2 a2] [ | [k3 a3] [ | [k4 a4] [ | ]]]]];
    try discriminate.
  cbn [PyDict.keys map fst]. intros H. injection H as -> -> -> ->.
  cbn [PyDict.get String.eqb Ascii.eqb Bool.eqb bind PyDict.values map snd filter].
  unfold is_active.
  destruct (status a1), (status a2), (status a3), (status a4);
    (eexists; split; [reflexivity | ]);
    repeat split; try (vm_compute; reflexivity);
    vm_compute; intros; try discriminate; lia.
Qed.

Lemma stop_agent_known (self : AgentOrchestrator) (k : string) (a : Agent) :
  PyDict.get k (self_agents self) = Some a ->
  stop_agent self k
  = Ret {| self_agents :=
             PyDict.set k (set_status a Bridge.inactive (last_run a))
               (self_agents self);
           workflows := workflows self;
           agent_runs := agent_runs self;
           orchestrator_metrics := orchestrator_metrics self;
           processes := processes self;
           attempts := attempts self |}.
Proof. intros H. unfold stop_agent. now rewrite H. Qed.

Lemma stop_all (keys : list string) :
  forall self,
    agents_known self keys ->
    exists self',
      fold_left (fun r k => bind r (fun self => stop_agent self k)) keys (Ret self)
      = Ret self'
      /\ PyDict.keys (self_agents self') = PyDict.keys (self_agents self)
      /\ workflows self' = workflows self
      /\ agent_runs self' = agent_runs self
      /\ orchestrator_metrics self' = orchestrator_metrics self
      /\ processes self' = processes self
      /\ attempts self' = attempts self
      /\ (forall k a,
            PyDict.get k (self_agents self) = Some a ->
            exists a',
              PyDict.get k (self_agents self') = Some a'
              /\ name a' = name a /\ script a' = script a
              /\ last_run a' = last_run a
              /\ (In k keys -> status a' = Bridge.inactive)
              /\ (~ In k keys -> a' = a)).
Proof.
  induction keys as [ | k0 keys IH]; intros self Hknown; cbn [fold_left].
  - exists self. repeat split; try reflexivity.
    intros k a Ha. exists a. repeat split; auto. intros [].
  - destruct (Hknown k0 (or_introl eq_refl)) as [a0 Ha0].
    cbn [bind]. rewrite (stop_agent_known _ _ _ Ha0).
    set (self1 := {| self_agents := _; workflows := _; agent_runs := _;
                     orchestrator_metrics := _; processes := _; attempts := _ |}).
    assert (Hk1 : PyDict.keys (self_agents self1) = PyDict.keys (self_agents self)).
    { apply (dict_keys_set_same _ _ a0). exact Ha0. }
    destruct (IH self1) as (self2 & Hf & Hk & Hw & Hr & Hm & Hp & Hat & Hall).
    { apply (agents_known_keys self); [exact Hk1 | ].
      intros k' Hin. apply Hknown. now right. }
    exists self2. split; [exact Hf | ].
    split; [congruence | ]. do 5 (split; [assumption | ]).
    intros k a Ha.
    destruct (String.eqb_spec k0 k) as [-> | Hne].
    + destruct (Hall k (set_status a0 Bridge.inactive (last_run a0)))
        as (a' & Hget & Hn & Hs & Hl & Hin & Hnot).
      { cbn [self1 self_agents]. apply dict_get_set_same. }
      assert (a0 = a) by congruence. subst a0.
      exists a'. split; [exact Hget | ]. cbn [set_status name script last_run] in *.
      do 3 (split; [assumption | ]). split.
      * intros _. destruct (in_dec string_dec k keys) as [Hk' | Hk'];
          [now apply Hin | ]. now rewrite (Hnot Hk').
      * intros Hn'. exfalso. apply Hn'. now left.
    + destruct (Hall k a) as (a' & Hget & Hn & Hs & Hl & Hin & Hnot).
      { cbn [self1 self_agents]. rewrite dict_get_set_other; assumption. }
      exists a'. split; [exact Hget | ]. do 3 (split; [assumption | ]). split.
      * intros [Heq | Hin']; [congruence | now apply Hin].
      * intros Hn'. apply Hnot. intros Hin'. apply Hn'. now right.
Qed.

(** X23. [shutdown] marks every agent inactive and stops nothing: it
    returns for every orchestrator; afterwards every agent scores 0.5 and
    keeps its name, its script and the record of its last run; the
    processes started are all still there, no start attempt was made; and
    with the four agents the system score is 0.5 ([sum] adding from left to
    right). *)
Theorem shutdown_stops_no_process (self : AgentOrchestrator) :
  exists self',
    shutdown self = Ret self'
    /\ PyDict.keys (self_agents self') = PyDict.keys (self_agents self)
    /\ (forall k a,
          PyDict.get k (self_agents self) = Some a ->
          exists a',
            PyDict.get k (self_agents self') = Some a'
            /\ status a' = Bridge.inactive
            /\ name a' = name a /\ script a' = script a
            /\ last_run a' = last_run a
            /\ get_agent_score self' k = Ret 0.5%float)
    /\ processes self' = processes self
    /\ attempts self' = attempts self
    /\ (four_agents self ->
        calculate_system_score Bridge.sum_left self' = Ret 0.5%float).
Proof.
  destruct (stop_all (PyDict.keys (self_agents self)) self)
    as (self' & Hf & Hk & _ & _ & _ & Hp & Hat & Hall).
  { intros k Hin. now apply dict_get_in_keys. }
  exists self'. split; [exact Hf | ]. split; [exact Hk | ].
  assert (Hagents : forall k a,
             PyDict.get k (self_agents self) = Some a ->
             exists a',
               PyDict.get k (self_agents self') = Some a'
               /\ status a' = Bridge.inactive
               /\ name a' = name a /\ script a' = script a
               /\ last_run a' = last_run a
               /\ get_agent_score self' k = Ret 0.5%float).
  { intros k a Ha. destruct (Hall k a Ha) as (a' & Hget & Hn & Hs & Hl & Hin & _).
    assert (Hst : status a' = Bridge.inactive).
    { apply Hin. apply dict_get_some_in in Ha. apply in_map_iff. now exists (k, a). }
    exists a'. repeat split; try assumption.
    unfold get_agent_score. now rewrite Hget, Hst. }
  split; [exact Hagents | ]. split; [exact Hp | ]. split; [exact Hat | ].
  intros Hfour. unfold calculate_system_score.
  assert (Hscore : forall k, In k ["performance"; "security"; "monitor"; "quality"] ->
                     get_agent_score self' k = Ret 0.5%float).
  { intros k Hin. rewrite <- Hfour in Hin. apply dict_get_in_keys in Hin.
    destruct Hin as [a Ha]. destruct (Hagents k a Ha) as (a' & _ & _ & _ & _ & _ & H).
    exact H. }
  rewrite !Hscore by (cbn; auto). reflexivity.
Qed.

End AgentRuns.

(** *** The theorems on the orchestrator as constructed *)

(** X18 on the monitor agent of a new orchestrator. *)
Lemma stopped_agent_keeps_its_process_witness :
  exists started stopped,
    Agents.start_agent (fun _ => Agents.launched) (Agents.init [] []) "monitor"
    = Agents.Ret (true, started)
    /\ Agents.stop_agent started "monitor" = Agents.Ret stopped
    /\ Agents.get_agent_score stopped "monitor" = Agents.Ret 0.5%float
    /\ Agents.processes stopped = ["agents/system_monitor.py"].
Proof.
  destruct (stopped_agent_keeps_its_process (fun _ => Agents.launched)
              (Agents.init [] []) "monitor" _ eq_refl eq_refl)
    as (started & stopped & Hstart & Hstop & _ & Hscore & Hp1 & Hp2 & _).
  exists started, stopped.
  split; [exact Hstart | ]. split; [exact Hstop | ]. split; [exact Hscore | ].
  rewrite Hp2, Hp1. reflexivity.
Defined.

(** X19 on the security audit of a new orchestrator. *)
Lemma parallel_mode_is_sequential_witness :
  Agents.run_workflow (fun _ => Agents.launched) (Agents.init [] [])
    "security_audit"
  = Agents.bind
      (Agents.start_sequential (fun _ => Agents.launched) (Agents.init [] [])
         ["security"; "quality"] [])
      (fun '(results, self) =>
         Agents.Ret (results, Agents.log_run self "security_audit" results)).
Proof.
  exact (parallel_mode_is_sequential (fun _ => Agents.launched)
           (Agents.init [] []) "security_audit" _ eq_refl eq_refl).
Defined.

(** X20 on the health workflow of a new orchestrator when no process can be
    started: the monitor stays inactive and the run reports [True]. *)
Lemma continuous_mode_reports_success_witness :
  exists results self',
    Agents.run_workflow (fun _ => Agents.script_missing) (Agents.init [] [])
      "system_health"
    = Agents.Ret (results, self')
    /\ results = [("monitor", true)]
    /\ Agents.self_agents self' = Agents.init_agents
    /\ Agents.processes self' = [].
Proof.
  destruct (continuous_mode_reports_success (fun _ => Agents.script_missing)
              (Agents.init [] []) "system_health" _ eq_refl eq_refl)
    as (results & self' & Hrun & _ & _ & _ & _ & Hnone).
  { intros k [<- | []]. eexists. reflexivity. }
  exists results, self'. split; [exact Hrun | ].
  destruct (Hnone (fun _ _ => eq_refl)) as [Hagents Hprocs].
  split; [ | split; [exact Hagents | exact Hprocs]].
  vm_compute in Hrun. now injection Hrun as <- _.
Defined.

(** X21 on the continuous improvement workflow of a new orchestrator when
    only the second start attempt succeeds. *)
Lemma sequential_mode_reports_each_start_witness :
  exists results self',
    Agents.run_workflow
      (fun i => if Nat.eqb i 1 then Agents.launched else Agents.launch_error)
      (Agents.init [] []) "continuous_improvement"
    = Agents.Ret (results, self')
    /\ results = [("quality", false); ("performance", true); ("security", false)]
    /\ Agents.attempts self' = 3%nat.
Proof.
  destruct (sequential_mode_reports_each_start
              (fun i => if Nat.eqb i 1 then Agents.launched else Agents.launch_error)
              (Agents.init [] []) "continuous_improvement" _ eq_refl
              (or_introl eq_refl))
    as (results & self' & Hrun & _ & _ & Hatt & _).
  { intros k Hin. apply dict_get_in_keys. cbn in Hin. cbn. intuition. }
  { repeat constructor; cbn; intuition discriminate. }
  exists results, self'. split; [exact Hrun | ]. split; [ | exact Hatt].
  vm_compute in Hrun. now injection Hrun as <- _.
Defined.

(** X22 on a new orchestrator: no agent is active and the score is 0.5. *)
Lemma system_score_thresholds_witness :
  exists score,
    Agents.calculate_system_score Bridge.sum_left (Agents.init [] [])
    = Agents.Ret score
    /\ PrimFloat.ltb score 0.5%float = false
    /\ PrimFloat.ltb score 0.7%float = true.
Proof.
  destruct (system_score_thresholds (Agents.init [] []) eq_refl)
    as (score & Hscore & _ & _ & Hlow & Hiff).
  exists score. split; [exact Hscore | ]. split; [exact Hlow | ].
  apply Hiff. cbn. lia.
Defined.

(** ** The first rounds of the orchestration loop *)

Section EarlyRounds.

Import Agents.

Variable launch : nat -> Launch.

Lemma start_monitor_early perf perf_ran mon mon_ran runs rows procs att :
  start_agent launch (early perf perf_ran mon mon_ran runs rows procs att) "monitor"
  = let b := is_launched (launch att) in
    Ret (b,
         early perf perf_ran (activated b mon) (b || mon_ran) runs rows
           (procs ++ spawned b "agents/system_monitor.py") (S att)).
Proof.
  unfold start_agent. cbn [early self_agents attempts]. cbv zeta.
  destruct (launch att); cbn; rewrite ?app_nil_r; reflexivity.
Qed.

Lemma start_performance_early perf perf_ran mon mon_ran runs rows procs att :
  start_agent launch (early perf perf_ran mon mon_ran runs rows procs att)
    "performance"
  = let b := is_launched (launch att) in
    Ret (b,
         early (activated b perf) (b || perf_ran) mon mon_ran runs rows
           (procs ++ spawned b "agents/performance_optimizer.py") (S att)).
Proof.
  unfold start_agent. cbn [early self_agents attempts]. cbv zeta.
  destruct (launch att); cbn; rewrite ?app_nil_r; reflexivity.
Qed.

Lemma system_health_early perf perf_ran mon mon_ran runs rows procs att :
  run_workflow launch (early perf perf_ran mon mon_ran runs rows procs att)
    "system_health"
  = let b := is_launched (launch att) in
    Ret ([("monitor", true)],
         early perf perf_ran (activated b mon) (b || mon_ran)
           (runs ++ [logged "system_health" [("monitor", true)]]) rows
           (procs ++ spawned b "agents/system_monitor.py") (S att)).
Proof.
  unfold run_workflow. cbn [early workflows init_workflows PyDict.get String.eqb
    Ascii.eqb Bool.eqb mode agents start_continuous].
  rewrite start_monitor_early. reflexivity.
Qed.

Lemma performance_optimization_early perf perf_ran mon mon_ran runs rows procs att :
  run_workflow launch (early perf perf_ran mon mon_ran runs rows procs att)
    "performance_optimization"
  = let b1 := is_launched (launch att) in
    let b2 := is_launched (launch (S att)) in
    let results := [("performance", b1); ("monitor", b2)] in
    Ret (results,
         early (activated b1 perf) (b1 || perf_ran) (activated b2 mon)
           (b2 || mon_ran)
           (runs ++ [logged "performance_optimization" results]) rows
           ((procs ++ spawned b1 "agents/performance_optimizer.py")
            ++ spawned b2 "agents/system_monitor.py")
           (S (S att))).
Proof.
  unfold run_workflow. cbn [early workflows init_workflows PyDict.get String.eqb
    Ascii.eqb Bool.eqb mode agents gather_starts].
  rewrite start_performance_early. cbv zeta. cbn [bind].
  rewrite start_monitor_early. reflexivity.
Qed.

Lemma score_early perf perf_ran mon mon_ran runs rows procs att :
  calculate_system_score Bridge.sum_left
    (early perf perf_ran mon mon_ran runs rows procs att)
  = Ret (early_score perf mon).
Proof. reflexivity. Qed.

Lemma early_score_low (perf mon : Bridge.AgentStatus) :
  PrimFloat.ltb (early_score perf mon) 0.5%float = false
  /\ PrimFloat.ltb (early_score perf mon) 0.7%float = true.
Proof. destruct perf, mon; split; vm_compute; reflexivity. Qed.

Lemma early_active_count perf perf_ran mon mon_ran :
  (List.length
     (filter is_active (PyDict.values (early_agents perf perf_ran mon mon_ran)))
   <= 2)%nat.
Proof. destruct perf, mon; cbn; lia. Qed.

(** Before round 30 the schedule asks for the health workflow only. *)
Lemma run_scheduled_early (self : AgentOrchestrator) (i : Z) :
  (1 <= i <= 29)%Z ->
  run_scheduled launch self i init_workflows
  = bind (run_workflow launch self "system_health") (fun '(_, self) => Ret self).
Proof.
  intros Hi. unfold init_workflows. cbn [run_scheduled interval].
  change (300 / 10)%Z with 30%Z. change (10 / 10)%Z with 1%Z.
  change (3600 / 10)%Z with 360%Z. change (600 / 10)%Z with 60%Z.
  change (30 =? 0)%Z with false. change (1 =? 0)%Z with false.
  change (360 =? 0)%Z with false. change (60 =? 0)%Z with false.
  cbv iota.
  assert (H30 : (i mod 30 =? 0)%Z = false).
  { rewrite Z.mod_small by lia. apply Z.eqb_neq. lia. }
  assert (H360 : (i mod 360 =? 0)%Z = false).
  { rewrite Z.mod_small by lia. apply Z.eqb_neq. lia. }
  assert (H60 : (i mod 60 =? 0)%Z = false).
  { rewrite Z.mod_small by lia. apply Z.eqb_neq. lia. }
  rewrite H30, Z.mod_1_r. cbn [Z.eqb].
  destruct (run_workflow launch self "system_health") as [[r s] | k | ];
    cbn [bind]; try reflexivity.
  now rewrite H360, H60.
Qed.

(** One round before round 30, on an orchestrator in which the security
    and the quality agent were never started. *)
Lemma orchestration_round_early perf perf_ran mon mon_ran runs rows procs att
    (i : Z) :
  (1 <= i <= 29)%Z ->
  let b0 := is_launched (launch att) in
  let b1 := is_launched (launch (S att)) in
  let b2 := is_launched (launch (S (S att))) in
  let mon1 := activated b0 mon in
  orchestration_round Bridge.sum_left launch
    (early perf perf_ran mon mon_ran runs rows procs att) i
  = Ret (early (activated b1 perf) (b1 || perf_ran) (activated b2 mon1)
           (b2 || (b0 || mon_ran))
           (runs
            ++ [ logged "system_health" [("monitor", true)];
                 logged "performance_optimization"
                   [("performance", b1); ("monitor", b2)] ])
           (rows
            ++ [ {| active_agents :=
                      List.length
                        (filter is_active
                           (PyDict.values
                              (early_agents perf perf_ran mon1 (b0 || mon_ran))));
                    workflows_running := 4;
                    total_runs := i;
                    metrics_success_rate := 0.95%float;
                    system_score := early_score perf mon1 |} ])
           (procs ++ spawned b0 "agents/system_monitor.py"
            ++ spawned b1 "agents/performance_optimizer.py"
            ++ spawned b2 "agents/system_monitor.py")
           (S (S (S att)))).
Proof.
  intros Hi b0 b1 b2 mon1. unfold orchestration_round.
  change (workflows (early perf perf_ran mon mon_ran runs rows procs att))
    with init_workflows.
  rewrite (run_scheduled_early _ i Hi), system_health_early.
  cbv zeta. cbn [bind]. rewrite score_early. cbn [bind].
  destruct (early_score_low perf mon1) as [H5 H7].
  fold b0. fold mon1. rewrite H5, H7.
  unfold log_metrics. cbn [early self_agents workflows agent_runs
    orchestrator_metrics processes attempts].
  match goal with
  | |- context [run_workflow launch
                  {| self_agents := _; workflows := _; agent_runs := ?r;
                     orchestrator_metrics := ?ms; processes := ?p;
                     attempts := ?a |} "performance_optimization"] =>
      change {| self_agents := early_agents perf perf_ran mon1 (b0 || mon_ran);
                workflows := init_workflows; agent_runs := r;
                orchestrator_metrics := ms; processes := p; attempts := a |}
        with (early perf perf_ran mon1 (b0 || mon_ran) r ms p a)
  end.
  rewrite performance_optimization_early. cbv zeta. cbn [bind].
  fold b1 b2. rewrite <- !app_assoc. reflexivity.
Qed.

Lemma orchestration_rounds_early :
  forall n c perf perf_ran mon mon_ran runs rows procs att,
    (c + n <= 29)%nat ->
    exists perf' perf_ran' mon' mon_ran' new_runs new_rows new_procs,
      orchestration_rounds Bridge.sum_left launch
        (early perf perf_ran mon mon_ran runs rows procs att) (Z.of_nat c) n
      = Ret (early perf' perf_ran' mon' mon_ran' (runs ++ new_runs)
               (rows ++ new_rows) (procs ++ new_procs) (att + 3 * n))
      /\ map logged_workflow new_runs
         = List.concat (repeat ["system_health"; "performance_optimization"] n)
      /\ Forall (fun r => logged_status r = "completed") new_runs
      /\ map total_runs new_rows = map Z.of_nat (seq (S c) n)
      /\ Forall
           (fun m =>
              (active_agents m <= 2)%nat
              /\ PrimFloat.ltb (system_score m) 0.7%float = true
              /\ PrimFloat.ltb (system_score m) 0.5%float = false)
           new_rows
      /\ (List.length new_procs <= 3 * n)%nat
      /\ ((forall i, (i < 3 * n)%nat -> launch (att + i) = launched) ->
          new_procs
          = List.concat
              (repeat
                 [ "agents/system_monitor.py"; "agents/performance_optimizer.py";
                   "agents/system_monitor.py" ] n)).
Proof.
  induction n as [ | n IH];
    intros c perf perf_ran mon mon_ran runs rows procs att Hc.
  - exists perf, perf_ran, mon, mon_ran, [], [], [].
    cbn [orchestration_rounds repeat List.concat map seq List.length].
    rewrite !app_nil_r, Nat.mul_0_r, Nat.add_0_r.
    repeat split; try constructor.
  - cbn [orchestration_rounds].
    rewrite orchestration_round_early by lia. cbv zeta. cbn [bind].
    replace (Z.of_nat c + 1)%Z with (Z.of_nat (S c)) by lia.
    set (b0 := is_launched (launch att)).
    set (b1 := is_launched (launch (S att))).
    set (b2 := is_launched (launch (S (S att)))).
    match goal with
    | |- context [early ?p ?pr ?m ?mr (runs ++ ?r) (rows ++ ?ms) (procs ++ ?ps) ?a] =>
        destruct (IH (S c) p pr m mr (runs ++ r) (rows ++ ms) (procs ++ ps) a
                    ltac:(lia))
          as (perf' & perf_ran' & mon' & mon_ran' & new_runs & new_rows
              & new_procs & Hrun & Hnames & Hdone & Htotal & Hlow & Hlen & Hall);
        exists perf', perf_ran', mon', mon_ran', (r ++ new_runs),
               (ms ++ new_rows), (ps ++ new_procs)
    end.
    rewrite Hrun, <- !app_assoc.
    split; [f_equal; f_equal; lia | ].
    split; [cbn [app map logged logged_workflow repeat List.concat]; now rewrite Hnames | ].
    split; [repeat constructor; exact Hdone | ].
    split; [cbn [app map total_runs seq]; now rewrite Htotal | ].
    split.
    { constructor; [ | exact Hlow]. cbn [active_agents system_score].
      split; [apply early_active_count | ].
      destruct (early_score_low perf (activated b0 mon)) as [H5 H7]. now split. }
    split.
    { rewrite !length_app.
      assert (Hs : forall b x, (List.length (spawned b x) <= 1)%nat)
        by (intros [] x; cbn; lia).
      pose proof (Hs b0 "agents/system_monitor.py").
      pose proof (Hs b1 "agents/performance_optimizer.py").
      pose proof (Hs b2 "agents/system_monitor.py"). lia. }
    intros Hl.
    assert (H0 : b0 = true).
    { unfold b0. rewrite <- (Nat.add_0_r att), Hl by lia. reflexivity. }
    assert (H1 : b1 = true).
    { unfold b1. replace (S att) with (att + 1)%nat by lia.
      rewrite Hl by lia. reflexivity. }
    assert (H2 : b2 = true).
    { unfold b2. replace (S (S att)) with (att + 2)%nat by lia.
      rewrite Hl by lia. reflexivity. }
    rewrite H0, H1, H2. cbn [spawned app repeat List.concat]. rewrite Hall.
    + reflexivity.
    + intros i Hi. replace (S (S (S att)) + i)%nat with (att + (3 + i))%nat by lia.
      apply Hl. lia.
Qed.

(** X24. The first 29 rounds of the orchestration loop of a new
    orchestrator, whatever becomes of the start attempts, [sum] adding from
    left to right. Every round runs the health workflow, finds a system
    score below 0.7 and never below 0.5, and therefore runs the performance
    optimization workflow as well: two runs are logged per round, both
    "completed", and three start attempts are made, for the monitor, the
    performance and again the monitor agent. The security and the quality
    agent are never started; at most two agents are active. When every
    attempt succeeds, three more processes are started in every round. *)
Theorem first_rounds_start_two_agents_only (runs : list RunRow)
    (rows : list MetricsRow) (n : nat) :
  (n <= 29)%nat ->
  exists self' new_runs new_rows,
    orchestration_rounds Bridge.sum_left launch (init runs rows) 0 n = Ret self'
    /\ attempts self' = (3 * n)%nat
    /\ PyDict.get "security" (self_agents self')
       = PyDict.get "security" init_agents
    /\ PyDict.get "quality" (self_agents self')
       = PyDict.get "quality" init_agents
    /\ agent_runs self' = runs ++ new_runs
    /\ map logged_workflow new_runs
       = List.concat (repeat ["system_health"; "performance_optimization"] n)
    /\ Forall (fun r => logged_status r = "completed") new_runs
    /\ orchestrator_metrics self' = rows ++ new_rows
    /\ map total_runs new_rows = map Z.of_nat (seq 1 n)
    /\ Forall
         (fun m =>
            (active_agents m <= 2)%nat
            /\ PrimFloat.ltb (system_score m) 0.7%float = true
            /\ PrimFloat.ltb (system_score m) 0.5%float = false)
         new_rows
    /\ (List.length (processes self') <= 3 * n)%nat
    /\ ((forall i, (i < 3 * n)%nat -> launch i = launched) ->
        processes self'
        = List.concat
            (repeat
               [ "agents/system_monitor.py"; "agents/performance_optimizer.py";
                 "agents/system_monitor.py" ] n)).
Proof.
  intros Hn.
  destruct (orchestration_rounds_early n 0 Bridge.inactive false Bridge.inactive
              false runs rows [] 0 ltac:(lia))
    as (perf' & perf_ran' & mon' & mon_ran' & new_runs & new_rows & new_procs
        & Hrun & Hnames & Hdone & Htotal & Hlow & Hlen & Hall).
  change (early Bridge.inactive false Bridge.inactive false runs rows [] 0)
    with (init runs rows) in Hrun.
  change (Z.of_nat 0) with 0%Z in Hrun.
  eexists _, new_runs, new_rows. split; [exact Hrun | ].
  cbn [early attempts self_agents agent_runs orchestrator_metrics processes app
       Nat.add].
  split; [reflexivity | ].
  split; [destruct perf', mon'; reflexivity | ].
  split; [destruct perf', mon'; reflexivity | ].
  split; [reflexivity | ]. split; [exact Hnames | ]. split; [exact Hdone | ].
  split; [reflexivity | ]. split; [exact Htotal | ]. split; [exact Hlow | ].
  split; [exact Hlen | exact Hall].
Qed.

End EarlyRounds.

(** X24 on two rounds in which every start attempt succeeds. *)
Lemma first_rounds_start_two_agents_only_witness :
  exists self' new_runs new_rows,
    Agents.orchestration_rounds Bridge.sum_left (fun _ => Agents.launched)
      (Agents.init [] []) 0 2
    = Agents.Ret self'
    /\ Agents.attempts self' = 6%nat
    /\ map Agents.logged_workflow (Agents.agent_runs self')
       = [ "system_health"; "performance_optimization";
           "system_health"; "performance_optimization" ]
    /\ map Agents.system_score (Agents.orchestrator_metrics self')
       = [0.5875%float; 0.675%float]
    /\ List.length (Agents.processes self') = 6%nat
    /\ new_runs = Agents.agent_runs self'
    /\ new_rows = Agents.orchestrator_metrics self'.
Proof.
  destruct (first_rounds_start_two_agents_only (fun _ => Agents.launched) [] [] 2
              ltac:(lia))
    as (self' & new_runs & new_rows & Hrun & _ & _ & _ & Hruns & _ & _ & Hrows & _).
  exists self', new_runs, new_rows. split; [exact Hrun | ].
  vm_compute in Hrun. injection Hrun as <-.
  cbn [app] in Hruns, Hrows. subst new_runs new_rows.
  vm_compute. repeat split.
Defined.

(** ** The bridge on the agent orchestrator *)

Section BridgeOnAgents.

Import Agents.

Variable sum : list float -> float.
Variable launch : nat -> Launch.

Lemma started_between_refl (ao : AgentOrchestrator) : started_between launch ao ao.
Proof. repeat split; auto. Qed.

Lemma started_between_trans (a b c : AgentOrchestrator) :
  started_between launch a b -> started_between launch b c ->
  started_between launch a c.
Proof.
  intros (H1 & H2 & H3 & H4) (G1 & G2 & G3 & G4).
  split; [lia | ]. split; [congruence | ]. split; [auto | ].
  intros k Hk. destruct (G4 k Hk) as [Hb | (i & Hi & Hl)].
  - destruct (H4 k Hb) as [Ha | (i & Hi & Hl)]; [now left | right].
    exists i. split; [lia | exact Hl].
  - right. exists i. split; [lia | exact Hl].
Qed.

Lemma start_agent_between (ao : AgentOrchestrator) (k : string) :
  (exists a, PyDict.get k (self_agents ao) = Some a) ->
  exists b ao',
    start_agent launch ao k = Ret (b, ao')
    /\ attempts ao' = S (attempts ao)
    /\ started_between launch ao ao'.
Proof.
  intros [a Ha]. unfold start_agent. rewrite Ha.
  destruct (launch (attempts ao)) eqn:El; eexists _, _;
    (split; [reflexivity | ]); (split; [reflexivity | ]);
    unfold started_between, status_of;
    cbn [attempts self_agents]; (split; [lia | ]).
  - split; [apply (dict_keys_set_same _ _ a); exact Ha | ].
    split.
    + intros k' Hk'. destruct (String.eqb_spec k k') as [<- | Hne].
      * now rewrite dict_get_set_same.
      * now rewrite dict_get_set_other.
    + intros k' Hk'. destruct (String.eqb_spec k k') as [<- | Hne].
      * right. exists (attempts ao). split; [lia | exact El].
      * left. now rewrite dict_get_set_other in Hk'.
  - repeat split; auto.
  - repeat split; auto.
Qed.

Lemma known_between (ao ao' : AgentOrchestrator) (keys : list string) :
  started_between launch ao ao' -> agents_known ao keys -> agents_known ao' keys.
Proof. intros (_ & Hk & _). now apply agents_known_keys. Qed.

Lemma gather_starts_between (keys : list string) :
  forall ao,
    agents_known ao keys ->
    exists l ao',
      gather_starts launch ao keys = Ret (l, ao')
      /\ attempts ao' = (attempts ao + List.length keys)%nat
      /\ started_between launch ao ao'.
Proof.
  induction keys as [ | k keys IH]; intros ao Hknown; cbn [gather_starts List.length].
  - exists [], ao. rewrite Nat.add_0_r.
    repeat split; auto using started_between_refl.
  - destruct (start_agent_between ao k (Hknown k (or_introl eq_refl)))
      as (b & ao1 & Hs & Ha1 & Hb1).
    destruct (IH ao1) as (l & ao2 & Hg & Ha2 & Hb2).
    { apply (known_between ao); [exact Hb1 | ].
      intros k' Hin. apply Hknown. now right. }
    exists (b :: l), ao2. rewrite Hs. cbn [bind]. rewrite Hg. cbn [bind].
    split; [reflexivity | ]. split; [lia | ].
    now apply (started_between_trans ao ao1 ao2).
Qed.

Lemma start_each_gather (keys : list string) :
  forall ao,
    WaveAgentBridge.start_each launch ao keys
    = bind (gather_starts launch ao keys) (fun '(_, ao) => Ret ao).
Proof.
  induction keys as [ | k keys IH]; intros ao;
    cbn [WaveAgentBridge.start_each gather_starts]; [reflexivity | ].
  destruct (start_agent launch ao k) as [[b ao1] | key | ]; cbn [bind];
    try reflexivity.
  rewrite IH. destruct (gather_starts launch ao1 keys) as [[l ao2] | key | ];
    reflexivity.
Qed.

Lemma four_agents_known (ao : AgentOrchestrator) (p : WavePhase) :
  four_agents ao ->
  agents_known ao
    (Bridge.primary (Bridge.phase_agent_map p)
     :: Bridge.secondary (Bridge.phase_agent_map p)).
Proof.
  intros Hfour k Hin. apply dict_get_in_keys. rewrite Hfour.
  destruct p; cbn in Hin; cbn; intuition.
Qed.

(** The starts of a phase: one attempt for the primary agent and one for
    each secondary agent, in this order, whatever the mode. *)
Lemma start_phase_agents_between (ao : AgentOrchestrator) (p : WavePhase) :
  four_agents ao ->
  exists ao',
    WaveAgentBridge.start_phase_agents launch ao p = Ret ao'
    /\ attempts ao'
       = (attempts ao
          + S (List.length (Bridge.secondary (Bridge.phase_agent_map p))))%nat
    /\ started_between launch ao ao'
    /\ four_agents ao'.
Proof.
  intros Hfour. pose proof (four_agents_known ao p Hfour) as Hknown.
  unfold WaveAgentBridge.start_phase_agents. cbv zeta.
  destruct (start_agent_between ao _ (Hknown _ (or_introl eq_refl)))
    as (b & ao1 & Hs & Ha1 & Hb1).
  rewrite Hs. cbn [bind].
  destruct (gather_starts_between
              (Bridge.secondary (Bridge.phase_agent_map p)) ao1)
    as (l & ao2 & Hg & Ha2 & Hb2).
  { apply (known_between ao); [exact Hb1 | ].
    intros k Hin. apply Hknown. now right. }
  exists ao2. rewrite start_each_gather, Hg. cbn [bind].
  split; [now destruct (Bridge.parallel (Bridge.phase_agent_map p)) | ].
  split; [lia | ].
  pose proof (started_between_trans _ _ _ Hb1 Hb2) as Hb.
  split; [exact Hb | ].
  unfold four_agents in *. destruct Hb as (_ & Hk & _). congruence.
Qed.

(** The report of a phase, read from the agent orchestrator, is the one
    the bridge computes from the statuses the agents have by then. *)
Lemma read_phase_report_observed (ao : AgentOrchestrator) (p : WavePhase) :
  four_agents ao ->
  WaveAgentBridge.read_phase_report sum ao p
  = Ret (Bridge.phase_report sum (fun _ a => status_of ao a) p).
Proof.
  unfold four_agents. destruct ao as [ag wf runs rows procs att].
  cbn [self_agents].
  destruct ag as [ | [k1 a1] [ | [k2 a2] [ | [k3 a3] [ | [k4 a4] [ | ]]]]];
    try discriminate.
  cbn [PyDict.keys map fst]. intros H. injection H as -> -> -> ->.
  destruct p; reflexivity.
Qed.

Lemma phase_report_ext (o1 o2 : Bridge.Observed) (p : WavePhase) :
  (forall a, o1 p a = o2 p a) ->
  Bridge.phase_report sum o1 p = Bridge.phase_report sum o2 p.
Proof.
  intros H. unfold Bridge.phase_report. cbv zeta. rewrite H.
  assert (Hfold : forall l d,
             fold_left
               (fun d agent => PyDict.set agent (Bridge.get_agent_score (o1 p agent)) d)
               l d
             = fold_left
                 (fun d agent => PyDict.set agent (Bridge.get_agent_score (o2 p agent)) d)
                 l d).
  { induction l as [ | a l IH]; intros d; cbn [fold_left]; [reflexivity | ].
    now rewrite H, IH. }
  now rewrite Hfold.
Qed.

Lemma phase_reports_ext (o1 o2 : Bridge.Observed) (l : list WavePhase) :
  (forall q a, In q l -> o1 q a = o2 q a) ->
  forall d,
    fold_left (fun d q => PyDict.set (phase_value q) (Bridge.phase_report sum o1 q) d) l d
    = fold_left
        (fun d q => PyDict.set (phase_value q) (Bridge.phase_report sum o2 q) d) l d.
Proof.
  induction l as [ | q l IH]; intros H d; cbn [fold_left]; [reflexivity | ].
  rewrite (phase_report_ext o1 o2 q) by (intros a; apply H; now left).
  apply IH. intros q' a Hin. apply H. now right.
Qed.

Lemma agent_phase_loop_observed (cfg : StrategyConfig) (context : WaveContext)
    (todo : list WavePhase) :
  NoDup todo ->
  forall ao db results,
    four_agents ao ->
    exists observed ao',
      WaveAgentBridge.agent_phase_loop sum launch cfg context todo ao db results
      = Ret (fold_left
               (fun d p =>
                  PyDict.set (phase_value p) (Bridge.phase_report sum observed p) d)
               todo results,
             ao',
             fold_left
               (fun db p =>
                  if checkpoint_due cfg then create_checkpoint db context p else db)
               todo db)
      /\ four_agents ao'
      /\ started_between launch ao ao'
      /\ attempts ao'
         = (attempts ao
            + list_sum
                (map (fun p =>
                        S (List.length
                             (Bridge.secondary (Bridge.phase_agent_map p))))
                   todo))%nat
      /\ (forall p a,
            observed p a = Bridge.active ->
            status_of ao a = Bridge.active
            \/ exists i,
                 (attempts ao <= i < attempts ao')%nat /\ launch i = launched)
      /\ (forall p a,
            status_of ao a = Bridge.active -> In p todo ->
            observed p a = Bridge.active).
Proof.
  induction 1 as [ | p todo Hp Hnd IH]; intros ao db results Hfour;
    cbn [WaveAgentBridge.agent_phase_loop fold_left map list_sum].
  - exists (fun _ _ => Bridge.inactive), ao. rewrite Nat.add_0_r.
    split; [reflexivity | ]. split; [exact Hfour | ].
    split; [apply started_between_refl | ]. split; [reflexivity | ].
    split; [discriminate | intros p a _ []].
  - destruct (start_phase_agents_between ao p Hfour)
      as (ao1 & Hs & Ha1 & Hb1 & Hfour1).
    rewrite Hs. cbn [bind].
    rewrite (read_phase_report_observed ao1 p Hfour1). cbn [bind]. cbv zeta.
    destruct (IH ao1
                (if checkpoint_due cfg then create_checkpoint db context p else db)
                (PyDict.set (phase_value p)
                   (Bridge.phase_report sum (fun _ a => status_of ao1 a) p) results)
                Hfour1)
      as (observed' & ao2 & Hloop & Hfour2 & Hb2 & Ha2 & Hobs & Hact).
    exists (fun q a => if phase_eqb q p then status_of ao1 a else observed' q a), ao2.
    split.
    { rewrite Hloop. f_equal. f_equal. f_equal.
      rewrite (phase_report_ext
                 (fun q a => if phase_eqb q p then status_of ao1 a else observed' q a)
                 (fun _ a => status_of ao1 a) p).
      - apply phase_reports_ext. intros q a Hin.
        destruct (phase_eqb q p) eqn:E; [ | reflexivity].
        apply phase_eqb_eq in E. subst q. contradiction.
      - intros a. now rewrite (proj2 (phase_eqb_eq p p) eq_refl). }
    split; [exact Hfour2 | ].
    split; [now apply (started_between_trans ao ao1 ao2) | ].
    split; [unfold list_sum in *; cbn [fold_right] in *; lia | ].
    destruct Hb1 as (Hle1 & _ & Hmono1 & Horigin1).
    destruct Hb2 as (Hle2 & _ & Hmono2 & Horigin2).
    split.
    + intros q a Hq.
      assert (H1 : status_of ao1 a = Bridge.active
                   \/ exists i, (attempts ao1 <= i < attempts ao2)%nat
                                /\ launch i = launched).
      { destruct (phase_eqb q p); [now left | now apply (Hobs q)]. }
      destruct H1 as [H1 | (i & Hi & Hl)].
      * destruct (Horigin1 a H1) as [H0 | (i & Hi & Hl)]; [now left | right].
        exists i. split; [lia | exact Hl].
      * right. exists i. split; [lia | exact Hl].
    + intros q a Ha Hin. destruct (phase_eqb q p) eqn:E.
      * now apply Hmono1.
      * apply Hact; [now apply Hmono1 | ].
        destruct Hin as [<- | Hin]; [ | exact Hin].
        rewrite (proj2 (phase_eqb_eq p p) eq_refl) in E. discriminate E.
Qed.

(** X25. A wave of the bridge on the agent orchestrator, for a phase list
    without repetition and an orchestrator with its four agents: it raises
    no [KeyError]; it makes one start attempt per agent of each phase, the
    primary agent first, whatever the mode of the phase; the report it
    returns is the one computed from the statuses the agents have when each
    phase reads its scores, the database is left with the checkpoints of the
    wave, and it raises [ZeroDivisionError] exactly when that computation
    does. An agent is read as active only if it was active before the wave
    or a start attempt of the wave succeeded, and an agent active before the
    wave is read as active by every phase. *)
Theorem bridge_wave_on_agents (self : WaveOrchestrator) (ao : AgentOrchestrator)
    (db : Database) (context : WaveContext) :
  four_agents ao ->
  NoDup (wave_phase_list self context) ->
  exists observed ao',
    WaveAgentBridge.execute_wave_with_agents sum launch self ao db context
    = match Bridge.execute_wave_with_agents sum self observed context with
      | Ok report =>
          Ret (report, ao', Bridge.write_checkpoints self db context)
      | Raise _ => ZeroDivision
      end
    /\ four_agents ao'
    /\ attempts ao'
       = (attempts ao
          + list_sum
              (map (fun p =>
                      S (List.length (Bridge.secondary (Bridge.phase_agent_map p))))
                 (wave_phase_list self context)))%nat
    /\ (forall p a,
          observed p a = Bridge.active ->
          status_of ao a = Bridge.active
          \/ exists i,
               (attempts ao <= i < attempts ao')%nat /\ launch i = launched)
    /\ (forall p a,
          status_of ao a = Bridge.active -> In p (wave_phase_list self context) ->
          observed p a = Bridge.active).
Proof.
  intros Hfour Hnd.
  destruct (agent_phase_loop_observed
              (strategy_configs self (strategy context)) context
              (wave_phase_list self context) Hnd ao db [] Hfour)
    as (observed & ao' & Hloop & Hfour' & _ & Hatt & Hobs & Hact).
  exists observed, ao'.
  split; [ | split; [exact Hfour' | split; [exact Hatt | split; assumption]]].
  unfold WaveAgentBridge.execute_wave_with_agents, Bridge.execute_wave_with_agents,
    Bridge.write_checkpoints.
  cbv zeta. rewrite Hloop. cbn [bind].
  destruct (fold_left
              (fun d p =>
                 PyDict.set (phase_value p) (Bridge.phase_report sum observed p) d)
              (wave_phase_list self context) []);
    reflexivity.
Qed.

End BridgeOnAgents.

(** X25 on the adaptive wave of a small target, every start attempt
    succeeding: five attempts, and the wave is a success. *)
Lemma bridge_wave_on_agents_witness :
  exists report ao' db',
    WaveAgentBridge.execute_wave_with_agents Bridge.sum_left
      (fun _ => Agents.launched) init (Agents.init [] []) empty_database
      adaptive_context
    = Agents.Ret (report, ao', db')
    /\ Bridge.status report = "success"
    /\ Agents.attempts ao' = 5%nat
    /\ db' = empty_database.
Proof.
  destruct (bridge_wave_on_agents Bridge.sum_left (fun _ => Agents.launched) init
              (Agents.init [] []) empty_database adaptive_context eq_refl)
    as (observed & ao' & Hrun & _).
  { vm_compute. repeat constructor; cbn; intuition discriminate. }
  eexists _, _, _. split; [vm_compute; reflexivity | ].
  vm_compute. repeat split.
Defined.
